(** * Volume / market-cap screener: a shallow embedding of the tool scripts

    The repository holds three variants of one screening pipeline:
    - [tools/binance.py]            (module [Binance]),
    - [tools/self_time.py]          (module [SelfTime]),
    - [tools/self_time_50bilile.py] (module [SelfTime50]).

    Conventions of the embedding.
    - Python floats and ints that carry money amounts, ratios and clock
      readings are exact rationals ([Q]); rounding, infinities and NaN are
      not modelled.  Python exceptions are explicit ([outcome]).
    - A [dict] keyed by strings is a [gmap string _].
    - The network is a record of response functions ([world]); every
      function that talks to the network also returns the trace of the
      requests it sent.
    - The cache file is explicit state, threaded through the calls.
    - A [date_str] is the calendar date [strptime] makes of it, and API
      records carry values of the documented types.  What the source
      raises on a string that is not a date, on a window that leaves the
      range of [datetime] or on a value of another type is outside the
      model: statements about how a run ends either carry [valid_date]
      and [window_in_range] as hypotheses or speak only of the runs that
      return. *)

From Stdlib Require Import ZArith QArith String Ascii List Bool Lia.
From Stdlib Require Import Permutation Sorted Lqa.
From stdpp Require Import gmap strings.
Import ListNotations.

Local Open Scope Z_scope.
Local Open Scope string_scope.

(** ** Python strings (ASCII fragment) *)

(** [str.upper()] on one character: [a]..[z] are shifted to [A]..[Z]. *)
Definition upper_ascii (c : ascii) : ascii :=
  let n := nat_of_ascii c in
  if (Nat.leb 97 n && Nat.leb n 122)%bool then ascii_of_nat (n - 32) else c.

Fixpoint upper (s : string) : string :=
  match s with
  | EmptyString => EmptyString
  | String c r => String (upper_ascii c) (upper r)
  end.

(** [s.startswith(p)] *)
Fixpoint startswith (p s : string) : bool :=
  match p, s with
  | EmptyString, _ => true
  | String a p', String b s' => (Ascii.eqb a b && startswith p' s')%bool
  | String _ _, EmptyString => false
  end.

(** [s.endswith(p)] *)
Definition endswith (p s : string) : bool :=
  let n := String.length s in
  let k := String.length p in
  (Nat.leb k n && String.eqb (substring (n - k) k s) p)%bool.

(** [s.replace(old, new)] for a non-empty [old]: a left-to-right scan
    that replaces every non-overlapping occurrence.  [skip] counts the
    characters of the occurrence just matched that are still to be
    dropped. *)
Fixpoint replace_from (old new : string) (skip : nat) (s : string) : string :=
  match s with
  | EmptyString => EmptyString
  | String c r =>
      match skip with
      | S k => replace_from old new k r
      | O =>
          if startswith old s
          then new ++ replace_from old new (String.length old - 1) r
          else String c (replace_from old new 0 r)
      end
  end.

Definition replace (old new s : string) : string := replace_from old new 0 s.

(** [symbol.replace("USDT", "").upper()], the base ticker of a contract
    symbol. *)
Definition base_ticker (symbol : string) : string := upper (replace "USDT" "" symbol).

(** [sub in s] *)
Fixpoint contains (sub s : string) : bool :=
  (startswith sub s
   || match s with
      | EmptyString => false
      | String _ r => contains sub r
      end)%bool.

(** ** Numbers, JSON values and exceptions *)

Local Open Scope Q_scope.

(** [x > y] on numbers. *)
Definition Qgtb (x y : Q) : bool := negb (Qle_bool x y).

(** [x >= y] on numbers. *)
Definition Qgeb (x y : Q) : bool := Qle_bool y x.

(** A JSON value found where a number is expected: [null] or a number. *)
Inductive jnum : Type :=
  | JNull
  | JNum (q : Q).

(** Python truthiness: [None], [0] and [0.0] are falsy. *)
Definition truthy (v : jnum) : bool :=
  match v with
  | JNull => false
  | JNum q => negb (Qeq_bool q 0)
  end.

(** Truthiness of a [str]: only the empty string is falsy. *)
Definition truthy_str (s : string) : bool :=
  match s with
  | EmptyString => false
  | String _ _ => true
  end.

(** The market-cap mapping, [Dict[str, float]]. *)
Abbreviation mapping := (gmap string jnum).

(** Truthiness of a [dict]: falsy exactly when it has no entry. *)
Definition truthy_dict (m : mapping) : bool := negb (Nat.eqb (size m) 0).

Inductive exn : Type :=
  | ZeroDivisionError
  | RequestException
  | KeyError.

(** The result of running Python code that may raise. *)
Inductive outcome (A : Type) : Type :=
  | Return (a : A)
  | Raise (e : exn).
Arguments Return {A} a.
Arguments Raise {A} e.

(** [range(a, b)] *)
Definition range (a b : Z) : list Z :=
  map (fun i => (a + Z.of_nat i)%Z) (seq 0 (Z.to_nat (b - a))).

(** [l[:n]]: a negative bound counts from the end of the list. *)
Definition slice_to {A : Type} (n : Z) (l : list A) : list A :=
  if (0 <=? n)%Z then firstn (Z.to_nat n) l
  else firstn (Z.to_nat (Z.of_nat (List.length l) + n)) l.

(** ** Calendar dates ([datetime] at midnight, no [tzinfo]) *)

Record date : Type := mkdate { year : Z; month : Z; day : Z }.

Definition is_leap (y : Z) : bool :=
  ((y mod 4 =? 0) && (negb (y mod 100 =? 0) || (y mod 400 =? 0)))%Z%bool.

Definition days_before_year (y : Z) : Z :=
  (let p := y - 1 in p * 365 + p / 4 - p / 100 + p / 400)%Z.

Definition days_in_month (y m : Z) : Z :=
  (if m =? 2 then (if is_leap y then 29 else 28)
   else if (m =? 4) || (m =? 6) || (m =? 9) || (m =? 11) then 30
   else 31)%Z.

Definition days_before_month (y m : Z) : Z :=
  fold_right Z.add 0%Z (map (days_in_month y) (range 1 m)).

(** [date.toordinal()]: day 1 is 0001-01-01. *)
Definition toordinal (d : date) : Z :=
  (days_before_year (year d) + days_before_month (year d) (month d) + day d)%Z.

(** [date.fromordinal(n)] *)
Definition fromordinal (n : Z) : date :=
  (let z := n - 719163 + 719468 in
   let era := z / 146097 in
   let doe := z - era * 146097 in
   let yoe := (doe - doe / 1460 + doe / 36524 - doe / 146096) / 365 in
   let doy := doe - (365 * yoe + yoe / 4 - yoe / 100) in
   let mp := (5 * doy + 2) / 153 in
   let d := doy - (153 * mp + 2) / 5 + 1 in
   let m := if mp <? 10 then mp + 3 else mp - 9 in
   let y := yoe + era * 400 + (if m <=? 2 then 1 else 0) in
   mkdate y m d)%Z.

(** [d] is a date of the calendar with a year [datetime] can hold: what
    [strptime] returns when it does not raise. *)
Definition is_valid_date (d : date) : bool :=
  ((1 <=? year d) && (year d <=? 9999) && (1 <=? month d) && (month d <=? 12)
   && (1 <=? day d) && (day d <=? days_in_month (year d) (month d)))%Z%bool.

(** [date.max.toordinal()], the ordinal of 9999-12-31. *)
Definition max_ordinal : Z := 3652059.

(** [d - timedelta(days=i)] *)
Definition minus_days (d : date) (i : Z) : date := fromordinal (toordinal d - i).

(** [d + timedelta(days=i)] *)
Definition plus_days (d : date) (i : Z) : date := fromordinal (toordinal d + i).

(** Seconds between 1970-01-01 00:00 and [d] 00:00 on the wall clock that
    shows [d], with no time zone applied. *)
Definition wall_seconds (d : date) : Z := ((toordinal d - 719163) * 86400)%Z.

(** The UTC midnight that starts the calendar date [d], in epoch seconds. *)
Definition utc_midnight (d : date) : Z := wall_seconds d.

(** ** The outside world *)

(** An HTTP exchange: [raise_for_status] or the transport raised, or a
    JSON body was decoded. *)
Inductive response (A : Type) : Type :=
  | HttpError
  | Json (body : A).
Arguments HttpError {A}.
Arguments Json {A} body.

(** One record of [/coins/markets]; a field is [None] when its key is
    absent from the record. *)
Record coin : Type := mkcoin {
  coin_symbol : option string;
  coin_market_cap : option jnum
}.

(** Query parameters of [/fapi/v1/klines]. *)
Record kline_params : Type := mkparams {
  p_symbol : string;
  p_interval : string;
  p_startTime : Z;
  p_endTime : Z;
  p_limit : Z
}.

(** Columns 4 and 5 of a candle, after [float()]. *)
Record kline : Type := mkkline { k_close : Q; k_volume : Q }.

(** One entry of [exchangeInfo.symbols]. *)
Record symbol_info : Type := mkinfo { i_symbol : string; i_contractType : string }.

(** One [/fapi/v1/ticker/24hr] record, with the keys and the numeric
    values the exchange documents.  The last two fields are options
    because [self_time.py] reads them with [.get] and a default; a record
    without ["symbol"] or ["quoteVolume"], and a value [float] rejects,
    are outside the model. *)
Record ticker : Type := mkticker {
  t_symbol : string;
  t_quoteVolume : Q;
  t_lastPrice : option Q;
  t_priceChangePercent : option Q
}.

Record world : Type := mkworld {
  coingecko_markets : Z -> response (list coin);
  exchange_info : response (list symbol_info);
  klines : kline_params -> response (list kline);
  ticker_24hr : string -> response ticker;
  ticker_24hr_all : response (list ticker);
  (** offset of the process's local time zone from UTC, in seconds, at a
      given wall-clock reading *)
  utcoffset : Z -> Z;
  (** [datetime.utcnow()] as a calendar date *)
  utc_today : date
}.

Inductive request : Type :=
  | ReqMarkets (page : Z)
  | ReqExchangeInfo
  | ReqKlines (params : kline_params)
  | ReqTicker (symbol : string)
  | ReqTickerAll.

(** [d.timestamp()] for a naive [datetime] at midnight of [d]: the value
    is read as local time. *)
Definition timestamp (w : world) (d : date) : Z :=
  (wall_seconds d - utcoffset w (wall_seconds d))%Z.

(** ** Screening results *)

Record ScreeningResult : Type := mkresult {
  r_symbol : string;
  r_volume_usdt : Q;
  r_market_cap : Q;
  r_ratio : Q;
  r_price : Q;
  r_change : Q;
  r_tag : string
}.

(** [f"{base}/USDT:USDT"] *)
Definition make_tag (base : string) : string := base ++ "/USDT:USDT".

Definition exclude_symbols : gset string := {[ "BTC"; "ETH" ]}.

(** Stable insertion of [x] into a list sorted by descending ratio: [x]
    goes in front of the first element whose ratio is not larger. *)
Fixpoint insert_desc (x : ScreeningResult) (l : list ScreeningResult) : list ScreeningResult :=
  match l with
  | [] => [x]
  | y :: r => if Qle_bool (r_ratio y) (r_ratio x) then x :: l else y :: insert_desc x r
  end.

(** [sorted(l, key=lambda x: x["ratio"], reverse=True)]: a stable sort,
    the elements of equal ratio keep their order. *)
Fixpoint sort_by_ratio_desc (l : list ScreeningResult) : list ScreeningResult :=
  match l with
  | [] => []
  | x :: r => insert_desc x (sort_by_ratio_desc r)
  end.

(** What a finished future holds. *)
Abbreviation future := (outcome (option ScreeningResult)).

(** [for future in as_completed(futures): res = future.result(); ...]:
    results are appended in completion order, the first exception met is
    raised again. *)
Fixpoint collect (done : list future) (results : list ScreeningResult) : outcome (list ScreeningResult) :=
  match done with
  | [] => Return results
  | Raise e :: _ => Raise e
  | Return None :: rest => collect rest results
  | Return (Some res) :: rest => collect rest (results ++ [res])
  end.

(** ** tools/self_time.py *)

Module SelfTime.

(** The cache file after [json.load]: an object whose ["timestamp"] and
    ["data"] keys may be absent, or something that makes the [try] block
    raise (unreadable, not JSON, not an object). *)
Inductive cache_json : Type :=
  | CacheObject (timestamp : option Q) (data : option mapping)
  | CacheBroken.

(** The body of [for coin in data]. *)
Definition add_coin (market_caps : mapping) (c : coin) : mapping :=
  let symbol := upper (default "" (coin_symbol c)) in
  let market_cap := default JNull (coin_market_cap c) in
  if (truthy_str symbol && truthy market_cap)%bool
  then <[symbol := market_cap]> market_caps
  else market_caps.

(** [for page in range(1, pages + 1)], with its two [break]s. *)
Fixpoint fetch_pages (w : world) (todo : list Z) (market_caps : mapping)
  : mapping * list request :=
  match todo with
  | [] => (market_caps, [])
  | page :: rest =>
      match coingecko_markets w page with
      | HttpError => (market_caps, [ReqMarkets page])
      | Json [] => (market_caps, [ReqMarkets page])
      | Json data =>
          let '(m, tr) := fetch_pages w rest (fold_left add_coin data market_caps) in
          (m, ReqMarkets page :: tr)
      end
  end.

(** [file] is the state of [cache_path] ([None]: no such file), [now] is
    [time.time()], [writable] tells whether opening the file for writing
    succeeds.  Returns the mapping, the new state of the file and the
    requests sent. *)
Definition get_coingecko_market_caps (w : world) (writable : bool)
    (file : option cache_json) (pages : Z) (cache_ttl : Q) (now : Q)
  : mapping * option cache_json * list request :=
  let refetch :=
    let '(market_caps, tr) := fetch_pages w (range 1 (pages + 1)) ∅ in
    let file' :=
      if writable then Some (CacheObject (Some now) (Some market_caps)) else file in
    (market_caps, file', tr) in
  match file with
  | Some (CacheObject timestamp data) =>
      if Qgtb cache_ttl (now - default 0 timestamp)
      then (default ∅ data, file, [])
      else refetch
  | Some CacheBroken => refetch
  | None => refetch
  end.

Definition get_usdt_perpetual_symbols (w : world) : outcome (list string) :=
  match exchange_info w with
  | HttpError => Raise RequestException
  | Json symbols =>
      Return (map i_symbol
                (filter (fun s => (endswith "USDT" (i_symbol s)
                                   && String.eqb (i_contractType s) "PERPETUAL")%bool)
                        symbols))
  end.

Definition get_daily_volume (w : world) (symbol : string) (date_str : date)
  : outcome Q * list request :=
  let start_ts := (timestamp w date_str * 1000)%Z in
  let end_ts := (timestamp w (plus_days date_str 1) * 1000)%Z in
  let params := mkparams symbol "1d" start_ts end_ts 1 in
  match klines w params with
  | HttpError => (Raise RequestException, [ReqKlines params])
  | Json [] => (Return 0, [ReqKlines params])
  | Json (k :: _) => (Return (k_close k * k_volume k), [ReqKlines params])
  end.

(** The [try] around the live ticker request: price and change, both 0
    when the request fails. *)
Definition latest_ticker (w : world) (symbol : string) : Q * Q :=
  match ticker_24hr w symbol with
  | HttpError => (0, 0)
  | Json t => (default 0 (t_lastPrice t), default 0 (t_priceChangePercent t))
  end.

(** [for i in range(days)] of [_check_symbol_volume_ratio]. *)
Fixpoint check_days (w : world) (symbol base : string) (market_cap : Q)
    (date_str : date) (threshold : Q) (offsets : list Z)
  : future * list request :=
  match offsets with
  | [] => (Return None, [])
  | i :: rest =>
      let check_date := minus_days date_str i in
      let '(fetched, tr) := get_daily_volume w symbol check_date in
      let volume_usdt := match fetched with Return v => v | Raise _ => 0 end in
      if Qeq_bool market_cap 0 then (Raise ZeroDivisionError, tr)
      else
        let ratio := volume_usdt / market_cap in
        if Qgtb ratio threshold then
          let '(price, change) := latest_ticker w symbol in
          (Return (Some (mkresult symbol volume_usdt market_cap ratio
                                  price change (make_tag base))),
           (tr ++ [ReqTicker symbol])%list)
        else
          let '(res, tr') := check_days w symbol base market_cap date_str threshold rest in
          (res, (tr ++ tr')%list)
  end.

Definition _check_symbol_volume_ratio (w : world) (symbol base : string)
    (market_cap : Q) (date_str : date) (days : Z) (threshold : Q)
  : future * list request :=
  check_days w symbol base market_cap date_str threshold (range 0 days).

(** The loop that submits one task per eligible symbol; the list holds
    what each future will return, in submission order. *)
Fixpoint submit_all (w : world) (cg_market_caps : mapping) (symbols : list string)
    (date_str : date) (days : Z) (threshold : Q) : list future :=
  match symbols with
  | [] => []
  | symbol :: rest =>
      let futures := submit_all w cg_market_caps rest date_str days threshold in
      let base := base_ticker symbol in
      if bool_decide (base ∈ exclude_symbols) then futures
      else
        match cg_market_caps !! base with
        | Some (JNum market_cap) =>
            if Qeq_bool market_cap 0 then futures
            else fst (_check_symbol_volume_ratio w symbol base market_cap
                        date_str days threshold) :: futures
        | Some JNull => futures
        | None => futures
        end
  end.

(** [as_completed] is the order in which the pool finishes the futures.
    [pages] and [cache_ttl] are the defaults of
    [get_coingecko_market_caps], 7 and one week. *)
Definition get_high_volume_to_marketcap_contracts (w : world)
    (as_completed : list future -> list future)
    (writable : bool) (file : option cache_json) (now : Q)
    (date_str : option date) (days : Z) (threshold : Q) (limit : Z)
  : outcome (list ScreeningResult) * option cache_json :=
  let date_str := default (utc_today w) date_str in
  let '(cg_market_caps, file', _) :=
    get_coingecko_market_caps w writable file 7 (60 * 60 * 24 * 7) now in
  match get_usdt_perpetual_symbols w with
  | Raise e => (Raise e, file')
  | Return symbols =>
      let futures := submit_all w cg_market_caps symbols date_str days threshold in
      match collect (as_completed futures) [] with
      | Raise e => (Raise e, file')
      | Return results => (Return (slice_to limit (sort_by_ratio_desc results)), file')
      end
  end.

(** How a run of [backtesting_filter] ends: it printed [tags] and
    returned; it printed [tags] and then raised while computing the date
    range it prints last; or the screener raised and nothing was listed. *)
Inductive listing : Type :=
  | Listed (tags : list string)
  | ListedThenRaised (tags : list string)
  | NotListed (e : exn).

(** [backtesting_filter]: the function prints; the value kept here is
    [tags], the list it prints, in the order of the ranking.  The limit is
    the default of the screener, 200.  After the tags the function parses
    [date_str] again and adds [days] days to it: [strptime] raises on what
    is not a date, the addition raises when the sum leaves the range of
    [datetime]. *)
Definition backtesting_filter (w : world)
    (as_completed : list future -> list future)
    (writable : bool) (file : option cache_json) (now : Q)
    (date_str : date) (days : Z) (threshold : Q)
  : listing * option cache_json :=
  match get_high_volume_to_marketcap_contracts w as_completed writable file now
          (Some date_str) days threshold 200 with
  | (Raise e, file') => (NotListed e, file')
  | (Return filtered, file') =>
      let tags := map r_tag filtered in
      let end_ordinal := (toordinal date_str + days)%Z in
      if (is_valid_date date_str
          && (1 <=? end_ordinal)%Z && (end_ordinal <=? max_ordinal)%Z)%bool
      then (Listed tags, file')
      else (ListedThenRaised tags, file')
  end.

End SelfTime.

(** ** tools/self_time_50bilile.py *)

Module SelfTime50.

(** The text of [get_coingecko_market_caps], [get_usdt_perpetual_symbols]
    and [get_daily_volume] is that of [self_time.py] up to the request
    timeout, the proxy and a [time.sleep] between pages, none of which
    has a counterpart in the model. *)
Definition get_coingecko_market_caps := SelfTime.get_coingecko_market_caps.
Definition get_usdt_perpetual_symbols := SelfTime.get_usdt_perpetual_symbols.
Definition get_daily_volume := SelfTime.get_daily_volume.
Definition latest_ticker := SelfTime.latest_ticker.

(** [for i in range(days)] of [_check_symbol_volume_ratio]; a zero market
    cap makes every iteration [continue] after its volume request. *)
Fixpoint check_days (w : world) (symbol base : string) (market_cap : Q)
    (date_str : date) (threshold : Q) (offsets : list Z)
  : future * list request :=
  match offsets with
  | [] => (Return None, [])
  | i :: rest =>
      let check_date := minus_days date_str i in
      let '(fetched, tr) := get_daily_volume w symbol check_date in
      let volume_usdt := match fetched with Return v => v | Raise _ => 0 end in
      if Qeq_bool market_cap 0 then
        let '(res, tr') := check_days w symbol base market_cap date_str threshold rest in
        (res, (tr ++ tr')%list)
      else
        let ratio := volume_usdt / market_cap in
        if Qgtb ratio threshold then
          let '(price, change) := latest_ticker w symbol in
          (Return (Some (mkresult symbol volume_usdt market_cap ratio
                                  price change (make_tag base))),
           (tr ++ [ReqTicker symbol])%list)
        else
          let '(res, tr') := check_days w symbol base market_cap date_str threshold rest in
          (res, (tr ++ tr')%list)
  end.

Definition _check_symbol_volume_ratio (w : world) (symbol base : string)
    (market_cap : Q) (date_str : date) (days : Z) (threshold : Q)
  : future * list request :=
  check_days w symbol base market_cap date_str threshold (range 0 days).

Fixpoint submit_all (w : world) (cg_market_caps : mapping) (symbols : list string)
    (date_str : date) (days : Z) (threshold : Q) (max_market_cap : Q) : list future :=
  match symbols with
  | [] => []
  | symbol :: rest =>
      let futures :=
        submit_all w cg_market_caps rest date_str days threshold max_market_cap in
      let base := base_ticker symbol in
      if bool_decide (base ∈ exclude_symbols) then futures
      else
        match cg_market_caps !! base with
        | Some (JNum market_cap) =>
            if Qeq_bool market_cap 0 then futures
            else if Qgtb market_cap max_market_cap then futures
            else fst (_check_symbol_volume_ratio w symbol base market_cap
                        date_str days threshold) :: futures
        | Some JNull => futures
        | None => futures
        end
  end.

Definition get_high_volume_to_marketcap_contracts (w : world)
    (as_completed : list future -> list future)
    (writable : bool) (file : option SelfTime.cache_json) (now : Q)
    (date_str : option date) (days : Z) (threshold : Q) (limit : Z)
    (max_market_cap : Q)
  : outcome (list ScreeningResult) * option SelfTime.cache_json :=
  let date_str := default (utc_today w) date_str in
  let '(cg_market_caps, file', _) :=
    get_coingecko_market_caps w writable file 7 (60 * 60 * 24 * 7) now in
  match get_usdt_perpetual_symbols w with
  | Raise e => (Raise e, file')
  | Return symbols =>
      let futures :=
        submit_all w cg_market_caps symbols date_str days threshold max_market_cap in
      match collect (as_completed futures) [] with
      | Raise e => (Raise e, file')
      | Return results => (Return (slice_to limit (sort_by_ratio_desc results)), file')
      end
  end.

(** The JSON object written to [output_path]. *)
Record output_data : Type := mkoutput { pairs : list string; refresh_period : Z }.

(** How a run of [backtesting_filter] ends: the file was generated, the
    screener raised, or creating the directory or opening the file
    raised. *)
Inductive run_end : Type :=
  | Generated
  | ScreenerRaised (e : exn)
  | OutputRaised.

(** [output] is the state of the file at [output_path], [out_writable]
    tells whether the directory can be made and the file opened.  The
    limit and the market-cap ceiling are the defaults of the screener. *)
Definition backtesting_filter (w : world)
    (as_completed : list future -> list future)
    (writable : bool) (file : option SelfTime.cache_json) (now : Q)
    (date_str : date) (days : Z) (threshold : Q)
    (out_writable : bool) (output : option output_data)
  : run_end * option SelfTime.cache_json * option output_data :=
  match get_high_volume_to_marketcap_contracts w as_completed writable file now
          (Some date_str) days threshold 200 5000000000 with
  | (Raise e, file') => (ScreenerRaised e, file', output)
  | (Return filtered, file') =>
      let tags := map r_tag filtered in
      let output_data := mkoutput tags 3600 in
      if out_writable then (Generated, file', Some output_data)
      else (OutputRaised, file', output)
  end.

End SelfTime50.

(** ** tools/binance.py *)

Module Binance.

(** The cache file: its modification time and what [json.load] makes of
    it ([None] when reading or decoding raises). *)
Record cache_file : Type := mkfile { mtime : Q; content : option mapping }.

Definition get_all_usdt_contracts (w : world) : outcome (list ticker) :=
  match ticker_24hr_all w with
  | HttpError => Raise RequestException
  | Json all_contracts =>
      Return (filter (fun c => endswith "USDT" (t_symbol c)) all_contracts)
  end.

(** [for item in data]: a record without ["symbol"] or ["market_cap"]
    raises [KeyError], which ends the page; what was stored before stays. *)
Fixpoint add_items (data : list coin) (market_caps : mapping) : mapping :=
  match data with
  | [] => market_caps
  | item :: rest =>
      match coin_symbol item, coin_market_cap item with
      | Some symbol, Some market_cap =>
          add_items rest (<[upper symbol := market_cap]> market_caps)
      | _, _ => market_caps
      end
  end.

(** [for page in range(1, pages + 1)]; the [except] only prints. *)
Fixpoint fetch_pages (w : world) (todo : list Z) (market_caps : mapping)
  : mapping * list request :=
  match todo with
  | [] => (market_caps, [])
  | page :: rest =>
      let market_caps' :=
        match coingecko_markets w page with
        | HttpError => market_caps
        | Json data => add_items data market_caps
        end in
      let '(m, tr) := fetch_pages w rest market_caps' in
      (m, ReqMarkets page :: tr)
  end.

(** [now] is [time.time()] at the expiry test, [wtime] the modification
    time the file gets if it is written. *)
Definition get_coingecko_market_caps (w : world) (writable : bool)
    (file : option cache_file) (pages : Z) (cache_ttl : Q) (now wtime : Q)
  : mapping * option cache_file * list request :=
  let refetch :=
    let '(market_caps, tr) := fetch_pages w (range 1 (pages + 1)) ∅ in
    if truthy_dict market_caps then
      (market_caps,
       (if writable then Some (mkfile wtime (Some market_caps)) else file),
       tr)
    else
      match file with
      | Some (mkfile _ (Some cached)) => (cached, file, tr)
      | Some (mkfile _ None) => (∅, file, tr)
      | None => (∅, file, tr)
      end in
  match file with
  | Some (mkfile mtime (Some cached)) =>
      if Qgtb cache_ttl (now - mtime) then (cached, file, []) else refetch
  | Some (mkfile _ None) => refetch
  | None => refetch
  end.

(** [for c in contracts] of [get_high_volume_to_marketcap_contracts]. *)
Fixpoint screen (cg_market_caps : mapping) (threshold : Q)
    (contracts : list ticker) (result : list ScreeningResult) : outcome (list ScreeningResult) :=
  match contracts with
  | [] => Return result
  | c :: rest =>
      let symbol := t_symbol c in
      if negb (endswith "USDT" symbol) then screen cg_market_caps threshold rest result
      else
        let base := base_ticker symbol in
        if bool_decide (base ∈ exclude_symbols)
        then screen cg_market_caps threshold rest result
        else
          let volume := t_quoteVolume c in
          match t_lastPrice c, t_priceChangePercent c with
          | Some price, Some change =>
              let tag := make_tag base in
              match cg_market_caps !! base with
              | Some (JNum market_cap) =>
                  if Qeq_bool market_cap 0
                  then screen cg_market_caps threshold rest result
                  else
                    let ratio := volume / market_cap in
                    if Qgeb ratio threshold
                    then screen cg_market_caps threshold rest
                           (result ++ [mkresult symbol volume market_cap ratio
                                                price change tag])%list
                    else screen cg_market_caps threshold rest result
              | Some JNull => screen cg_market_caps threshold rest result
              | None => screen cg_market_caps threshold rest result
              end
          | _, _ => Raise KeyError
          end
  end.

Definition get_high_volume_to_marketcap_contracts (w : world)
    (writable : bool) (file : option cache_file) (now wtime : Q)
    (threshold : Q) (limit : Z)
  : outcome (list ScreeningResult) * option cache_file :=
  match get_all_usdt_contracts w with
  | Raise e => (Raise e, file)
  | Return contracts =>
      let '(cg_market_caps, file', _) :=
        get_coingecko_market_caps w writable file 7 (60 * 60 * 168) now wtime in
      match screen cg_market_caps threshold contracts [] with
      | Raise e => (Raise e, file')
      | Return result => (Return (slice_to limit (sort_by_ratio_desc result)), file')
      end
  end.

(** [main]: the function prints; the value kept here is [tags]. *)
Definition main (w : world) (writable : bool) (file : option cache_file)
    (now wtime : Q) : outcome (list string) * option cache_file :=
  match get_high_volume_to_marketcap_contracts w writable file now wtime (7 # 10) 200 with
  | (Raise e, file') => (Raise e, file')
  | (Return filtered, file') => (Return (map r_tag filtered), file')
  end.

End Binance.

(** ** tools/cal.py *)

Module Cal.

Definition calculate_return (risk_reward_ratio win_rate num_trades : Q) : Q :=
  let win_trades := win_rate * num_trades in
  let loss_trades := num_trades - win_trades in
  let total_profit := win_trades * risk_reward_ratio in
  let total_loss := loss_trades in
  let total_return := total_profit - total_loss in
  total_return.

End Cal.

(** ** Vocabulary of the statements *)

(** The list is ranked: ratios never increase from one element to any
    later one. *)
Definition ranked (l : list ScreeningResult) : Prop :=
  StronglySorted (fun a b => r_ratio b <= r_ratio a) l.

(** What one day's candle request yields once a failure counts as 0. *)
Definition volume_on (w : world) (symbol : string) (d : date) : Q :=
  let start_ts := (timestamp w d * 1000)%Z in
  let end_ts := (timestamp w (plus_days d 1) * 1000)%Z in
  match klines w (mkparams symbol "1d" start_ts end_ts 1) with
  | HttpError => 0
  | Json [] => 0
  | Json (k :: _) => k_close k * k_volume k
  end.

(** The candle request for [symbol] on the day [d]. *)
Definition day_request (w : world) (symbol : string) (d : date) : request :=
  ReqKlines (mkparams symbol "1d" (timestamp w d * 1000)
                      (timestamp w (plus_days d 1) * 1000) 1).

(** The candle requests for the days at the given offsets before
    [date_str], in that order. *)
Definition day_requests (w : world) (symbol : string) (date_str : date)
    (offsets : list Z) : list request :=
  map (fun i => day_request w symbol (minus_days date_str i)) offsets.

(** The day [i] days before [date_str] qualifies. *)
Definition qualifies (w : world) (symbol : string) (market_cap : Q)
    (date_str : date) (threshold : Q) (i : Z) : Prop :=
  threshold < volume_on w symbol (minus_days date_str i) / market_cap.

(** The result reported for the day [i] days before [date_str]. *)
Definition hit (w : world) (symbol base : string) (market_cap : Q)
    (date_str : date) (i : Z) : ScreeningResult :=
  let v := volume_on w symbol (minus_days date_str i) in
  mkresult symbol v market_cap (v / market_cap)
           (fst (SelfTime.latest_ticker w symbol))
           (snd (SelfTime.latest_ticker w symbol))
           (make_tag base).

(** The records of a page, none when the request fails. *)
Definition page_data (w : world) (page : Z) : list coin :=
  match coingecko_markets w page with
  | HttpError => []
  | Json data => data
  end.

(** A page that makes the loop of [self_time.py] go on. *)
Definition page_good (w : world) (page : Z) : Prop :=
  exists c data, coingecko_markets w page = Json (c :: data).

(** A page that makes the loop of [self_time.py] stop. *)
Definition page_stops (w : world) (page : Z) : Prop :=
  coingecko_markets w page = HttpError \/ coingecko_markets w page = Json [].

(** The cache of [self_time.py] is younger than [cache_ttl]. *)
Definition cache_fresh (file : option SelfTime.cache_json) (cache_ttl now : Q) : bool :=
  match file with
  | Some (SelfTime.CacheObject timestamp _) => Qgtb cache_ttl (now - default 0 timestamp)
  | Some SelfTime.CacheBroken => false
  | None => false
  end.

(** The snapshot invariant as the specification words it: upper-case
    keys, values that are numbers, non-negative and not 0. *)
Definition snapshot_ok (m : mapping) : Prop :=
  forall k v, m !! k = Some v ->
    upper k = k /\ exists q, v = JNum q /\ 0 <= q /\ ~ q == 0.

(** What the filter of [self_time.py] does establish: upper-case,
    non-empty keys and values that are numbers other than 0. *)
Definition snapshot_filtered (m : mapping) : Prop :=
  forall k v, m !! k = Some v ->
    upper k = k /\ k <> "" /\ exists q, v = JNum q /\ ~ q == 0.

Definition keys_upper (m : mapping) : Prop :=
  forall k v, m !! k = Some v -> upper k = k.

(** The cache of [binance.py] is readable and younger than [cache_ttl]. *)
Definition binance_cache_fresh (file : option Binance.cache_file) (cache_ttl now : Q) : bool :=
  match file with
  | Some (Binance.mkfile mtime (Some _)) => Qgtb cache_ttl (now - mtime)
  | Some (Binance.mkfile _ None) => false
  | None => false
  end.

(** The pages [pages] merged in that order into [acc], with the filter of
    [self_time.py]. *)
Definition merge_pages (w : world) (pages : list Z) (acc : mapping) : mapping :=
  fold_left (fun m page => fold_left SelfTime.add_coin (page_data w page) m) pages acc.

(** The same with the page loop of [binance.py]. *)
Definition merge_pages_binance (w : world) (pages : list Z) (acc : mapping) : mapping :=
  fold_left (fun m page => Binance.add_items (page_data w page) m) pages acc.

(** The record [c] passes the filter of [self_time.py] and is stored
    under the key [k]. *)
Definition stored_under (k : string) (c : coin) : bool :=
  let symbol := upper (default "" (coin_symbol c)) in
  (truthy_str symbol && truthy (default JNull (coin_market_cap c))
   && String.eqb symbol k)%bool.

(** All the records of the pages [pages], in the order they are read. *)
Definition records (w : world) (pages : list Z) : list coin :=
  List.concat (map (page_data w) pages).

(** Two results of equal ratio are one and the same result. *)
Definition ties_identical (fs : list future) : Prop :=
  forall a b, In (Return (Some a)) fs -> In (Return (Some b)) fs ->
              r_ratio a == r_ratio b -> a = b.

(** The contract [c] makes the loop of [binance.py] raise: it is neither
    skipped for its suffix nor excluded, and one of the two keys read with
    [c[...]] is missing. *)
Definition lacks_key (c : ticker) : bool :=
  (endswith "USDT" (t_symbol c)
   && negb (bool_decide (base_ticker (t_symbol c) ∈ exclude_symbols))
   && match t_lastPrice c, t_priceChangePercent c with
      | Some _, Some _ => false
      | _, _ => true
      end)%bool.

(** Two outcomes of a scan agree on everything but the two fields taken
    from the live ticker. *)
Definition same_but_ticker (a b : future) : Prop :=
  match a, b with
  | Return (Some r), Return (Some r') =>
      r_symbol r = r_symbol r' /\ r_volume_usdt r = r_volume_usdt r' /\
      r_market_cap r = r_market_cap r' /\ r_ratio r = r_ratio r' /\
      r_tag r = r_tag r'
  | Return None, Return None => True
  | Raise e, Raise e' => e = e'
  | _, _ => False
  end.

(** The results held by the futures that returned one, in the order of
    the futures. *)
Fixpoint successes (fs : list future) : list ScreeningResult :=
  match fs with
  | [] => []
  | Return (Some r) :: rest => r :: successes rest
  | _ :: rest => successes rest
  end.

(** The cache file of [self_time.py] holds a filtered snapshot, or no
    snapshot at all: this is what the file looks like when only
    [get_coingecko_market_caps] ever wrote it. *)
Definition cache_filtered (file : option SelfTime.cache_json) : Prop :=
  match file with
  | Some (SelfTime.CacheObject _ (Some data)) => snapshot_filtered data
  | _ => True
  end.

(** The same for the cache file of [binance.py] and upper-case keys. *)
Definition binance_cache_upper (bfile : option Binance.cache_file) : Prop :=
  match bfile with
  | Some (Binance.mkfile _ (Some cached)) => keys_upper cached
  | _ => True
  end.

(** [d] is a date [strptime] can return. *)
Definition valid_date (d : date) : Prop := is_valid_date d = true.

(** The days at offsets 0 .. days-1 before [d] are dates [datetime] can
    hold: the subtraction in the day loop does not overflow. *)
Definition window_in_range (d : date) (days : Z) : Prop :=
  (1 <= toordinal d - Z.max 0 (days - 1))%Z.

(** ** Concrete worlds *)

(** Every request fails; the local zone is UTC. *)
Definition offline : world := {|
  coingecko_markets := fun _ => HttpError;
  exchange_info := HttpError;
  klines := fun _ => HttpError;
  ticker_24hr := fun _ => HttpError;
  ticker_24hr_all := HttpError;
  utcoffset := fun _ => 0%Z;
  utc_today := mkdate 2025 6 3
|}.

(** The scenario of the specification: three contracts, market caps
    A: 100, B: 200, C: 0, daily volumes A: 60, B: 90.  The local zone is
    UTC+8. *)
Definition scenario : world := {|
  coingecko_markets := fun page =>
    if (page =? 1)%Z
    then Json [mkcoin (Some "a") (Some (JNum 100));
               mkcoin (Some "b") (Some (JNum 200));
               mkcoin (Some "c") (Some (JNum 0))]
    else Json [];
  exchange_info := Json [mkinfo "AUSDT" "PERPETUAL"; mkinfo "BUSDT" "PERPETUAL";
                         mkinfo "CUSDT" "PERPETUAL"; mkinfo "BTCUSDT" "PERPETUAL"];
  klines := fun p =>
    if String.eqb (p_symbol p) "AUSDT" then Json [mkkline 60 1]
    else if String.eqb (p_symbol p) "BUSDT" then Json [mkkline 90 1]
    else HttpError;
  ticker_24hr := fun s => Json (mkticker s 0 (Some 1) (Some 2));
  ticker_24hr_all := Json [mkticker "AUSDT" 50 (Some 1) (Some 2);
                           mkticker "BUSDT" 90 (Some 3) (Some 4)];
  utcoffset := fun _ => 28800%Z;
  utc_today := mkdate 2025 6 3
|}.

(** The first page fails, the second one answers. *)
Definition flaky : world := {|
  coingecko_markets := fun page =>
    if (page =? 2)%Z then Json [mkcoin (Some "x") (Some (JNum 7))] else HttpError;
  exchange_info := HttpError;
  klines := fun _ => HttpError;
  ticker_24hr := fun _ => HttpError;
  ticker_24hr_all := HttpError;
  utcoffset := fun _ => 0%Z;
  utc_today := mkdate 2025 6 3
|}.

(** One page with a negative market cap. *)
Definition negative_cap : world := {|
  coingecko_markets := fun page =>
    if (page =? 1)%Z then Json [mkcoin (Some "abc") (Some (JNum (-5)))] else Json [];
  exchange_info := HttpError;
  klines := fun _ => HttpError;
  ticker_24hr := fun _ => HttpError;
  ticker_24hr_all := HttpError;
  utcoffset := fun _ => 0%Z;
  utc_today := mkdate 2025 6 3
|}.

(** Every request fails; the local zone is one hour ahead of UTC until
    2025-03-30 02:00 on the wall clock and two hours ahead from then on. *)
Definition summer_time : world := {|
  coingecko_markets := fun _ => HttpError;
  exchange_info := HttpError;
  klines := fun _ => HttpError;
  ticker_24hr := fun _ => HttpError;
  ticker_24hr_all := HttpError;
  utcoffset := fun t =>
    (if t <? wall_seconds (mkdate 2025 3 30) + 7200 then 3600 else 7200)%Z;
  utc_today := mkdate 2025 3 30
|}.

(** The scenario with the live ticker out of order. *)
Definition scenario_without_ticker : world := {|
  coingecko_markets := coingecko_markets scenario;
  exchange_info := exchange_info scenario;
  klines := klines scenario;
  ticker_24hr := fun _ => HttpError;
  ticker_24hr_all := HttpError;
  utcoffset := utcoffset scenario;
  utc_today := utc_today scenario
|}.

(** The same coin on two pages, then an empty page. *)
Definition duplicated : world := {|
  coingecko_markets := fun page =>
    if (page =? 1)%Z
    then Json [mkcoin (Some "btc") (Some (JNum 1)); mkcoin (Some "eth") (Some (JNum 2))]
    else if (page =? 2)%Z
    then Json [mkcoin (Some "Btc") (Some (JNum 3)); mkcoin (Some "btc") (Some (JNum 0))]
    else Json [];
  exchange_info := HttpError;
  klines := fun _ => HttpError;
  ticker_24hr := fun _ => HttpError;
  ticker_24hr_all := HttpError;
  utcoffset := fun _ => 0%Z;
  utc_today := mkdate 2025 6 3
|}.

(** A cache written long ago. *)
Definition stale : mapping := {[ "ABC" := JNum 5 ]}.

(** ** Basic facts *)

Lemma Qgtb_true (x y : Q) : Qgtb x y = true <-> y < x.
Proof.
  unfold Qgtb. rewrite negb_true_iff, <- not_true_iff_false, Qle_bool_iff.
  split; [apply Qnot_le_lt | apply Qlt_not_le].
Qed.

Lemma Qgtb_false (x y : Q) : Qgtb x y = false <-> ~ y < x.
Proof. rewrite <- Qgtb_true. destruct (Qgtb x y); intuition congruence. Qed.

Lemma Qgeb_true (x y : Q) : Qgeb x y = true <-> y <= x.
Proof. unfold Qgeb. apply Qle_bool_iff. Qed.

Lemma upper_ascii_idem (c : ascii) : upper_ascii (upper_ascii c) = upper_ascii c.
Proof. destruct c as [[] [] [] [] [] [] [] []]; reflexivity. Qed.

Lemma upper_idem (s : string) : upper (upper s) = upper s.
Proof. induction s as [|c s IH]; simpl; [reflexivity|]. now rewrite upper_ascii_idem, IH. Qed.

Lemma range_nil (a b : Z) : (b <= a)%Z -> range a b = [].
Proof. intros H. unfold range. replace (Z.to_nat (b - a)) with 0%nat by lia. reflexivity. Qed.

Lemma range_cons (a b : Z) : (a < b)%Z -> range a b = a :: range (a + 1) b.
Proof.
  intros H. unfold range.
  replace (Z.to_nat (b - a)) with (S (Z.to_nat (b - (a + 1)))) by lia.
  simpl. f_equal; [lia|].
  rewrite <- seq_shift, map_map. apply map_ext. intros i. lia.
Qed.

Lemma range_split (a i b : Z) :
  (a <= i < b)%Z -> range a b = (range a i ++ i :: range (i + 1) b)%list.
Proof.
  intros H. remember (Z.to_nat (i - a)) as n eqn:Hn.
  revert a H Hn. induction n as [|n IH]; intros a H Hn.
  - assert (a = i) by lia. subst a. rewrite (range_nil i i) by lia. simpl.
    apply range_cons. lia.
  - rewrite (range_cons a b) by lia. rewrite (range_cons a i) by lia. simpl.
    f_equal. apply IH; lia.
Qed.

Lemma in_range (a b x : Z) : In x (range a b) <-> (a <= x < b)%Z.
Proof.
  unfold range. rewrite in_map_iff. split.
  - intros (i & <- & Hi). apply in_seq in Hi. lia.
  - intros H. exists (Z.to_nat (x - a)). split; [lia|]. apply in_seq. lia.
Qed.

(** ** The base ticker (C9) *)

(** An occurrence of the suffix cannot start inside [p] unless [p] itself
    starts with it: the four letters of the suffix are pairwise distinct. *)
Lemma startswith_USDT_app (p : string) :
  startswith "USDT" p = false ->
  p <> "" ->
  startswith "USDT" (p ++ "USDT") = false.
Proof.
  intros H Hne.
  destruct p as [|c1 [|c2 [|c3 [|c4 r]]]]; [congruence| | | |exact H];
    cbv beta iota zeta delta [String.append startswith] in *;
    repeat match goal with
           | |- context [Ascii.eqb ?a ?b] =>
               destruct (Ascii.eqb_spec a b); subst; cbn [andb]
           end; try reflexivity; try discriminate.
Qed.

Lemma replace_USDT_suffix (p : string) :
  contains "USDT" p = false -> replace "USDT" "" (p ++ "USDT") = p.
Proof.
  unfold replace. induction p as [|c r IH]; intros H.
  - reflexivity.
  - assert (Hs : startswith "USDT" (String c r) = false /\ contains "USDT" r = false).
    { cbn [contains] in H. apply orb_false_iff in H. exact H. }
    destruct Hs as [Hs Hc].
    pose proof (startswith_USDT_app (String c r) Hs ltac:(discriminate)) as Happ.
    change (String c r ++ "USDT") with (String c (r ++ "USDT")) in *.
    cbn [replace_from]. rewrite Happ. f_equal. apply IH, Hc.
Qed.

(** C9, as amended: for a contract symbol [p ++ "USDT"] whose part [p]
    before the suffix does not contain "USDT", the base ticker used by the
    screeners is [p] upper-cased, that is the symbol with its trailing
    "USDT" stripped and the remainder upper-cased. *)
Theorem C9_base_ticker_strips_suffix (p : string) :
  contains "USDT" p = false ->
  base_ticker (p ++ "USDT") = upper p.
Proof. intros H. unfold base_ticker. now rewrite replace_USDT_suffix. Qed.

Lemma C9_base_ticker_witness :
  contains "USDT" "1000shib" = false /\ base_ticker ("1000shib" ++ "USDT") = "1000SHIB".
Proof.
  split; [reflexivity|].
  apply (C9_base_ticker_strips_suffix "1000shib"). reflexivity.
Defined.

(** C9, as stated, fails: [replace] removes every occurrence of "USDT",
    not only the trailing one. *)
Lemma C9_inner_occurrence_removed :
  endswith "USDT" "XUSDTYUSDT" = true /\
  base_ticker ("XUSDTY" ++ "USDT") = "XY" /\
  base_ticker ("XUSDTY" ++ "USDT") <> upper "XUSDTY".
Proof.
  split; [reflexivity | split; [reflexivity |]].
  intros H. vm_compute in H. discriminate H.
Qed.

(** ** The threshold comparison (C1) *)

Lemma SelfTime_check_days_strict w symbol base market_cap date_str threshold offsets r :
  fst (SelfTime.check_days w symbol base market_cap date_str threshold offsets)
    = Return (Some r) ->
  threshold < r_ratio r.
Proof.
  induction offsets as [|i rest IH]; cbn [SelfTime.check_days]; [discriminate|].
  destruct (SelfTime.get_daily_volume w symbol (minus_days date_str i)) as [fetched tr].
  destruct (Qeq_bool market_cap 0); [discriminate|].
  destruct (Qgtb _ threshold) eqn:Hgt.
  - destruct (SelfTime.latest_ticker w symbol). cbn. intros [= <-]. cbn.
    now apply Qgtb_true.
  - destruct (SelfTime.check_days _ _ _ _ _ _ rest). exact IH.
Qed.

Lemma SelfTime50_check_days_strict w symbol base market_cap date_str threshold offsets r :
  fst (SelfTime50.check_days w symbol base market_cap date_str threshold offsets)
    = Return (Some r) ->
  threshold < r_ratio r.
Proof.
  induction offsets as [|i rest IH]; cbn [SelfTime50.check_days]; [discriminate|].
  destruct (SelfTime50.get_daily_volume w symbol (minus_days date_str i)) as [fetched tr].
  destruct (Qeq_bool market_cap 0).
  - destruct (SelfTime50.check_days _ _ _ _ _ _ rest). exact IH.
  - destruct (Qgtb _ threshold) eqn:Hgt.
    + destruct (SelfTime50.latest_ticker w symbol). cbn. intros [= <-]. cbn.
      now apply Qgtb_true.
    + destruct (SelfTime50.check_days _ _ _ _ _ _ rest). exact IH.
Qed.

(** What [binance.py] returns has a ratio at or above the threshold. *)
Lemma Binance_screen_ratio cg threshold contracts acc l :
  Forall (fun r => threshold <= r_ratio r) acc ->
  Binance.screen cg threshold contracts acc = Return l ->
  Forall (fun r => threshold <= r_ratio r) l.
Proof.
  revert acc. induction contracts as [|c rest IH]; intros acc Hacc; cbn [Binance.screen].
  - now intros [= <-].
  - destruct (negb _); [now apply IH|].
    destruct (bool_decide _); [now apply IH|].
    destruct (t_lastPrice c) as [price|]; [|discriminate].
    destruct (t_priceChangePercent c) as [change|]; [|discriminate].
    destruct (cg !! base_ticker (t_symbol c)) as [[|market_cap]|]; try now apply IH.
    destruct (Qeq_bool market_cap 0); [now apply IH|].
    destruct (Qgeb _ threshold) eqn:Hge; [|now apply IH].
    apply IH. apply Forall_app. split; [exact Hacc|].
    constructor; [|constructor]. cbn. now apply Qgeb_true.
Qed.

(** C1: [binance.py] compares with [>=].  In the scenario world contract
    AUSDT has a 24h volume of 50 and a market cap of 100; with a threshold
    of 1/2 its ratio equals the threshold and it is returned all the same. *)
Theorem C1_binance_keeps_ratio_equal_to_threshold :
  fst (Binance.get_high_volume_to_marketcap_contracts scenario true None 0 0 (1 # 2) 200)
    = Return [mkresult "AUSDT" 50 100 (50 / 100) 1 2 "A/USDT:USDT"]
  /\ 50 / 100 == 1 # 2.
Proof. split; reflexivity. Qed.

(** ** Division by a zero market cap (C7) *)

(** The day loop of [self_time.py] has no guard: called with a market cap
    of 0 and a window of one day it raises [ZeroDivisionError], whatever
    the network answers. *)
Lemma SelfTime_scan_divides_by_zero (w : world) :
  fst (SelfTime._check_symbol_volume_ratio w "XUSDT" "X" 0 (mkdate 2025 6 3) 1 (7 # 10))
    = Raise ZeroDivisionError.
Proof.
  unfold SelfTime._check_symbol_volume_ratio.
  change (range 0 1) with [0%Z]. cbn [SelfTime.check_days].
  destruct (SelfTime.get_daily_volume w "XUSDT" _) as [fetched tr].
  reflexivity.
Qed.


(** The guarded loop of [self_time_50bilile.py] never raises. *)
Lemma SelfTime50_check_days_returns w symbol base market_cap date_str threshold offsets :
  exists res, fst (SelfTime50.check_days w symbol base market_cap date_str threshold offsets)
              = Return res.
Proof.
  induction offsets as [|i rest [res IH]]; cbn [SelfTime50.check_days]; [now eexists|].
  destruct (SelfTime50.get_daily_volume w symbol (minus_days date_str i)) as [fetched tr].
  destruct (SelfTime50.check_days _ _ _ _ _ _ rest) as [res' tr']. cbn in IH. subst res'.
  destruct (Qeq_bool market_cap 0); [now eexists|].
  destruct (Qgtb _ threshold); [|now eexists].
  destruct (SelfTime50.latest_ticker w symbol). now eexists.
Qed.

(** With a zero market cap the guarded loop reports nothing. *)
Lemma SelfTime50_zero_market_cap w symbol base market_cap date_str threshold offsets :
  market_cap == 0 ->
  fst (SelfTime50.check_days w symbol base market_cap date_str threshold offsets)
    = Return None.
Proof.
  intros Hz. apply Qeq_bool_iff in Hz.
  induction offsets as [|i rest IH]; cbn [SelfTime50.check_days]; [reflexivity|].
  destruct (SelfTime50.get_daily_volume w symbol (minus_days date_str i)) as [fetched tr].
  rewrite Hz. destruct (SelfTime50.check_days _ _ _ _ _ _ rest). exact IH.
Qed.

(** ** The window of the candle request (C10) *)

(** C10: the date is parsed without a time zone and [timestamp()] reads it
    as local time.  In a process whose zone is UTC+8 the request for
    2025-06-03 starts at 2025-06-02 16:00 UTC, eight hours before the UTC
    midnight of that date. *)
Theorem C10_window_is_local_midnight :
  snd (SelfTime.get_daily_volume scenario "BTCUSDT" (mkdate 2025 6 3))
    = [ReqKlines (mkparams "BTCUSDT" "1d" 1748880000000 1748966400000 1)]
  /\ (utc_midnight (mkdate 2025 6 3) * 1000 = 1748908800000)%Z
  /\ (utc_midnight (plus_days (mkdate 2025 6 3) 1) * 1000 = 1748995200000)%Z.
Proof. repeat split; reflexivity. Qed.

(** When the local zone is UTC the request does cover the UTC day. *)
Lemma get_daily_volume_utc w symbol d :
  (forall t, utcoffset w t = 0%Z) ->
  snd (SelfTime.get_daily_volume w symbol d)
    = [ReqKlines (mkparams symbol "1d" (utc_midnight d * 1000)
                           (utc_midnight (plus_days d 1) * 1000) 1)].
Proof.
  intros Hutc. unfold SelfTime.get_daily_volume, timestamp, utc_midnight.
  rewrite !Hutc, !Z.sub_0_r.
  destruct (klines w _) as [|[|k ks]]; reflexivity.
Qed.

(** Across a change to summer time the two bounds are 23 hours apart. *)
Lemma window_across_summer_time :
  snd (SelfTime.get_daily_volume summer_time "BTCUSDT" (mkdate 2025 3 30))
    = [ReqKlines (mkparams "BTCUSDT" "1d" 1743289200000 1743372000000 1)]
  /\ (1743372000000 - 1743289200000 = 23 * 3600 * 1000)%Z.
Proof. split; reflexivity. Qed.

(** [fromordinal] and [toordinal] agree on every day from 2020-01-01 to
    2029-12-31, by enumeration. *)
Lemma ordinal_roundtrip_checked (n : Z) :
  (737425 <= n < 741078)%Z -> toordinal (fromordinal n) = n.
Proof.
  intros Hn.
  assert (Hall : forallb (fun k => (toordinal (fromordinal k) =? k)%Z)
                         (range 737425 741078) = true) by (vm_compute; reflexivity).
  rewrite forallb_forall in Hall. apply Z.eqb_eq, Hall, in_range, Hn.
Qed.

(** In a zone with a fixed offset the two bounds of the request are 24
    hours apart. *)
Lemma window_is_one_day w d offset :
  (forall t, utcoffset w t = offset) ->
  (737425 <= toordinal d + 1 < 741078)%Z ->
  (timestamp w (plus_days d 1) * 1000 - timestamp w d * 1000 = 86400000)%Z.
Proof.
  intros Hfixed Hd. unfold timestamp, wall_seconds, plus_days.
  rewrite !Hfixed, ordinal_roundtrip_checked by assumption. lia.
Qed.

(** ** The page loop (C5) *)

Lemma SelfTime_fetch_pages_all w todo acc :
  Forall (page_good w) todo ->
  SelfTime.fetch_pages w todo acc = (merge_pages w todo acc, map ReqMarkets todo).
Proof.
  revert acc. induction todo as [|page rest IH]; intros acc Hgood; [reflexivity|].
  inversion Hgood as [|? ? (c & data & Hpage) Hrest]; subst.
  cbn [SelfTime.fetch_pages merge_pages fold_left map].
  unfold page_data at 1. rewrite Hpage, IH by assumption.
  unfold page_data. rewrite Hpage. reflexivity.
Qed.

Lemma SelfTime_fetch_pages_stop w pre stop post acc :
  Forall (page_good w) pre ->
  page_stops w stop ->
  SelfTime.fetch_pages w (pre ++ stop :: post) acc
    = (merge_pages w pre acc, map ReqMarkets (pre ++ [stop])).
Proof.
  revert acc. induction pre as [|page rest IH]; intros acc Hgood Hstop.
  - cbn. destruct Hstop as [-> | ->]; reflexivity.
  - inversion Hgood as [|? ? (c & data & Hpage) Hrest]; subst.
    cbn [app SelfTime.fetch_pages merge_pages fold_left map].
    rewrite Hpage, IH by assumption.
    unfold page_data. rewrite Hpage. reflexivity.
Qed.

Lemma Binance_fetch_pages_all w todo acc :
  Binance.fetch_pages w todo acc = (merge_pages_binance w todo acc, map ReqMarkets todo).
Proof.
  revert acc. induction todo as [|page rest IH]; intros acc; [reflexivity|].
  cbn [Binance.fetch_pages merge_pages_binance fold_left map].
  rewrite IH. unfold page_data.
  destruct (coingecko_markets w page); reflexivity.
Qed.

Lemma SelfTime_cache_miss w writable file pages cache_ttl now :
  cache_fresh file cache_ttl now = false ->
  SelfTime.get_coingecko_market_caps w writable file pages cache_ttl now
    = (let '(market_caps, tr) := SelfTime.fetch_pages w (range 1 (pages + 1)) ∅ in
       (market_caps,
        (if writable then Some (SelfTime.CacheObject (Some now) (Some market_caps))
         else file),
        tr)).
Proof.
  unfold cache_fresh, SelfTime.get_coingecko_market_caps.
  destruct file as [[timestamp data|]|]; try reflexivity.
  intros ->. reflexivity.
Qed.

Lemma Binance_cache_miss w writable file pages cache_ttl now wtime :
  binance_cache_fresh file cache_ttl now = false ->
  Binance.get_coingecko_market_caps w writable file pages cache_ttl now wtime
    = (let '(market_caps, tr) := Binance.fetch_pages w (range 1 (pages + 1)) ∅ in
       if truthy_dict market_caps then
         (market_caps,
          (if writable then Some (Binance.mkfile wtime (Some market_caps)) else file),
          tr)
       else
         (match file with
          | Some (Binance.mkfile _ (Some cached)) => cached
          | _ => ∅
          end, file, tr)).
Proof.
  unfold binance_cache_fresh, Binance.get_coingecko_market_caps.
  destruct (Binance.fetch_pages w (range 1 (pages + 1)) ∅) as [market_caps tr].
  destruct file as [[mtime [cached|]]|]; try (intros ->);
    destruct (truthy_dict market_caps); reflexivity.
Qed.

(** C5, as amended: on a cache miss the variants [self_time.py] and
    [self_time_50bilile.py] request pages 1, 2, ... in ascending order, at
    most [pages] of them, and stop with the first page that fails or is
    empty: if pages 1..k answer with entries and page k+1 (when k < pages)
    stops the loop, the requests are exactly pages 1..min(k+1, pages) and
    the returned mapping is the merge of pages 1..k.  [binance.py]
    requests all of the pages 1..pages in ascending order, whatever they
    answer, and a non-empty merge of all of them is what it returns. *)
Theorem C5_page_loop (w : world) (writable : bool) (pages k : Z) (cache_ttl now wtime : Q)
    (file : option SelfTime.cache_json) (bfile : option Binance.cache_file) :
  cache_fresh file cache_ttl now = false ->
  binance_cache_fresh bfile cache_ttl now = false ->
  (0 <= k <= Z.max 0 pages)%Z ->
  (forall p, (1 <= p <= k)%Z -> page_good w p) ->
  ((k < pages)%Z -> page_stops w (k + 1)) ->
  (let '(m, _, tr) :=
     SelfTime.get_coingecko_market_caps w writable file pages cache_ttl now in
   m = merge_pages w (range 1 (k + 1)) ∅ /\
   tr = map ReqMarkets (range 1 (Z.min (k + 1) pages + 1)))
  /\
  (let '(m, _, tr) :=
     SelfTime50.get_coingecko_market_caps w writable file pages cache_ttl now in
   m = merge_pages w (range 1 (k + 1)) ∅ /\
   tr = map ReqMarkets (range 1 (Z.min (k + 1) pages + 1)))
  /\
  (let '(m, _, tr) :=
     Binance.get_coingecko_market_caps w writable bfile pages cache_ttl now wtime in
   tr = map ReqMarkets (range 1 (pages + 1)) /\
   (truthy_dict (merge_pages_binance w (range 1 (pages + 1)) ∅) = true ->
    m = merge_pages_binance w (range 1 (pages + 1)) ∅)).
Proof.
  intros Hmiss Hbmiss Hk Hgood Hstop.
  assert (Hself :
    SelfTime.fetch_pages w (range 1 (pages + 1)) ∅
      = (merge_pages w (range 1 (k + 1)) ∅,
         map ReqMarkets (range 1 (Z.min (k + 1) pages + 1)))).
  { assert (Hpre : Forall (page_good w) (range 1 (k + 1))).
    { apply List.Forall_forall. intros p Hp. apply in_range in Hp. apply Hgood. lia. }
    destruct (Z_lt_le_dec k pages) as [Hlt | Hge].
    - rewrite (range_split 1 (k + 1) (pages + 1)) by lia.
      rewrite SelfTime_fetch_pages_stop by auto.
      replace (Z.min (k + 1) pages + 1)%Z with (k + 1 + 1)%Z by lia.
      rewrite (range_split 1 (k + 1) (k + 1 + 1)) by lia.
      rewrite (range_nil (k + 1 + 1) (k + 1 + 1)) by lia. reflexivity.
    - assert (Hr : range 1 (pages + 1) = range 1 (k + 1)).
      { destruct (Z_le_gt_dec pages 0).
        - rewrite !range_nil by lia. reflexivity.
        - replace k with pages by lia. reflexivity. }
      rewrite Hr, SelfTime_fetch_pages_all by assumption.
      f_equal. f_equal.
      destruct (Z_le_gt_dec pages 0).
      + rewrite !range_nil by lia. reflexivity.
      + f_equal. lia. }
  split; [|split].
  - rewrite SelfTime_cache_miss, Hself by assumption. split; reflexivity.
  - unfold SelfTime50.get_coingecko_market_caps.
    rewrite SelfTime_cache_miss, Hself by assumption. split; reflexivity.
  - rewrite Binance_cache_miss, Binance_fetch_pages_all by assumption.
    destruct (truthy_dict _); (split; [reflexivity|]); [reflexivity | discriminate].
Qed.

Lemma C5_page_loop_witness :
  (let '(m, _, tr) :=
     SelfTime.get_coingecko_market_caps scenario true None 7 604800 1000 in
   m = merge_pages scenario (range 1 (1 + 1)) ∅ /\
   tr = map ReqMarkets (range 1 (Z.min (1 + 1) 7 + 1)))
  /\
  (let '(m, _, tr) :=
     SelfTime50.get_coingecko_market_caps scenario true None 7 604800 1000 in
   m = merge_pages scenario (range 1 (1 + 1)) ∅ /\
   tr = map ReqMarkets (range 1 (Z.min (1 + 1) 7 + 1)))
  /\
  (let '(m, _, tr) :=
     Binance.get_coingecko_market_caps scenario true None 7 604800 1000 1001 in
   tr = map ReqMarkets (range 1 (7 + 1)) /\
   (truthy_dict (merge_pages_binance scenario (range 1 (7 + 1)) ∅) = true ->
    m = merge_pages_binance scenario (range 1 (7 + 1)) ∅)).
Proof.
  apply (C5_page_loop scenario true 7 1 604800 1000 1001 None None).
  - reflexivity.
  - reflexivity.
  - lia.
  - intros p Hp. assert (p = 1%Z) as -> by lia. eexists _, _. reflexivity.
  - intros _. right. reflexivity.
Defined.

(** C5, as stated, fails for [binance.py]: its [except] has no [break].
    Page 1 fails, page 2 is requested all the same and its entry is in the
    returned mapping. *)
Lemma C5_binance_goes_on_after_failure :
  coingecko_markets flaky 1 = HttpError /\
  Binance.get_coingecko_market_caps flaky true None 2 604800 1000 1001
    = ({[ "X" := JNum 7 ]},
       Some (Binance.mkfile 1001 (Some {[ "X" := JNum 7 ]})),
       [ReqMarkets 1; ReqMarkets 2]).
Proof. split; reflexivity. Qed.

(** ** The snapshot invariant (C4) *)

Lemma snapshot_filtered_empty : snapshot_filtered ∅.
Proof. intros k v H. rewrite lookup_empty in H. discriminate. Qed.

Lemma add_coin_filtered m c :
  snapshot_filtered m -> snapshot_filtered (SelfTime.add_coin m c).
Proof.
  intros Hm. unfold SelfTime.add_coin.
  destruct (truthy_str _ && truthy _)%bool eqn:Hkeep; [|exact Hm].
  apply andb_true_iff in Hkeep. destruct Hkeep as [Hsym Hcap].
  intros k v Hkv. apply lookup_insert_Some in Hkv.
  destruct Hkv as [[<- <-] | [_ Hkv]]; [|now apply Hm].
  split; [apply upper_idem|]. split.
  - intros Hempty. rewrite Hempty in Hsym. discriminate.
  - destruct (default JNull (coin_market_cap c)) as [|q]; [discriminate|].
    exists q. split; [reflexivity|]. cbn in Hcap.
    apply negb_true_iff in Hcap. intros Hq. apply Qeq_bool_iff in Hq. congruence.
Qed.

Lemma fold_add_coin_filtered data m :
  snapshot_filtered m -> snapshot_filtered (fold_left SelfTime.add_coin data m).
Proof.
  revert m. induction data as [|c data IH]; intros m Hm; [exact Hm|].
  cbn. apply IH, add_coin_filtered, Hm.
Qed.

Lemma SelfTime_fetch_pages_filtered w todo m :
  snapshot_filtered m -> snapshot_filtered (fst (SelfTime.fetch_pages w todo m)).
Proof.
  revert m. induction todo as [|page rest IH]; intros m Hm; [exact Hm|].
  cbn [SelfTime.fetch_pages].
  destruct (coingecko_markets w page) as [|[|c data]]; try exact Hm.
  specialize (IH (fold_left SelfTime.add_coin (c :: data) m)
                 (fold_add_coin_filtered _ _ Hm)).
  destruct (SelfTime.fetch_pages w rest _). exact IH.
Qed.

Lemma add_items_keys_upper data m :
  keys_upper m -> keys_upper (Binance.add_items data m).
Proof.
  revert m. induction data as [|item data IH]; intros m Hm; [exact Hm|].
  cbn [Binance.add_items].
  destruct (coin_symbol item) as [symbol|]; [|exact Hm].
  destruct (coin_market_cap item) as [cap|]; [|exact Hm].
  apply IH. intros k v Hkv. apply lookup_insert_Some in Hkv.
  destruct Hkv as [[<- _] | [_ Hkv]]; [apply upper_idem | now apply (Hm k v)].
Qed.

Lemma Binance_fetch_pages_keys_upper w todo m :
  keys_upper m -> keys_upper (fst (Binance.fetch_pages w todo m)).
Proof.
  revert m. induction todo as [|page rest IH]; intros m Hm; [exact Hm|].
  cbn [Binance.fetch_pages].
  match goal with
  | |- context [Binance.fetch_pages w rest ?m'] =>
      assert (Hm' : keys_upper m'); [|specialize (IH m' Hm');
        destruct (Binance.fetch_pages w rest m'); exact IH]
  end.
  destruct (coingecko_markets w page); [exact Hm | now apply add_items_keys_upper].
Qed.

(** C4, as amended.  For [get_coingecko_market_caps] of [self_time.py]
    and [self_time_50bilile.py]: a mapping fetched on a cache miss has
    only upper-case, non-empty keys and every value is a number other than
    0 (zero and missing market caps are dropped before storage; the sign
    of a value is not examined); on a cache hit the mapping is the
    ["data"] of the file, returned as stored; and when the file holds a
    filtered snapshot, as it does when only this function ever wrote it,
    the mapping returned is filtered and so is the file left behind, so
    that the invariant carries over from call to call.  For [binance.py]:
    the mapping is the content of the cache file or was fetched on a cache
    miss and has only upper-case keys, and upper-case keys carry over from
    call to call in the same way. *)
Theorem C4_snapshot_keys_and_values (w : world) (writable : bool) (pages : Z)
    (cache_ttl now wtime : Q)
    (file : option SelfTime.cache_json) (bfile : option Binance.cache_file) :
  (let '(m, file', _) :=
     SelfTime.get_coingecko_market_caps w writable file pages cache_ttl now in
   (cache_fresh file cache_ttl now = false -> snapshot_filtered m) /\
   (cache_fresh file cache_ttl now = true ->
    exists timestamp data,
      file = Some (SelfTime.CacheObject timestamp data) /\ m = default ∅ data) /\
   (cache_filtered file -> snapshot_filtered m /\ cache_filtered file'))
  /\
  (let '(m, file', _) :=
     SelfTime50.get_coingecko_market_caps w writable file pages cache_ttl now in
   (cache_fresh file cache_ttl now = false -> snapshot_filtered m) /\
   (cache_fresh file cache_ttl now = true ->
    exists timestamp data,
      file = Some (SelfTime.CacheObject timestamp data) /\ m = default ∅ data) /\
   (cache_filtered file -> snapshot_filtered m /\ cache_filtered file'))
  /\
  (let '(m, file', _) :=
     Binance.get_coingecko_market_caps w writable bfile pages cache_ttl now wtime in
   ((exists mtime, bfile = Some (Binance.mkfile mtime (Some m)))
    \/ (binance_cache_fresh bfile cache_ttl now = false /\ keys_upper m)) /\
   (binance_cache_upper bfile -> keys_upper m /\ binance_cache_upper file')).
Proof.
  assert (Hself :
    let '(m, file', _) :=
      SelfTime.get_coingecko_market_caps w writable file pages cache_ttl now in
    (cache_fresh file cache_ttl now = false -> snapshot_filtered m) /\
    (cache_fresh file cache_ttl now = true ->
     exists timestamp data,
       file = Some (SelfTime.CacheObject timestamp data) /\ m = default ∅ data) /\
    (cache_filtered file -> snapshot_filtered m /\ cache_filtered file')).
  { destruct (cache_fresh file cache_ttl now) eqn:Hfresh.
    - unfold cache_fresh in Hfresh. unfold SelfTime.get_coingecko_market_caps.
      destruct file as [[timestamp data|]|]; try discriminate.
      rewrite Hfresh. split; [discriminate|]. split; [now exists timestamp, data|].
      intros Hfile. split; [|exact Hfile].
      destruct data as [data|]; [exact Hfile | apply snapshot_filtered_empty].
    - rewrite SelfTime_cache_miss by assumption.
      pose proof (SelfTime_fetch_pages_filtered w (range 1 (pages + 1)) ∅
                    snapshot_filtered_empty) as Hf.
      destruct (SelfTime.fetch_pages w _ ∅) as [market_caps tr]. cbn [fst] in Hf.
      split; [intros _; exact Hf|]. split; [discriminate|].
      intros Hfile. split; [exact Hf|]. destruct writable; [exact Hf | exact Hfile]. }
  split; [exact Hself | split; [exact Hself |]].
  assert (Hempty : keys_upper ∅).
  { intros k v H. rewrite lookup_empty in H. discriminate. }
  destruct (binance_cache_fresh bfile cache_ttl now) eqn:Hfresh.
  - unfold binance_cache_fresh in Hfresh. unfold Binance.get_coingecko_market_caps.
    destruct bfile as [[mtime [cached|]]|]; try discriminate.
    rewrite Hfresh. split; [left; now exists mtime|].
    intros Hfile. split; exact Hfile.
  - rewrite Binance_cache_miss by assumption.
    assert (Hk : keys_upper (fst (Binance.fetch_pages w (range 1 (pages + 1)) ∅))).
    { apply Binance_fetch_pages_keys_upper, Hempty. }
    destruct (Binance.fetch_pages w _ ∅) as [market_caps tr]. cbn [fst] in Hk.
    destruct (truthy_dict market_caps).
    + split; [right; now split|].
      intros Hfile. split; [exact Hk|]. destruct writable; [exact Hk | exact Hfile].
    + destruct bfile as [[mtime [cached|]]|].
      * split; [left; now exists mtime|]. intros Hfile. split; exact Hfile.
      * split; [right; now split|]. intros Hfile. split; [exact Hempty | exact Hfile].
      * split; [right; now split|]. intros Hfile. split; [exact Hempty | exact Hfile].
Qed.

Lemma C4_snapshot_keys_and_values_witness :
  let '(m1, file1, _) :=
    SelfTime.get_coingecko_market_caps scenario true None 7 604800 1000 in
  let '(m2, file2, _) :=
    SelfTime.get_coingecko_market_caps offline true file1 7 604800 2000 in
  cache_filtered None /\
  snapshot_filtered m1 /\ cache_filtered file1 /\
  snapshot_filtered m2 /\ cache_filtered file2.
Proof.
  pose proof (C4_snapshot_keys_and_values scenario true 7 604800 1000 1001 None None)
    as (Hfirst & _ & _).
  destruct (SelfTime.get_coingecko_market_caps scenario true None 7 604800 1000)
    as [[m1 file1] tr1].
  destruct Hfirst as (_ & _ & Hkeep).
  destruct (Hkeep I) as [Hm1 Hfile1].
  pose proof (C4_snapshot_keys_and_values offline true 7 604800 2000 2001 file1 None)
    as (Hsecond & _ & _).
  destruct (SelfTime.get_coingecko_market_caps offline true file1 7 604800 2000)
    as [[m2 file2] tr2].
  destruct Hsecond as (_ & _ & Hkeep2).
  destruct (Hkeep2 Hfile1) as [Hm2 Hfile2].
  split; [exact I|]. split; [exact Hm1|]. split; [exact Hfile1|].
  split; [exact Hm2 | exact Hfile2].
Defined.

(** C4, as stated, fails: a negative market cap is truthy, so it is
    stored. *)
Lemma C4_negative_value_stored :
  ~ snapshot_ok
      (fst (fst (SelfTime.get_coingecko_market_caps negative_cap true None 7 604800 1000))).
Proof.
  intros H.
  destruct (H "ABC" (JNum (-5)) eq_refl) as (_ & q & Hq & Hpos & _).
  injection Hq as <-. apply Qle_bool_iff in Hpos. discriminate Hpos.
Qed.

(** [binance.py] does not filter at all: a market cap of 0 is stored. *)
Lemma Binance_stores_zero :
  fst (fst (Binance.get_coingecko_market_caps scenario true None 7 604800 1000 1001))
    !! "C" = Some (JNum 0).
Proof. reflexivity. Qed.

(** ** Falling back to a stale cache (C2) *)

(** C2: [self_time.py] has no fallback.  With an expired cache file that
    holds [stale] and every page request failing, it returns the empty
    mapping and overwrites the file with an empty snapshot stamped with
    the current time. *)
Theorem C2_self_time_overwrites_stale_cache :
  cache_fresh (Some (SelfTime.CacheObject (Some 0) (Some stale))) 604800 2000000 = false
  /\ SelfTime.get_coingecko_market_caps offline true
       (Some (SelfTime.CacheObject (Some 0) (Some stale))) 7 604800 2000000
     = (∅, Some (SelfTime.CacheObject (Some 2000000) (Some ∅)), [ReqMarkets 1]).
Proof. split; reflexivity. Qed.

(** [binance.py] does fall back: when the refetch yields nothing, a
    readable cache file is returned as stored, whatever its age, and is
    left as it was. *)
Lemma Binance_stale_fallback w writable mtime cached pages cache_ttl now wtime :
  binance_cache_fresh (Some (Binance.mkfile mtime (Some cached))) cache_ttl now = false ->
  truthy_dict (fst (Binance.fetch_pages w (range 1 (pages + 1)) ∅)) = false ->
  fst (Binance.get_coingecko_market_caps w writable
         (Some (Binance.mkfile mtime (Some cached))) pages cache_ttl now wtime)
    = (cached, Some (Binance.mkfile mtime (Some cached))).
Proof.
  intros Hmiss Hempty. rewrite Binance_cache_miss by assumption.
  destruct (Binance.fetch_pages w _ ∅) as [market_caps tr]. cbn in Hempty.
  rewrite Hempty. reflexivity.
Qed.

(** Without a cache file and without any entry fetched, every variant
    returns the empty mapping. *)
Lemma no_cache_no_data_empty w writable pages cache_ttl now wtime :
  (forall p, coingecko_markets w p = HttpError) ->
  fst (fst (SelfTime.get_coingecko_market_caps w writable None pages cache_ttl now)) = ∅
  /\ fst (fst (Binance.get_coingecko_market_caps w writable None pages cache_ttl now wtime))
     = ∅.
Proof.
  intros Hdown. split.
  - unfold SelfTime.get_coingecko_market_caps.
    destruct (range 1 (pages + 1)) as [|page rest]; cbn; [reflexivity|].
    rewrite Hdown. reflexivity.
  - rewrite Binance_cache_miss by reflexivity.
    destruct (Binance.fetch_pages w _ ∅) as [market_caps tr] eqn:Hfetch.
    destruct (truthy_dict market_caps) eqn:Ht; [|reflexivity].
    cbn. rewrite Binance_fetch_pages_all in Hfetch. injection Hfetch as <- _.
    clear Ht. generalize (range 1 (pages + 1)). intros todo.
    assert (Hgen : forall acc, merge_pages_binance w todo acc = acc).
    { induction todo as [|page rest IH]; intros acc; [reflexivity|].
      cbn. unfold page_data at 2. rewrite Hdown. apply IH. }
    apply Hgen.
Qed.

(** ** Reading back what was written (C8) *)

(** C8: when a call of [get_coingecko_market_caps] finds no fresh cache,
    it returns the mapping its page loop fetched and writes the file: in
    [self_time.py] and [self_time_50bilile.py] the file then holds that
    mapping stamped with the time of the call, in [binance.py], which
    writes only a non-empty mapping, that mapping and the time of writing.
    A second call made less than [cache_ttl] after the first one (for
    [binance.py]: after the file was written) sends no request, leaves the
    file alone and returns the mapping the first call returned.  More
    generally a call that finds a stored snapshot younger than [cache_ttl]
    returns that snapshot as stored, without any request. *)
Theorem C8_cache_round_trip (w w' : world) (writable' : bool) (pages pages' : Z)
    (cache_ttl now now' wtime wtime' : Q)
    (file : option SelfTime.cache_json) (bfile : option Binance.cache_file) :
  cache_fresh file cache_ttl now = false ->
  now' - now < cache_ttl ->
  (let '(m, file1, tr) :=
     SelfTime.get_coingecko_market_caps w true file pages cache_ttl now in
   (m, tr) = SelfTime.fetch_pages w (range 1 (pages + 1)) ∅ /\
   file1 = Some (SelfTime.CacheObject (Some now) (Some m)) /\
   SelfTime.get_coingecko_market_caps w' writable' file1 pages' cache_ttl now'
     = (m, file1, []))
  /\
  (let '(m, file1, tr) :=
     SelfTime50.get_coingecko_market_caps w true file pages cache_ttl now in
   (m, tr) = SelfTime.fetch_pages w (range 1 (pages + 1)) ∅ /\
   file1 = Some (SelfTime.CacheObject (Some now) (Some m)) /\
   SelfTime50.get_coingecko_market_caps w' writable' file1 pages' cache_ttl now'
     = (m, file1, []))
  /\
  (forall stamp data,
     now' - stamp < cache_ttl ->
     SelfTime.get_coingecko_market_caps w' writable'
       (Some (SelfTime.CacheObject (Some stamp) (Some data))) pages' cache_ttl now'
     = (data, Some (SelfTime.CacheObject (Some stamp) (Some data)), []))
  /\
  (binance_cache_fresh bfile cache_ttl now = false ->
   truthy_dict (merge_pages_binance w (range 1 (pages + 1)) ∅) = true ->
   now' - wtime < cache_ttl ->
   let '(m, file1, tr) :=
     Binance.get_coingecko_market_caps w true bfile pages cache_ttl now wtime in
   (m, tr) = Binance.fetch_pages w (range 1 (pages + 1)) ∅ /\
   file1 = Some (Binance.mkfile wtime (Some m)) /\
   Binance.get_coingecko_market_caps w' writable' file1 pages' cache_ttl now' wtime'
     = (m, file1, []))
  /\
  (forall mtime cached,
     now' - mtime < cache_ttl ->
     Binance.get_coingecko_market_caps w' writable'
       (Some (Binance.mkfile mtime (Some cached))) pages' cache_ttl now' wtime'
     = (cached, Some (Binance.mkfile mtime (Some cached)), [])).
Proof.
  intros Hmiss Hsoon.
  assert (Hhit : forall stamp data,
    now' - stamp < cache_ttl ->
    SelfTime.get_coingecko_market_caps w' writable'
      (Some (SelfTime.CacheObject (Some stamp) (Some data))) pages' cache_ttl now'
    = (data, Some (SelfTime.CacheObject (Some stamp) (Some data)), [])).
  { intros stamp data Hyoung. unfold SelfTime.get_coingecko_market_caps. cbn.
    apply Qgtb_true in Hyoung. rewrite Hyoung. reflexivity. }
  assert (Hbhit : forall mtime cached,
    now' - mtime < cache_ttl ->
    Binance.get_coingecko_market_caps w' writable'
      (Some (Binance.mkfile mtime (Some cached))) pages' cache_ttl now' wtime'
    = (cached, Some (Binance.mkfile mtime (Some cached)), [])).
  { intros mtime cached Hyoung. unfold Binance.get_coingecko_market_caps.
    apply Qgtb_true in Hyoung. rewrite Hyoung. reflexivity. }
  assert (Hself :
    let '(m, file1, tr) :=
      SelfTime.get_coingecko_market_caps w true file pages cache_ttl now in
    (m, tr) = SelfTime.fetch_pages w (range 1 (pages + 1)) ∅ /\
    file1 = Some (SelfTime.CacheObject (Some now) (Some m)) /\
    SelfTime.get_coingecko_market_caps w' writable' file1 pages' cache_ttl now'
      = (m, file1, [])).
  { rewrite SelfTime_cache_miss by assumption.
    destruct (SelfTime.fetch_pages w _ ∅) as [market_caps tr].
    split; [reflexivity|]. split; [reflexivity|]. now apply Hhit. }
  split; [exact Hself | split; [exact Hself |]].
  split; [exact Hhit|]. split; [|exact Hbhit].
  intros Hbmiss Hfull Hbsoon.
  rewrite Binance_cache_miss by assumption.
  rewrite Binance_fetch_pages_all. rewrite Hfull.
  split; [reflexivity|]. split; [reflexivity|]. now apply Hbhit.
Qed.

Lemma C8_cache_round_trip_witness :
  (let '(m, file1, tr) :=
     SelfTime.get_coingecko_market_caps scenario true None 7 604800 1000 in
   (m, tr) = SelfTime.fetch_pages scenario (range 1 (7 + 1)) ∅ /\
   file1 = Some (SelfTime.CacheObject (Some 1000) (Some m)) /\
   SelfTime.get_coingecko_market_caps offline false file1 3 604800 2000
     = (m, file1, []))
  /\
  (let '(m, file1, tr) :=
     Binance.get_coingecko_market_caps scenario true None 7 604800 1000 1001 in
   (m, tr) = Binance.fetch_pages scenario (range 1 (7 + 1)) ∅ /\
   file1 = Some (Binance.mkfile 1001 (Some m)) /\
   Binance.get_coingecko_market_caps offline false file1 3 604800 2000 3000
     = (m, file1, [])).
Proof.
  destruct (C8_cache_round_trip scenario offline false 7 3 604800 1000 2000 1001 3000
              None None eq_refl eq_refl) as (Hself & _ & _ & Hbinance & _).
  split; [exact Hself|].
  apply Hbinance; reflexivity.
Defined.

(** ** The day scan (C3) *)

Lemma get_daily_volume_spec w symbol d :
  match fst (SelfTime.get_daily_volume w symbol d) with
  | Return v => v
  | Raise _ => 0
  end = volume_on w symbol d
  /\ snd (SelfTime.get_daily_volume w symbol d) = [day_request w symbol d].
Proof.
  unfold SelfTime.get_daily_volume, volume_on, day_request.
  destruct (klines w _) as [|[|k ks]]; split; reflexivity.
Qed.

Lemma failed_fetch_counts_as_zero w symbol d e :
  fst (SelfTime.get_daily_volume w symbol d) = Raise e -> volume_on w symbol d = 0.
Proof.
  unfold SelfTime.get_daily_volume, volume_on.
  destruct (klines w _) as [|[|k ks]]; [reflexivity | discriminate | discriminate].
Qed.

Section DayScan.

Variables (w : world) (symbol base : string) (market_cap : Q) (date_str : date)
          (threshold : Q).
Hypothesis eligible : Qeq_bool market_cap 0 = false.

Lemma SelfTime_check_days_none offsets :
  (forall j, In j offsets -> ~ qualifies w symbol market_cap date_str threshold j) ->
  SelfTime.check_days w symbol base market_cap date_str threshold offsets
    = (Return None, day_requests w symbol date_str offsets).
Proof.
  induction offsets as [|i rest IH]; intros Hnone; [reflexivity|].
  cbn [SelfTime.check_days].
  destruct (get_daily_volume_spec w symbol (minus_days date_str i)) as [Hv Hreq].
  destruct (SelfTime.get_daily_volume w symbol (minus_days date_str i)) as [fetched tr].
  cbn [fst snd] in Hv, Hreq. rewrite eligible, Hv.
  assert (Hi : Qgtb (volume_on w symbol (minus_days date_str i) / market_cap) threshold
               = false).
  { apply Qgtb_false. apply Hnone. now left. }
  rewrite Hi, IH by (intros j Hj; apply Hnone; now right).
  subst tr. reflexivity.
Qed.

Lemma SelfTime_check_days_first pre i post :
  (forall j, In j pre -> ~ qualifies w symbol market_cap date_str threshold j) ->
  qualifies w symbol market_cap date_str threshold i ->
  SelfTime.check_days w symbol base market_cap date_str threshold (pre ++ i :: post)
    = (Return (Some (hit w symbol base market_cap date_str i)),
       (day_requests w symbol date_str (pre ++ [i]) ++ [ReqTicker symbol])%list).
Proof.
  intros Hpre Hi. induction pre as [|j rest IH]; cbn [app SelfTime.check_days].
  - destruct (get_daily_volume_spec w symbol (minus_days date_str i)) as [Hv Hreq].
    destruct (SelfTime.get_daily_volume w symbol (minus_days date_str i)) as [fetched tr].
    cbn [fst snd] in Hv, Hreq. rewrite eligible, Hv.
    apply Qgtb_true in Hi. rewrite Hi. unfold hit.
    destruct (SelfTime.latest_ticker w symbol) as [price change]. subst tr. reflexivity.
  - destruct (get_daily_volume_spec w symbol (minus_days date_str j)) as [Hv Hreq].
    destruct (SelfTime.get_daily_volume w symbol (minus_days date_str j)) as [fetched tr].
    cbn [fst snd] in Hv, Hreq. rewrite eligible, Hv.
    assert (Hj : Qgtb (volume_on w symbol (minus_days date_str j) / market_cap) threshold
                 = false).
    { apply Qgtb_false. apply Hpre. now left. }
    rewrite Hj, IH by (intros j' Hj'; apply Hpre; now right).
    subst tr. reflexivity.
Qed.

Lemma SelfTime50_check_days_same offsets :
  SelfTime50.check_days w symbol base market_cap date_str threshold offsets
    = SelfTime.check_days w symbol base market_cap date_str threshold offsets.
Proof.
  induction offsets as [|i rest IH]; [reflexivity|].
  cbn [SelfTime50.check_days SelfTime.check_days].
  unfold SelfTime50.get_daily_volume, SelfTime50.latest_ticker.
  rewrite IH, eligible. reflexivity.
Qed.

Lemma SelfTime_check_days_returns offsets :
  exists res, fst (SelfTime.check_days w symbol base market_cap date_str threshold offsets)
              = Return res.
Proof.
  rewrite <- SelfTime50_check_days_same. apply SelfTime50_check_days_returns.
Qed.

End DayScan.

(** C3: for a symbol with a market cap other than 0,
    [_check_symbol_volume_ratio] of [self_time.py] and of
    [self_time_50bilile.py] requests the candles of the days at offsets
    0, 1, ... before [date_str], a failed request counting as a volume of
    0 and the scan going on.  If day [i] of the window is the first whose
    ratio is above the threshold, the requests stop there, a ticker
    request follows and the one result returned is that of day [i]; if no
    day of the window qualifies, all [days] candles are requested and
    nothing is returned. *)
Theorem C3_first_qualifying_day (w : world) (symbol base : string) (market_cap : Q)
    (date_str : date) (days : Z) (threshold : Q) :
  ~ market_cap == 0 ->
  (forall d e, fst (SelfTime.get_daily_volume w symbol d) = Raise e ->
               volume_on w symbol d = 0)
  /\
  (forall i,
     (0 <= i < days)%Z ->
     qualifies w symbol market_cap date_str threshold i ->
     (forall j, (0 <= j < i)%Z -> ~ qualifies w symbol market_cap date_str threshold j) ->
     let expected :=
       (Return (Some (hit w symbol base market_cap date_str i)),
        (day_requests w symbol date_str (range 0 (i + 1)) ++ [ReqTicker symbol])%list) in
     SelfTime._check_symbol_volume_ratio w symbol base market_cap date_str days threshold
       = expected /\
     SelfTime50._check_symbol_volume_ratio w symbol base market_cap date_str days threshold
       = expected)
  /\
  ((forall j, (0 <= j < days)%Z -> ~ qualifies w symbol market_cap date_str threshold j) ->
   let expected :=
     (Return None, day_requests w symbol date_str (range 0 days)) in
   SelfTime._check_symbol_volume_ratio w symbol base market_cap date_str days threshold
     = expected /\
   SelfTime50._check_symbol_volume_ratio w symbol base market_cap date_str days threshold
     = expected).
Proof.
  intros Hcap.
  assert (eligible : Qeq_bool market_cap 0 = false).
  { apply not_true_iff_false. intros H. apply Hcap. now apply Qeq_bool_iff. }
  split; [intros d e; apply failed_fetch_counts_as_zero|].
  unfold SelfTime50._check_symbol_volume_ratio, SelfTime._check_symbol_volume_ratio.
  split.
  - intros i Hi Hq Hbefore.
    rewrite SelfTime50_check_days_same by assumption.
    rewrite (range_split 0 i days) by lia.
    rewrite SelfTime_check_days_first; try assumption.
    + rewrite (range_split 0 i (i + 1)) by lia.
      rewrite (range_nil (i + 1) (i + 1)) by lia. split; reflexivity.
    + intros j Hj. apply in_range in Hj. now apply Hbefore.
  - intros Hnone.
    rewrite SelfTime50_check_days_same by assumption.
    rewrite SelfTime_check_days_none; try assumption.
    + split; reflexivity.
    + intros j Hj. apply in_range in Hj. now apply Hnone.
Qed.

Lemma C3_first_qualifying_day_witness :
  ~ 100 == 0 /\
  SelfTime._check_symbol_volume_ratio scenario "AUSDT" "A" 100 (mkdate 2025 6 3) 3 (1 # 2)
    = (Return (Some (hit scenario "AUSDT" "A" 100 (mkdate 2025 6 3) 0)),
       [day_request scenario "AUSDT" (mkdate 2025 6 3); ReqTicker "AUSDT"]) /\
  SelfTime50._check_symbol_volume_ratio scenario "BUSDT" "B" 200 (mkdate 2025 6 3) 3 (1 # 2)
    = (Return None,
       [day_request scenario "BUSDT" (mkdate 2025 6 3);
        day_request scenario "BUSDT" (mkdate 2025 6 2);
        day_request scenario "BUSDT" (mkdate 2025 6 1)]).
Proof.
  assert (Hnz : forall q : Q, Qeq_bool q 0 = false -> ~ q == 0).
  { intros q Hq H. apply Qeq_bool_iff in H. congruence. }
  split; [apply Hnz; reflexivity|]. split.
  - destruct (C3_first_qualifying_day scenario "AUSDT" "A" 100 (mkdate 2025 6 3) 3 (1 # 2)
                (Hnz 100 eq_refl)) as (_ & Hfirst & _).
    apply (Hfirst 0%Z); [lia | reflexivity | intros j Hj; lia].
  - destruct (C3_first_qualifying_day scenario "BUSDT" "B" 200 (mkdate 2025 6 3) 3 (1 # 2)
                (Hnz 200 eq_refl)) as (_ & _ & Hnone).
    apply Hnone. intros j Hj.
    assert (j = 0 \/ j = 1 \/ j = 2)%Z as [-> | [-> | ->]] by lia;
      intros Hq; vm_compute in Hq; discriminate Hq.
Defined.

(** ** Ranking and truncation (C6) *)

Lemma Forall_insert_desc (P : ScreeningResult -> Prop) x l :
  P x -> Forall P l -> Forall P (insert_desc x l).
Proof.
  intros Hx Hl. induction Hl as [|y r Hy Hr IH]; cbn.
  - now constructor.
  - destruct (Qle_bool (r_ratio y) (r_ratio x)); repeat constructor; assumption.
Qed.

Lemma insert_desc_ranked x l : ranked l -> ranked (insert_desc x l).
Proof.
  unfold ranked. intros Hl. induction Hl as [|y r Hr IH Hy]; cbn.
  - repeat constructor.
  - destruct (Qle_bool (r_ratio y) (r_ratio x)) eqn:Hle.
    + apply Qle_bool_iff in Hle. constructor; [now constructor|].
      constructor; [exact Hle|].
      eapply List.Forall_impl; [|exact Hy]. cbn. intros z Hz. now apply Qle_trans with (r_ratio y).
    + constructor; [exact IH|].
      apply Forall_insert_desc; [|exact Hy].
      apply Qlt_le_weak, Qnot_le_lt. intros H. apply Qle_bool_iff in H. congruence.
Qed.

Lemma sort_by_ratio_desc_ranked l : ranked (sort_by_ratio_desc l).
Proof.
  induction l as [|x r IH]; cbn; [constructor | now apply insert_desc_ranked].
Qed.

Lemma insert_desc_perm x l : Permutation (x :: l) (insert_desc x l).
Proof.
  induction l as [|y r IH]; cbn; [reflexivity|].
  destruct (Qle_bool (r_ratio y) (r_ratio x)); [reflexivity|].
  rewrite perm_swap. now constructor.
Qed.

(** Sorting keeps every result, exactly once. *)
Lemma sort_by_ratio_desc_perm l : Permutation l (sort_by_ratio_desc l).
Proof.
  induction l as [|x r IH]; cbn; [constructor|].
  rewrite <- insert_desc_perm. now constructor.
Qed.

Lemma firstn_ranked n l : ranked l -> ranked (firstn n l).
Proof.
  unfold ranked. intros Hl. revert n.
  induction Hl as [|y r Hr IH Hy]; intros [|n]; cbn; try constructor.
  - apply IH.
  - apply List.Forall_forall. intros z Hz.
    rewrite List.Forall_forall in Hy. apply Hy.
    rewrite <- (firstn_skipn n r). apply in_or_app. now left.
Qed.

Lemma slice_to_ranked n l : ranked l -> ranked (slice_to n l).
Proof. intros Hl. unfold slice_to. destruct (0 <=? n)%Z; now apply firstn_ranked. Qed.

Lemma slice_to_length n (l : list ScreeningResult) :
  (0 <= n)%Z -> (Z.of_nat (List.length (slice_to n l)) <= n)%Z.
Proof.
  intros Hn. unfold slice_to. destruct (Z.leb_spec 0 n); [|lia].
  pose proof (firstn_le_length (Z.to_nat n) l). rewrite List.length_firstn. lia.
Qed.

(** What every variant returns is a slice of a sorted list. *)
Lemma screeners_return_slices w as_completed writable file bfile now wtime date_str days
    threshold limit max_market_cap l :
  fst (SelfTime.get_high_volume_to_marketcap_contracts
         w as_completed writable file now date_str days threshold limit) = Return l
  \/ fst (SelfTime50.get_high_volume_to_marketcap_contracts
            w as_completed writable file now date_str days threshold limit max_market_cap)
     = Return l
  \/ fst (Binance.get_high_volume_to_marketcap_contracts
            w writable bfile now wtime threshold limit) = Return l ->
  exists results, l = slice_to limit (sort_by_ratio_desc results).
Proof.
  unfold SelfTime.get_high_volume_to_marketcap_contracts,
    SelfTime50.get_high_volume_to_marketcap_contracts,
    Binance.get_high_volume_to_marketcap_contracts.
  intros [H | [H | H]].
  - destruct (SelfTime.get_coingecko_market_caps _ _ _ _ _ _) as [[cg file'] tr].
    destruct (SelfTime.get_usdt_perpetual_symbols w); [|discriminate].
    destruct (collect _ _) as [results|]; [|discriminate].
    injection H as <-. now exists results.
  - destruct (SelfTime50.get_coingecko_market_caps _ _ _ _ _ _) as [[cg file'] tr].
    destruct (SelfTime50.get_usdt_perpetual_symbols w); [|discriminate].
    destruct (collect _ _) as [results|]; [|discriminate].
    injection H as <-. now exists results.
  - destruct (Binance.get_all_usdt_contracts w); [|discriminate].
    destruct (Binance.get_coingecko_market_caps _ _ _ _ _ _ _) as [[cg file'] tr].
    destruct (Binance.screen _ _ _ _) as [results|]; [|discriminate].
    injection H as <-. now exists results.
Qed.

(** C6, as amended: the list returned by any of the three screeners is
    sorted by ratio in non-increasing order, for every configuration,
    every state of the network and every completion order of the pool;
    when [limit] is not negative its length is at most [limit]. *)
Theorem C6_ranked_and_truncated (w : world) (as_completed : list future -> list future)
    (writable : bool) (file : option SelfTime.cache_json)
    (bfile : option Binance.cache_file) (now wtime : Q) (date_str : option date)
    (days : Z) (threshold : Q) (limit : Z) (max_market_cap : Q)
    (l : list ScreeningResult) :
  fst (SelfTime.get_high_volume_to_marketcap_contracts
         w as_completed writable file now date_str days threshold limit) = Return l
  \/ fst (SelfTime50.get_high_volume_to_marketcap_contracts
            w as_completed writable file now date_str days threshold limit max_market_cap)
     = Return l
  \/ fst (Binance.get_high_volume_to_marketcap_contracts
            w writable bfile now wtime threshold limit) = Return l ->
  ranked l /\ ((0 <= limit)%Z -> (Z.of_nat (List.length l) <= limit)%Z).
Proof.
  intros H. apply screeners_return_slices in H. destruct H as [results ->]. split.
  - apply slice_to_ranked, sort_by_ratio_desc_ranked.
  - apply slice_to_length.
Qed.

Lemma C6_ranked_and_truncated_witness :
  let a := hit scenario "AUSDT" "A" 100 (mkdate 2025 6 3) 0 in
  let b := hit scenario "BUSDT" "B" 200 (mkdate 2025 6 3) 0 in
  (* the pool finishes B, of ratio 0.45, before A, of ratio 0.6 *)
  collect (rev (SelfTime.submit_all scenario
                  (fst (fst (SelfTime.get_coingecko_market_caps scenario true None 7
                               (60 * 60 * 24 * 7) 1000)))
                  ["AUSDT"; "BUSDT"; "CUSDT"; "BTCUSDT"] (mkdate 2025 6 3) 1 (4 # 10))) []
    = Return [b; a]
  (* the sort puts A first, a limit of 1 cuts B off *)
  /\ fst (SelfTime.get_high_volume_to_marketcap_contracts
            scenario (@rev future) true None 1000 None 1 (4 # 10) 1) = Return [a]
  /\ (ranked [a] /\ ((0 <= 1)%Z -> (Z.of_nat (List.length [a]) <= 1)%Z))
  /\ fst (SelfTime.get_high_volume_to_marketcap_contracts
            scenario (@rev future) true None 1000 None 1 (4 # 10) 200) = Return [a; b]
  /\ (ranked [a; b] /\ ((0 <= 200)%Z -> (Z.of_nat (List.length [a; b]) <= 200)%Z)).
Proof.
  intros a b. split; [reflexivity|]. split; [reflexivity|]. split; [|split; [reflexivity|]].
  - apply (C6_ranked_and_truncated scenario (@rev future) true None None 1000 1001
             None 1 (4 # 10) 1 5000000000 [a]).
    left. reflexivity.
  - apply (C6_ranked_and_truncated scenario (@rev future) true None None 1000 1001
             None 1 (4 # 10) 200 5000000000 [a; b]).
    left. reflexivity.
Defined.

(** C6, as stated, fails for a negative [limit]: [results[:-1]] drops the
    last result and keeps the others, here one result for a limit of -1. *)
Lemma C6_negative_limit_keeps_results :
  exists l,
    fst (SelfTime.get_high_volume_to_marketcap_contracts
           scenario (fun done => done) true None 1000 None 1 (4 # 10) (-1)) = Return l
    /\ List.length l = 1%nat
    /\ ~ (Z.of_nat (List.length l) <= -1)%Z.
Proof.
  eexists. split; [reflexivity|]. split; [reflexivity|]. cbn. lia.
Qed.

(** The screener of [self_time.py] returns a list whenever the exchange
    answers the symbol request, whatever the order of completion. *)
Lemma collect_returns done results :
  Forall (fun f : future => exists r, f = Return r) done ->
  exists l, collect done results = Return l.
Proof.
  intros Hdone. revert results.
  induction Hdone as [|f rest [r ->] _ IH]; intros results; cbn; [now eexists|].
  destruct r; apply IH.
Qed.

Lemma SelfTime_submit_all_returns w cg symbols date_str days threshold :
  Forall (fun f : future => exists r, f = Return r)
         (SelfTime.submit_all w cg symbols date_str days threshold).
Proof.
  induction symbols as [|symbol rest IH]; cbn [SelfTime.submit_all]; [constructor|].
  destruct (bool_decide _); [exact IH|].
  destruct (cg !! base_ticker symbol) as [[|market_cap]|]; try exact IH.
  destruct (Qeq_bool market_cap 0) eqn:Hcap; [exact IH|].
  constructor; [|exact IH].
  apply SelfTime_check_days_returns, Hcap.
Qed.

Lemma SelfTime_screener_returns w as_completed writable file now date_str days threshold
    limit symbols :
  exchange_info w = Json symbols ->
  (forall done, Permutation done (as_completed done)) ->
  exists l,
    fst (SelfTime.get_high_volume_to_marketcap_contracts
           w as_completed writable file now date_str days threshold limit) = Return l.
Proof.
  intros Hinfo Hperm. unfold SelfTime.get_high_volume_to_marketcap_contracts.
  destruct (SelfTime.get_coingecko_market_caps _ _ _ _ _ _) as [[cg file'] tr].
  unfold SelfTime.get_usdt_perpetual_symbols. rewrite Hinfo.
  match goal with
  | |- context [collect (as_completed ?fs) []] =>
      destruct (collect_returns (as_completed fs) []) as [results ->]
  end.
  - eapply Permutation_Forall; [apply Hperm|]. apply SelfTime_submit_all_returns.
  - now eexists.
Qed.

(** The scenario of the specification: with a threshold of 1/2 and a
    window of one day only A qualifies in the two historical variants. *)
Example scenario_of_the_specification :
  fst (SelfTime.get_high_volume_to_marketcap_contracts
         scenario (fun done => done) true None 1000 None 1 (1 # 2) 200)
    = Return [hit scenario "AUSDT" "A" 100 (mkdate 2025 6 3) 0]
  /\ fst (SelfTime50.get_high_volume_to_marketcap_contracts
            scenario (@rev future) true None 1000 None 1 (1 # 2) 200 5000000000)
     = Return [hit scenario "AUSDT" "A" 100 (mkdate 2025 6 3) 0].
Proof. split; reflexivity. Qed.

(** A fresh cache file is returned as stored: neither its keys nor its
    values are examined. *)
Lemma cached_mapping_not_validated (w : world) :
  SelfTime.get_coingecko_market_caps w true
    (Some (SelfTime.CacheObject (Some 1000) (Some {[ "abc" := JNum 0 ]}))) 7 604800 2000
    = ({[ "abc" := JNum 0 ]},
       Some (SelfTime.CacheObject (Some 1000) (Some {[ "abc" := JNum 0 ]})),
       []).
Proof. reflexivity. Qed.

(** * Further properties of the scripts *)

(** ** The symbol catalog *)

Lemma append_String c (r p : string) : String c r ++ p = String c (r ++ p).
Proof. reflexivity. Qed.

Lemma length_append (q p : string) :
  String.length (q ++ p) = (String.length q + String.length p)%nat.
Proof. induction q as [|c q IH]; [reflexivity|]. rewrite append_String. cbn. now rewrite IH. Qed.

Lemma substring_all (s : string) : substring 0 (String.length s) s = s.
Proof. induction s as [|c s IH]; [reflexivity|]. cbn. now rewrite IH. Qed.

Lemma substring_skip_append (q p : string) :
  substring (String.length q) (String.length p) (q ++ p) = p.
Proof.
  induction q as [|c q IH]; [apply substring_all|].
  rewrite append_String. cbn. exact IH.
Qed.

Lemma substring_split (s : string) (m k : nat) :
  (m + k)%nat = String.length s -> s = substring 0 m s ++ substring m k s.
Proof.
  revert m. induction s as [|c s IH]; intros m Hlen; cbn in Hlen.
  - assert (m = 0%nat) as -> by lia. assert (k = 0%nat) as -> by lia. reflexivity.
  - destruct m as [|m].
    + cbn in Hlen. subst k. cbn. now rewrite substring_all.
    + cbn [substring]. rewrite append_String. f_equal. apply IH. lia.
Qed.

(** [s.endswith(p)] holds exactly when [s] is some string followed by
    [p]. *)
Lemma endswith_iff (p s : string) : endswith p s = true <-> exists q, s = q ++ p.
Proof.
  unfold endswith. rewrite andb_true_iff, Nat.leb_le, String.eqb_eq. split.
  - intros [Hle Hsub].
    exists (substring 0 (String.length s - String.length p) s).
    pose proof (substring_split s (String.length s - String.length p)
                  (String.length p) ltac:(lia)) as Hsplit.
    rewrite Hsub in Hsplit. exact Hsplit.
  - intros [q ->]. rewrite length_append. split; [lia|].
    replace (String.length q + String.length p - String.length p)%nat
      with (String.length q) by lia.
    apply substring_skip_append.
Qed.

Lemma In_filter_bool {A : Type} (f : A -> bool) (l : list A) (x : A) :
  In x (filter f l) <-> In x l /\ f x = true.
Proof.
  rewrite <- !list_elem_of_In, list_elem_of_filter, Is_true_true. tauto.
Qed.

(** [get_usdt_perpetual_symbols] raises when the request fails; otherwise
    it returns the symbols of the entries of the catalog that are
    perpetual contracts and end with the suffix "USDT", and only those.
    [get_all_usdt_contracts] of [binance.py] does the same on the ticker
    list, with the suffix as its only test. *)
Theorem catalog_keeps_usdt_perpetuals (w : world) :
  match exchange_info w, SelfTime.get_usdt_perpetual_symbols w with
  | HttpError, got => got = Raise RequestException
  | Json infos, Return symbols =>
      forall s, In s symbols <->
                (exists p, s = p ++ "USDT") /\ In (mkinfo s "PERPETUAL") infos
  | Json _, Raise _ => False
  end
  /\
  match ticker_24hr_all w, Binance.get_all_usdt_contracts w with
  | HttpError, got => got = Raise RequestException
  | Json all_contracts, Return contracts =>
      forall c, In c contracts <->
                (exists p, t_symbol c = p ++ "USDT") /\ In c all_contracts
  | Json _, Raise _ => False
  end.
Proof.
  unfold SelfTime.get_usdt_perpetual_symbols, Binance.get_all_usdt_contracts. split.
  - destruct (exchange_info w) as [|infos]; [reflexivity|].
    intros s. rewrite in_map_iff. split.
    + intros ([s' kind] & Hs & Hin). cbn in Hs. subst s'.
      apply In_filter_bool in Hin. destruct Hin as [Hin Hkeep]. cbn in Hkeep.
      apply andb_true_iff in Hkeep. destruct Hkeep as [Hend Hkind].
      apply String.eqb_eq in Hkind. subst kind.
      split; [now apply endswith_iff | exact Hin].
    + intros [Hend Hin]. exists (mkinfo s "PERPETUAL"). split; [reflexivity|].
      apply In_filter_bool. split; [exact Hin|]. cbn.
      apply andb_true_iff. split; [now apply endswith_iff | reflexivity].
  - destruct (ticker_24hr_all w) as [|all_contracts]; [reflexivity|].
    intros c. rewrite In_filter_bool, endswith_iff. tauto.
Qed.

(** ** One symbol: what a result holds, what is requested *)

Lemma SelfTime_check_days_fields w symbol base market_cap date_str threshold offsets r :
  fst (SelfTime.check_days w symbol base market_cap date_str threshold offsets)
    = Return (Some r) ->
  r_symbol r = symbol /\ r_market_cap r = market_cap /\ r_tag r = make_tag base /\
  r_ratio r = r_volume_usdt r / market_cap /\
  (r_price r, r_change r) = SelfTime.latest_ticker w symbol /\
  ~ market_cap == 0 /\
  exists i, In i offsets /\ r_volume_usdt r = volume_on w symbol (minus_days date_str i).
Proof.
  induction offsets as [|i rest IH]; cbn [SelfTime.check_days]; [discriminate|].
  destruct (get_daily_volume_spec w symbol (minus_days date_str i)) as [Hv _].
  destruct (SelfTime.get_daily_volume w symbol (minus_days date_str i)) as [fetched tr].
  cbn [fst] in Hv. rewrite Hv.
  destruct (Qeq_bool market_cap 0) eqn:Hcap; [discriminate|].
  destruct (Qgtb _ threshold).
  - destruct (SelfTime.latest_ticker w symbol) as [price change]. cbn.
    intros [= <-]. cbn. repeat split.
    + intros H. apply Qeq_bool_iff in H. congruence.
    + exists i. split; [now left | reflexivity].
  - destruct (SelfTime.check_days _ _ _ _ _ _ rest). intros H.
    destruct (IH H) as (? & ? & ? & ? & ? & ? & j & Hj & ?).
    repeat split; try assumption. exists j. split; [now right | assumption].
Qed.

Lemma check_fields_both_variants (w : world) (symbol base : string) (market_cap : Q)
    (date_str : date) (days : Z) (threshold : Q) (r : ScreeningResult) :
  fst (SelfTime._check_symbol_volume_ratio w symbol base market_cap date_str days threshold)
    = Return (Some r)
  \/ fst (SelfTime50._check_symbol_volume_ratio w symbol base market_cap date_str days
            threshold) = Return (Some r) ->
  r_symbol r = symbol /\ r_market_cap r = market_cap /\
  r_tag r = (base ++ "/USDT:USDT")%string /\
  r_ratio r = r_volume_usdt r / market_cap /\ threshold < r_ratio r /\
  (r_price r, r_change r) = SelfTime.latest_ticker w symbol /\
  ~ market_cap == 0 /\
  exists i, (0 <= i < days)%Z /\
            r_volume_usdt r = volume_on w symbol (minus_days date_str i).
Proof.
  unfold SelfTime._check_symbol_volume_ratio, SelfTime50._check_symbol_volume_ratio.
  intros H.
  assert (Hself : fst (SelfTime.check_days w symbol base market_cap date_str threshold
                         (range 0 days)) = Return (Some r)).
  { destruct H as [H | H]; [exact H|].
    destruct (Qeq_bool market_cap 0) eqn:Hcap.
    - apply Qeq_bool_iff in Hcap.
      rewrite SelfTime50_zero_market_cap in H by assumption. discriminate.
    - now rewrite SelfTime50_check_days_same in H. }
  pose proof (SelfTime_check_days_strict _ _ _ _ _ _ _ _ Hself) as Hstrict.
  destruct (SelfTime_check_days_fields _ _ _ _ _ _ _ _ Hself)
    as (Hs & Hm & Ht & Hr & Hp & Hz & i & Hi & Hv).
  repeat split; try assumption.
  exists i. split; [now apply in_range in Hi | assumption].
Qed.

(** A result returned by [_check_symbol_volume_ratio] carries the symbol
    and the market cap it was called with, the tag [base/USDT:USDT], the
    volume of one of the days of the window, the ratio of that volume to
    the market cap, which is above the threshold, and the price and change
    of the live ticker; the market cap is then not 0. *)
Theorem scan_result_fields (w : world) (symbol base : string) (market_cap : Q)
    (date_str : date) (days : Z) (threshold : Q) (r : ScreeningResult) :
  fst (SelfTime._check_symbol_volume_ratio w symbol base market_cap date_str days threshold)
    = Return (Some r)
  \/ fst (SelfTime50._check_symbol_volume_ratio w symbol base market_cap date_str days
            threshold) = Return (Some r) ->
  r_symbol r = symbol /\ r_market_cap r = market_cap /\
  r_tag r = (base ++ "/USDT:USDT")%string /\
  r_ratio r = r_volume_usdt r / market_cap /\ threshold < r_ratio r /\
  (r_price r, r_change r) = SelfTime.latest_ticker w symbol /\
  ~ market_cap == 0 /\
  exists i, (0 <= i < days)%Z /\
            r_volume_usdt r = volume_on w symbol (minus_days date_str i).
Proof. apply check_fields_both_variants. Qed.

Lemma scan_result_fields_witness :
  let r := hit scenario "AUSDT" "A" 100 (mkdate 2025 6 3) 0 in
  fst (SelfTime._check_symbol_volume_ratio scenario "AUSDT" "A" 100 (mkdate 2025 6 3) 3
         (1 # 2)) = Return (Some r)
  /\ r_tag r = "A/USDT:USDT" /\ (1 # 2) < r_ratio r.
Proof.
  intros r.
  assert (Hrun : fst (SelfTime._check_symbol_volume_ratio scenario "AUSDT" "A" 100
                        (mkdate 2025 6 3) 3 (1 # 2)) = Return (Some r)) by reflexivity.
  split; [exact Hrun|].
  destruct (scan_result_fields scenario "AUSDT" "A" 100 (mkdate 2025 6 3) 3 (1 # 2) r
              (or_introl Hrun)) as (_ & _ & Htag & _ & Hratio & _).
  split; [exact Htag | exact Hratio].
Defined.

(** The scan reads the live ticker only to fill price and change. *)
Lemma check_days_same_but_ticker w w' symbol base market_cap date_str threshold offsets :
  (forall p, klines w p = klines w' p) ->
  (forall t, utcoffset w t = utcoffset w' t) ->
  same_but_ticker
    (fst (SelfTime.check_days w symbol base market_cap date_str threshold offsets))
    (fst (SelfTime.check_days w' symbol base market_cap date_str threshold offsets))
  /\
  same_but_ticker
    (fst (SelfTime50.check_days w symbol base market_cap date_str threshold offsets))
    (fst (SelfTime50.check_days w' symbol base market_cap date_str threshold offsets)).
Proof.
  intros Hk Ht.
  assert (Hvol : forall d, SelfTime.get_daily_volume w symbol d
                           = SelfTime.get_daily_volume w' symbol d).
  { intros d. unfold SelfTime.get_daily_volume, timestamp. now rewrite !Ht, Hk. }
  induction offsets as [|i rest [IH IH50]];
    cbn [SelfTime.check_days SelfTime50.check_days]; [now split|].
  unfold SelfTime50.get_daily_volume, SelfTime50.latest_ticker. rewrite Hvol.
  destruct (SelfTime.get_daily_volume w' symbol (minus_days date_str i)) as [fetched tr].
  destruct (SelfTime.check_days w _ _ _ _ _ rest) as [res trr].
  destruct (SelfTime.check_days w' _ _ _ _ _ rest) as [res' trr'].
  destruct (SelfTime50.check_days w _ _ _ _ _ rest) as [res5 trr5].
  destruct (SelfTime50.check_days w' _ _ _ _ _ rest) as [res5' trr5'].
  cbn [fst] in IH, IH50.
  destruct (Qeq_bool market_cap 0); [split; [reflexivity | exact IH50]|].
  destruct (Qgtb _ threshold); [|split; assumption].
  destruct (SelfTime.latest_ticker w symbol), (SelfTime.latest_ticker w' symbol).
  cbn. repeat split.
Qed.

(** A failed ticker request does not cost the result: whatever the live
    ticker answers, both variants of [_check_symbol_volume_ratio] end the
    same way, with results equal in symbol, volume, market cap, ratio and
    tag; when the ticker request fails, price and change are 0. *)
Theorem ticker_only_fills_price_and_change (w w' : world) (symbol base : string)
    (market_cap : Q) (date_str : date) (days : Z) (threshold : Q) :
  (forall p, klines w p = klines w' p) ->
  (forall t, utcoffset w t = utcoffset w' t) ->
  ticker_24hr w' symbol = HttpError ->
  let run := fst (SelfTime._check_symbol_volume_ratio w symbol base market_cap date_str
                    days threshold) in
  let run' := fst (SelfTime._check_symbol_volume_ratio w' symbol base market_cap date_str
                     days threshold) in
  let run50 := fst (SelfTime50._check_symbol_volume_ratio w symbol base market_cap date_str
                      days threshold) in
  let run50' := fst (SelfTime50._check_symbol_volume_ratio w' symbol base market_cap
                       date_str days threshold) in
  same_but_ticker run run' /\ same_but_ticker run50 run50' /\
  (forall r, run' = Return (Some r) \/ run50' = Return (Some r) ->
             r_price r = 0 /\ r_change r = 0).
Proof.
  intros Hk Ht Hfail run run' run50 run50'.
  destruct (check_days_same_but_ticker w w' symbol base market_cap date_str threshold
              (range 0 days) Hk Ht) as [Hsame Hsame50].
  split; [exact Hsame | split; [exact Hsame50 |]].
  intros r Hr.
  destruct (check_fields_both_variants w' symbol base market_cap date_str days threshold
              r Hr) as (_ & _ & _ & _ & _ & Hticker & _).
  unfold SelfTime.latest_ticker in Hticker. rewrite Hfail in Hticker.
  now injection Hticker as -> ->.
Qed.

Lemma ticker_only_fills_price_and_change_witness :
  same_but_ticker
    (fst (SelfTime._check_symbol_volume_ratio scenario "AUSDT" "A" 100
            (mkdate 2025 6 3) 3 (1 # 2)))
    (fst (SelfTime._check_symbol_volume_ratio scenario_without_ticker "AUSDT" "A" 100
            (mkdate 2025 6 3) 3 (1 # 2)))
  /\ fst (SelfTime._check_symbol_volume_ratio scenario_without_ticker "AUSDT" "A" 100
            (mkdate 2025 6 3) 3 (1 # 2))
     = Return (Some (mkresult "AUSDT" 60 100 (60 / 100) 0 0 "A/USDT:USDT")).
Proof.
  destruct (ticker_only_fills_price_and_change scenario scenario_without_ticker
              "AUSDT" "A" 100 (mkdate 2025 6 3) 3 (1 # 2)
              (fun _ => eq_refl) (fun _ => eq_refl) eq_refl) as (Hsame & _ & _).
  split; [exact Hsame | reflexivity].
Defined.

Lemma firstn_range (a b : Z) (n : nat) :
  firstn n (range a b) = range a (Z.min b (a + Z.of_nat n)).
Proof.
  unfold range. rewrite firstn_map, take_seq. do 2 f_equal. lia.
Qed.

Lemma length_range (a b : Z) : List.length (range a b) = Z.to_nat (b - a).
Proof. unfold range. now rewrite length_map, length_seq. Qed.

Lemma day_requests_app w symbol date_str l1 l2 :
  day_requests w symbol date_str (l1 ++ l2)
    = (day_requests w symbol date_str l1 ++ day_requests w symbol date_str l2)%list.
Proof. apply map_app. Qed.

(** The requests of a scan: candles for a prefix of the offsets, then the
    ticker if and only if a result was found. *)
Lemma check_days_requests w symbol base market_cap date_str threshold offsets :
  (exists n, (n <= List.length offsets)%nat /\
     snd (SelfTime.check_days w symbol base market_cap date_str threshold offsets)
       = (day_requests w symbol date_str (firstn n offsets)
          ++ match fst (SelfTime.check_days w symbol base market_cap date_str threshold
                          offsets) with
             | Return (Some _) => [ReqTicker symbol]
             | _ => []
             end)%list)
  /\
  (exists n, (n <= List.length offsets)%nat /\
     snd (SelfTime50.check_days w symbol base market_cap date_str threshold offsets)
       = (day_requests w symbol date_str (firstn n offsets)
          ++ match fst (SelfTime50.check_days w symbol base market_cap date_str threshold
                          offsets) with
             | Return (Some _) => [ReqTicker symbol]
             | _ => []
             end)%list).
Proof.
  induction offsets as [|i rest [(n & Hn & IH) (n5 & Hn5 & IH5)]];
    cbn [SelfTime.check_days SelfTime50.check_days].
  - split; exists 0%nat; split; auto.
  - unfold SelfTime50.get_daily_volume, SelfTime50.latest_ticker.
    destruct (get_daily_volume_spec w symbol (minus_days date_str i)) as [_ Hreq].
    destruct (SelfTime.get_daily_volume w symbol (minus_days date_str i)) as [fetched tr].
    cbn [snd] in Hreq. subst tr.
    destruct (SelfTime.check_days w _ _ _ _ _ rest) as [res trr].
    destruct (SelfTime50.check_days w _ _ _ _ _ rest) as [res5 trr5].
    cbn [fst snd] in IH, IH5. subst trr trr5.
    destruct (Qeq_bool market_cap 0).
    + split; [exists 1%nat | exists (S n5)]; (split; [cbn; lia | reflexivity]).
    + destruct (Qgtb _ threshold).
      * destruct (SelfTime.latest_ticker w symbol).
        split; exists 1%nat; (split; [cbn; lia | reflexivity]).
      * split; [exists (S n) | exists (S n5)]; (split; [cbn; lia | reflexivity]).
Qed.

(** Whatever the network answers, [_check_symbol_volume_ratio] asks for
    the candles of the offsets 0, 1, ..., k-1 in that order, for some k
    that does not exceed [days], never for any other day and never twice
    for the same; it asks for the live ticker if and only if it returns a
    result, and then last. *)
Theorem scan_requests_bounded (w : world) (symbol base : string) (market_cap : Q)
    (date_str : date) (days : Z) (threshold : Q) :
  (let '(res, tr) :=
     SelfTime._check_symbol_volume_ratio w symbol base market_cap date_str days threshold in
   exists k, (0 <= k <= Z.max 0 days)%Z /\
     tr = (day_requests w symbol date_str (range 0 k)
           ++ match res with Return (Some _) => [ReqTicker symbol] | _ => [] end)%list)
  /\
  (let '(res, tr) :=
     SelfTime50._check_symbol_volume_ratio w symbol base market_cap date_str days
       threshold in
   exists k, (0 <= k <= Z.max 0 days)%Z /\
     tr = (day_requests w symbol date_str (range 0 k)
           ++ match res with Return (Some _) => [ReqTicker symbol] | _ => [] end)%list).
Proof.
  unfold SelfTime._check_symbol_volume_ratio, SelfTime50._check_symbol_volume_ratio.
  destruct (check_days_requests w symbol base market_cap date_str threshold (range 0 days))
    as [(n & Hn & H) (n5 & Hn5 & H5)].
  rewrite length_range in Hn, Hn5. rewrite firstn_range in H, H5.
  destruct (SelfTime.check_days w _ _ _ _ _ _) as [res tr].
  destruct (SelfTime50.check_days w _ _ _ _ _ _) as [res5 tr5].
  cbn [fst snd] in H, H5.
  assert (Hclip : forall m : nat,
            range 0 (Z.min days (0 + Z.of_nat m))
              = range 0 (Z.max 0 (Z.min days (0 + Z.of_nat m)))).
  { intros m. destruct (Z_lt_le_dec days 0).
    - rewrite !range_nil by lia. reflexivity.
    - f_equal. lia. }
  rewrite Hclip in H, H5. split.
  - exists (Z.max 0 (Z.min days (0 + Z.of_nat n))). split; [lia | exact H].
  - exists (Z.max 0 (Z.min days (0 + Z.of_nat n5))). split; [lia | exact H5].
Qed.

(** ** The whole screening: what a returned list can hold *)

Lemma collect_successes done acc l :
  collect done acc = Return l -> l = (acc ++ successes done)%list.
Proof.
  revert acc. induction done as [|f rest IH]; intros acc; cbn.
  - intros [= <-]. now rewrite app_nil_r.
  - destruct f as [[r|]|e]; [| |discriminate].
    + intros H. apply IH in H. now rewrite <- app_assoc in H.
    + apply IH.
Qed.

Lemma successes_In fs r : In r (successes fs) <-> In (Return (Some r)) fs.
Proof.
  induction fs as [|f rest IH]; [reflexivity|].
  destruct f as [[r'|]|e]; cbn; rewrite IH; intuition congruence.
Qed.

Lemma successes_perm fs fs' :
  Permutation fs fs' -> Permutation (successes fs) (successes fs').
Proof.
  induction 1 as [|f l l' _ IH|f g l|l l' l'' _ IH1 _ IH2]; cbn.
  - constructor.
  - destruct f as [[r|]|e]; [now constructor | exact IH | exact IH].
  - destruct f as [[r|]|e], g as [[r'|]|e']; try reflexivity. apply perm_swap.
  - now transitivity (successes l').
Qed.

Lemma slice_to_incl {A : Type} (n : Z) (l : list A) x : In x (slice_to n l) -> In x l.
Proof.
  unfold slice_to. intros H.
  destruct (0 <=? n)%Z;
    match type of H with
    | In _ (firstn ?k _) => rewrite <- (firstn_skipn k l); apply in_or_app; now left
    end.
Qed.

Lemma ranked_slice_In limit results r :
  In r (slice_to limit (sort_by_ratio_desc results)) -> In r results.
Proof.
  intros H. apply slice_to_incl in H.
  eapply Permutation_in; [symmetry; apply sort_by_ratio_desc_perm | exact H].
Qed.

(** Which futures are submitted: one for each symbol of the catalog
    whose base ticker is not excluded and has a market cap other than 0. *)
Lemma SelfTime_submit_all_In w cg symbols date_str days threshold f :
  In f (SelfTime.submit_all w cg symbols date_str days threshold) <->
  exists symbol market_cap,
    In symbol symbols /\ (base_ticker symbol ∉ exclude_symbols) /\
    cg !! base_ticker symbol = Some (JNum market_cap) /\
    Qeq_bool market_cap 0 = false /\
    f = fst (SelfTime._check_symbol_volume_ratio w symbol (base_ticker symbol) market_cap
               date_str days threshold).
Proof.
  induction symbols as [|symbol rest IH]; cbn [SelfTime.submit_all].
  - split; [intros [] | intros (? & ? & [] & _)].
  - assert (Hrest :
      In f (SelfTime.submit_all w cg rest date_str days threshold) ->
      exists symbol0 market_cap,
        In symbol0 (symbol :: rest) /\ (base_ticker symbol0 ∉ exclude_symbols) /\
        cg !! base_ticker symbol0 = Some (JNum market_cap) /\
        Qeq_bool market_cap 0 = false /\
        f = fst (SelfTime._check_symbol_volume_ratio w symbol0 (base_ticker symbol0)
                   market_cap date_str days threshold)).
    { intros H. apply IH in H. destruct H as (s & mc & Hin & H).
      exists s, mc. split; [now right | exact H]. }
    split.
    + case_bool_decide as Hex; [exact Hrest|].
      destruct (cg !! base_ticker symbol) as [[|market_cap]|] eqn:Hcg; try exact Hrest.
      destruct (Qeq_bool market_cap 0) eqn:Hcap; [exact Hrest|].
      intros [<- | H]; [|now apply Hrest].
      exists symbol, market_cap. repeat split; auto. now left.
    + intros (s & mc & [-> | Hin] & Hex & Hcg & Hcap & ->).
      * rewrite bool_decide_eq_false_2 by assumption. rewrite Hcg, Hcap. now left.
      * assert (Hf : In (fst (SelfTime._check_symbol_volume_ratio w s (base_ticker s) mc
                                date_str days threshold))
                        (SelfTime.submit_all w cg rest date_str days threshold)).
        { apply IH. exists s, mc. auto. }
        case_bool_decide; [exact Hf|].
        destruct (cg !! base_ticker symbol) as [[|market_cap]|]; try exact Hf.
        destruct (Qeq_bool market_cap 0); [exact Hf | now right].
Qed.

Lemma SelfTime50_submit_all_In w cg symbols date_str days threshold max_market_cap f :
  In f (SelfTime50.submit_all w cg symbols date_str days threshold max_market_cap) <->
  exists symbol market_cap,
    In symbol symbols /\ (base_ticker symbol ∉ exclude_symbols) /\
    cg !! base_ticker symbol = Some (JNum market_cap) /\
    Qeq_bool market_cap 0 = false /\ Qgtb market_cap max_market_cap = false /\
    f = fst (SelfTime50._check_symbol_volume_ratio w symbol (base_ticker symbol) market_cap
               date_str days threshold).
Proof.
  induction symbols as [|symbol rest IH]; cbn [SelfTime50.submit_all].
  - split; [intros [] | intros (? & ? & [] & _)].
  - assert (Hrest :
      In f (SelfTime50.submit_all w cg rest date_str days threshold max_market_cap) ->
      exists symbol0 market_cap,
        In symbol0 (symbol :: rest) /\ (base_ticker symbol0 ∉ exclude_symbols) /\
        cg !! base_ticker symbol0 = Some (JNum market_cap) /\
        Qeq_bool market_cap 0 = false /\ Qgtb market_cap max_market_cap = false /\
        f = fst (SelfTime50._check_symbol_volume_ratio w symbol0 (base_ticker symbol0)
                   market_cap date_str days threshold)).
    { intros H. apply IH in H. destruct H as (s & mc & Hin & H).
      exists s, mc. split; [now right | exact H]. }
    split.
    + case_bool_decide as Hex; [exact Hrest|].
      destruct (cg !! base_ticker symbol) as [[|market_cap]|] eqn:Hcg; try exact Hrest.
      destruct (Qeq_bool market_cap 0) eqn:Hcap; [exact Hrest|].
      destruct (Qgtb market_cap max_market_cap) eqn:Hmax; [exact Hrest|].
      intros [<- | H]; [|now apply Hrest].
      exists symbol, market_cap. repeat split; auto. now left.
    + intros (s & mc & [-> | Hin] & Hex & Hcg & Hcap & Hmax & ->).
      * rewrite bool_decide_eq_false_2 by assumption. rewrite Hcg, Hcap, Hmax. now left.
      * assert (Hf : In (fst (SelfTime50._check_symbol_volume_ratio w s (base_ticker s) mc
                                date_str days threshold))
                        (SelfTime50.submit_all w cg rest date_str days threshold
                           max_market_cap)).
        { apply IH. exists s, mc. repeat (split; [assumption|]). reflexivity. }
        case_bool_decide; [exact Hf|].
        destruct (cg !! base_ticker symbol) as [[|market_cap]|]; try exact Hf.
        destruct (Qeq_bool market_cap 0); [exact Hf|].
        destruct (Qgtb market_cap max_market_cap); [exact Hf | now right].
Qed.

Lemma SelfTime_screener_decomposed w as_completed writable file now date_str days
    threshold limit l :
  fst (SelfTime.get_high_volume_to_marketcap_contracts
         w as_completed writable file now date_str days threshold limit) = Return l ->
  exists symbols,
    SelfTime.get_usdt_perpetual_symbols w = Return symbols /\
    l = slice_to limit (sort_by_ratio_desc (successes (as_completed
          (SelfTime.submit_all w
             (fst (fst (SelfTime.get_coingecko_market_caps w writable file 7
                          (60 * 60 * 24 * 7) now)))
             symbols (default (utc_today w) date_str) days threshold)))).
Proof.
  unfold SelfTime.get_high_volume_to_marketcap_contracts.
  destruct (SelfTime.get_coingecko_market_caps _ _ _ _ _ _) as [[cg file'] tr].
  destruct (SelfTime.get_usdt_perpetual_symbols w) as [symbols|]; [|discriminate].
  destruct (collect _ _) as [results|] eqn:Hcollect; [|discriminate].
  intros [= <-]. exists symbols. split; [reflexivity|].
  apply collect_successes in Hcollect. now subst results.
Qed.

Lemma SelfTime50_screener_decomposed w as_completed writable file now date_str days
    threshold limit max_market_cap l :
  fst (SelfTime50.get_high_volume_to_marketcap_contracts
         w as_completed writable file now date_str days threshold limit max_market_cap)
    = Return l ->
  exists symbols,
    SelfTime.get_usdt_perpetual_symbols w = Return symbols /\
    l = slice_to limit (sort_by_ratio_desc (successes (as_completed
          (SelfTime50.submit_all w
             (fst (fst (SelfTime.get_coingecko_market_caps w writable file 7
                          (60 * 60 * 24 * 7) now)))
             symbols (default (utc_today w) date_str) days threshold max_market_cap)))).
Proof.
  unfold SelfTime50.get_high_volume_to_marketcap_contracts,
    SelfTime50.get_coingecko_market_caps, SelfTime50.get_usdt_perpetual_symbols.
  destruct (SelfTime.get_coingecko_market_caps _ _ _ _ _ _) as [[cg file'] tr].
  destruct (SelfTime.get_usdt_perpetual_symbols w) as [symbols|]; [|discriminate].
  destruct (collect _ _) as [results|] eqn:Hcollect; [|discriminate].
  intros [= <-]. exists symbols. split; [reflexivity|].
  apply collect_successes in Hcollect. now subst results.
Qed.

(** Where a result of the two historical screeners comes from. *)
Lemma historical_result_origin w as_completed writable file now date_str days threshold
    limit max_market_cap l r :
  (forall done, Permutation done (as_completed done)) ->
  fst (SelfTime.get_high_volume_to_marketcap_contracts
         w as_completed writable file now date_str days threshold limit) = Return l
  \/ fst (SelfTime50.get_high_volume_to_marketcap_contracts
            w as_completed writable file now date_str days threshold limit max_market_cap)
     = Return l ->
  In r l ->
  exists symbols market_cap,
    SelfTime.get_usdt_perpetual_symbols w = Return symbols /\
    In (r_symbol r) symbols /\
    (base_ticker (r_symbol r) ∉ exclude_symbols) /\
    fst (fst (SelfTime.get_coingecko_market_caps w writable file 7 (60 * 60 * 24 * 7) now))
      !! base_ticker (r_symbol r) = Some (JNum market_cap) /\
    (fst (SelfTime.get_high_volume_to_marketcap_contracts
            w as_completed writable file now date_str days threshold limit) = Return l
     \/ Qgtb market_cap max_market_cap = false) /\
    (fst (SelfTime._check_symbol_volume_ratio w (r_symbol r) (base_ticker (r_symbol r))
            market_cap (default (utc_today w) date_str) days threshold) = Return (Some r)
     \/ fst (SelfTime50._check_symbol_volume_ratio w (r_symbol r)
               (base_ticker (r_symbol r)) market_cap (default (utc_today w) date_str)
               days threshold) = Return (Some r)).
Proof.
  intros Hperm [Hrun | Hrun] Hin.
  - destruct (SelfTime_screener_decomposed _ _ _ _ _ _ _ _ _ _ Hrun) as (symbols & Hsym & ->).
    apply ranked_slice_In, successes_In in Hin.
    eapply Permutation_in in Hin; [|symmetry; apply Hperm].
    apply SelfTime_submit_all_In in Hin.
    destruct Hin as (symbol & mc & Hs & Hex & Hcg & Hcap & Hf).
    symmetry in Hf.
    destruct (check_fields_both_variants _ _ _ _ _ _ _ _ (or_introl Hf)) as (<- & _).
    exists symbols, mc. repeat split; auto.
  - destruct (SelfTime50_screener_decomposed _ _ _ _ _ _ _ _ _ _ _ Hrun)
      as (symbols & Hsym & ->).
    apply ranked_slice_In, successes_In in Hin.
    eapply Permutation_in in Hin; [|symmetry; apply Hperm].
    apply SelfTime50_submit_all_In in Hin.
    destruct Hin as (symbol & mc & Hs & Hex & Hcg & Hcap & Hmax & Hf).
    symmetry in Hf.
    destruct (check_fields_both_variants _ _ _ _ _ _ _ _ (or_intror Hf)) as (<- & _).
    exists symbols, mc. repeat split; auto.
Qed.

(** Where a result of [binance.py] comes from. *)
Lemma Binance_screen_origin cg threshold contracts acc l r :
  Binance.screen cg threshold contracts acc = Return l ->
  In r l ->
  In r acc \/
  exists c market_cap price change,
    In c contracts /\ endswith "USDT" (t_symbol c) = true /\
    (base_ticker (t_symbol c) ∉ exclude_symbols) /\
    cg !! base_ticker (t_symbol c) = Some (JNum market_cap) /\
    Qeq_bool market_cap 0 = false /\
    threshold <= t_quoteVolume c / market_cap /\
    t_lastPrice c = Some price /\ t_priceChangePercent c = Some change /\
    r = mkresult (t_symbol c) (t_quoteVolume c) market_cap (t_quoteVolume c / market_cap)
                 price change (make_tag (base_ticker (t_symbol c))).
Proof.
  revert acc. induction contracts as [|c rest IH]; intros acc; cbn [Binance.screen].
  - intros [= <-] Hin. now left.
  - assert (Hrest : forall acc',
      Binance.screen cg threshold rest acc' = Return l -> In r l ->
      (In r acc' -> In r acc \/
         exists c0 market_cap price change,
           In c0 (c :: rest) /\ endswith "USDT" (t_symbol c0) = true /\
           (base_ticker (t_symbol c0) ∉ exclude_symbols) /\
           cg !! base_ticker (t_symbol c0) = Some (JNum market_cap) /\
           Qeq_bool market_cap 0 = false /\
           threshold <= t_quoteVolume c0 / market_cap /\
           t_lastPrice c0 = Some price /\ t_priceChangePercent c0 = Some change /\
           r = mkresult (t_symbol c0) (t_quoteVolume c0) market_cap
                        (t_quoteVolume c0 / market_cap) price change
                        (make_tag (base_ticker (t_symbol c0)))) ->
      In r acc \/
         exists c0 market_cap price change,
           In c0 (c :: rest) /\ endswith "USDT" (t_symbol c0) = true /\
           (base_ticker (t_symbol c0) ∉ exclude_symbols) /\
           cg !! base_ticker (t_symbol c0) = Some (JNum market_cap) /\
           Qeq_bool market_cap 0 = false /\
           threshold <= t_quoteVolume c0 / market_cap /\
           t_lastPrice c0 = Some price /\ t_priceChangePercent c0 = Some change /\
           r = mkresult (t_symbol c0) (t_quoteVolume c0) market_cap
                        (t_quoteVolume c0 / market_cap) price change
                        (make_tag (base_ticker (t_symbol c0)))).
    { intros acc' Hrun Hin Hacc.
      destruct (IH acc' Hrun Hin) as [H | (c0 & mc & p & ch & Hc0 & H)]; [now apply Hacc|].
      right. exists c0, mc, p, ch. split; [now right | exact H]. }
    destruct (endswith "USDT" (t_symbol c)) eqn:Hend; cbn [negb];
      [|intros H1 H2; apply (Hrest acc H1 H2); now left].
    case_bool_decide as Hex; [intros H1 H2; apply (Hrest acc H1 H2); now left|].
    destruct (t_lastPrice c) as [price|] eqn:Hprice; [|discriminate].
    destruct (t_priceChangePercent c) as [change|] eqn:Hchange; [|discriminate].
    destruct (cg !! base_ticker (t_symbol c)) as [[|market_cap]|] eqn:Hcg;
      try (intros H1 H2; apply (Hrest acc H1 H2); now left).
    destruct (Qeq_bool market_cap 0) eqn:Hcap;
      [intros H1 H2; apply (Hrest acc H1 H2); now left|].
    destruct (Qgeb _ threshold) eqn:Hge;
      [|intros H1 H2; apply (Hrest acc H1 H2); now left].
    intros H1 H2. apply (Hrest _ H1 H2). intros Hacc.
    apply in_app_or in Hacc. destruct Hacc as [Hacc | [<- | []]]; [now left|].
    right. exists c, market_cap, price, change.
    apply Qgeb_true in Hge. repeat split; auto. now left.
Qed.

Lemma Binance_screener_decomposed w writable file now wtime threshold limit l :
  fst (Binance.get_high_volume_to_marketcap_contracts w writable file now wtime
         threshold limit) = Return l ->
  exists contracts results,
    Binance.get_all_usdt_contracts w = Return contracts /\
    Binance.screen
      (fst (fst (Binance.get_coingecko_market_caps w writable file 7 (60 * 60 * 168)
                   now wtime)))
      threshold contracts [] = Return results /\
    l = slice_to limit (sort_by_ratio_desc results).
Proof.
  unfold Binance.get_high_volume_to_marketcap_contracts.
  destruct (Binance.get_all_usdt_contracts w) as [contracts|]; [|discriminate].
  destruct (Binance.get_coingecko_market_caps _ _ _ _ _ _ _) as [[cg file'] tr].
  destruct (Binance.screen _ _ _ _) as [results|] eqn:Hscreen; [|discriminate].
  intros [= <-]. now exists contracts, results.
Qed.

Lemma not_excluded (base : string) :
  base ∉ exclude_symbols -> base <> "BTC" /\ base <> "ETH".
Proof. unfold exclude_symbols. set_solver. Qed.

(** Whatever their ratio, BTC and ETH are never in the list a screener
    returns, in any of the three variants, and the tag of every result is
    its base ticker followed by [/USDT:USDT]. *)
Theorem excluded_bases_never_returned (w : world)
    (as_completed : list future -> list future)
    (writable : bool) (file : option SelfTime.cache_json)
    (bfile : option Binance.cache_file) (now wtime : Q) (date_str : option date)
    (days : Z) (threshold : Q) (limit : Z) (max_market_cap : Q)
    (l : list ScreeningResult) :
  (forall done, Permutation done (as_completed done)) ->
  fst (SelfTime.get_high_volume_to_marketcap_contracts
         w as_completed writable file now date_str days threshold limit) = Return l
  \/ fst (SelfTime50.get_high_volume_to_marketcap_contracts
            w as_completed writable file now date_str days threshold limit max_market_cap)
     = Return l
  \/ fst (Binance.get_high_volume_to_marketcap_contracts
            w writable bfile now wtime threshold limit) = Return l ->
  forall r, In r l ->
    base_ticker (r_symbol r) <> "BTC" /\ base_ticker (r_symbol r) <> "ETH" /\
    r_tag r = (base_ticker (r_symbol r) ++ "/USDT:USDT")%string.
Proof.
  intros Hperm Hrun r Hin.
  assert (Hhist :
    fst (SelfTime.get_high_volume_to_marketcap_contracts
           w as_completed writable file now date_str days threshold limit) = Return l
    \/ fst (SelfTime50.get_high_volume_to_marketcap_contracts
              w as_completed writable file now date_str days threshold limit
              max_market_cap) = Return l ->
    base_ticker (r_symbol r) <> "BTC" /\ base_ticker (r_symbol r) <> "ETH" /\
    r_tag r = (base_ticker (r_symbol r) ++ "/USDT:USDT")%string).
  { intros H.
    destruct (historical_result_origin _ _ _ _ _ _ _ _ _ _ _ _ Hperm H Hin)
      as (symbols & mc & _ & _ & Hex & _ & _ & Hcheck).
    destruct (check_fields_both_variants _ _ _ _ _ _ _ _ Hcheck) as (_ & _ & Htag & _).
    destruct (not_excluded _ Hex). auto. }
  destruct Hrun as [H | [H | H]]; [apply Hhist; now left | apply Hhist; now right |].
  destruct (Binance_screener_decomposed _ _ _ _ _ _ _ _ H)
    as (contracts & results & _ & Hscreen & ->).
  apply ranked_slice_In in Hin.
  destruct (Binance_screen_origin _ _ _ _ _ _ Hscreen Hin)
    as [[] | (c & mc & p & ch & _ & _ & Hex & _ & _ & _ & _ & _ & ->)].
  cbn. destruct (not_excluded _ Hex). auto.
Qed.

Lemma excluded_bases_never_returned_witness :
  let l := [hit scenario "AUSDT" "A" 100 (mkdate 2025 6 3) 0] in
  fst (SelfTime.get_high_volume_to_marketcap_contracts
         scenario (fun done => done) true None 1000 None 1 (1 # 2) 200) = Return l
  /\ forall r, In r l ->
       base_ticker (r_symbol r) <> "BTC" /\ base_ticker (r_symbol r) <> "ETH" /\
       r_tag r = (base_ticker (r_symbol r) ++ "/USDT:USDT")%string.
Proof.
  intros l. split; [reflexivity|].
  apply (excluded_bases_never_returned scenario (fun done => done) true None None
           1000 1001 None 1 (1 # 2) 200 5000000000 l).
  - intros done. apply Permutation_refl.
  - left. reflexivity.
Defined.

(** No result of the screener of [self_time_50bilile.py] has a market cap
    above [max_market_cap]. *)
Theorem market_cap_ceiling_respected (w : world)
    (as_completed : list future -> list future)
    (writable : bool) (file : option SelfTime.cache_json) (now : Q)
    (date_str : option date) (days : Z) (threshold : Q) (limit : Z) (max_market_cap : Q)
    (l : list ScreeningResult) :
  (forall done, Permutation done (as_completed done)) ->
  fst (SelfTime50.get_high_volume_to_marketcap_contracts
         w as_completed writable file now date_str days threshold limit max_market_cap)
    = Return l ->
  forall r, In r l -> r_market_cap r <= max_market_cap.
Proof.
  intros Hperm Hrun r Hin.
  destruct (SelfTime50_screener_decomposed _ _ _ _ _ _ _ _ _ _ _ Hrun)
    as (symbols & _ & ->).
  apply ranked_slice_In, successes_In in Hin.
  eapply Permutation_in in Hin; [|symmetry; apply Hperm].
  apply SelfTime50_submit_all_In in Hin.
  destruct Hin as (symbol & mc & _ & _ & _ & _ & Hmax & Hf). symmetry in Hf.
  destruct (check_fields_both_variants _ _ _ _ _ _ _ _ (or_intror Hf)) as (_ & Hmc & _).
  rewrite Hmc. apply Qnot_lt_le. now apply Qgtb_false.
Qed.

Lemma market_cap_ceiling_respected_witness :
  let l := [hit scenario "AUSDT" "A" 100 (mkdate 2025 6 3) 0] in
  fst (SelfTime50.get_high_volume_to_marketcap_contracts
         scenario (@rev future) true None 1000 None 1 (4 # 10) 200 150) = Return l
  /\ forall r, In r l -> r_market_cap r <= 150.
Proof.
  intros l. split; [reflexivity|].
  apply (market_cap_ceiling_respected scenario (@rev future) true None 1000 None 1
           (4 # 10) 200 150 l).
  - intros done. apply Permutation_rev.
  - reflexivity.
Defined.

(** Every result of the two historical screeners is joined correctly:
    its symbol is in the catalog the exchange returned, its market cap is
    the one the market-cap mapping holds for its base ticker and is not 0,
    its volume is that of a day of the window, its ratio is that volume
    divided by that market cap and is above the threshold. *)
Theorem historical_results_are_joined (w : world)
    (as_completed : list future -> list future)
    (writable : bool) (file : option SelfTime.cache_json) (now : Q)
    (date_str : option date) (days : Z) (threshold : Q) (limit : Z) (max_market_cap : Q)
    (l : list ScreeningResult) :
  (forall done, Permutation done (as_completed done)) ->
  fst (SelfTime.get_high_volume_to_marketcap_contracts
         w as_completed writable file now date_str days threshold limit) = Return l
  \/ fst (SelfTime50.get_high_volume_to_marketcap_contracts
            w as_completed writable file now date_str days threshold limit max_market_cap)
     = Return l ->
  forall r, In r l ->
    (exists symbols, SelfTime.get_usdt_perpetual_symbols w = Return symbols /\
                     In (r_symbol r) symbols) /\
    fst (fst (SelfTime.get_coingecko_market_caps w writable file 7 (60 * 60 * 24 * 7) now))
      !! base_ticker (r_symbol r) = Some (JNum (r_market_cap r)) /\
    ~ r_market_cap r == 0 /\
    r_ratio r = r_volume_usdt r / r_market_cap r /\
    threshold < r_ratio r /\
    exists i, (0 <= i < days)%Z /\
      r_volume_usdt r
        = volume_on w (r_symbol r) (minus_days (default (utc_today w) date_str) i).
Proof.
  intros Hperm Hrun r Hin.
  destruct (historical_result_origin _ _ _ _ _ _ _ _ _ _ _ _ Hperm Hrun Hin)
    as (symbols & mc & Hsym & Hs & _ & Hcg & _ & Hcheck).
  destruct (check_fields_both_variants _ _ _ _ _ _ _ _ Hcheck)
    as (_ & Hmc & _ & Hratio & Hstrict & _ & Hz & Hday).
  rewrite Hmc. split; [now exists symbols|]. repeat split; assumption.
Qed.

Lemma historical_results_are_joined_witness :
  let l := [hit scenario "AUSDT" "A" 100 (mkdate 2025 6 3) 0] in
  fst (SelfTime.get_high_volume_to_marketcap_contracts
         scenario (fun done => done) true None 1000 None 1 (1 # 2) 200) = Return l
  /\ forall r, In r l -> (1 # 2) < r_ratio r /\ ~ r_market_cap r == 0.
Proof.
  intros l. split; [reflexivity|]. intros r Hin.
  destruct (historical_results_are_joined scenario (fun done => done) true None 1000 None
              1 (1 # 2) 200 5000000000 l (fun done => Permutation_refl done)
              (or_introl eq_refl) r Hin) as (_ & _ & Hz & _ & Hstrict & _).
  split; assumption.
Defined.

(** Every result of [binance.py] is built from one record of the 24h
    ticker list whose symbol ends with "USDT": symbol, volume, price and
    change are those of the record, the market cap is the one the mapping
    holds for the base ticker and is not 0, the ratio is the volume
    divided by the market cap and is at least the threshold. *)
Theorem binance_results_are_joined (w : world) (writable : bool)
    (bfile : option Binance.cache_file) (now wtime : Q) (threshold : Q) (limit : Z)
    (l : list ScreeningResult) :
  fst (Binance.get_high_volume_to_marketcap_contracts w writable bfile now wtime
         threshold limit) = Return l ->
  forall r, In r l ->
    (exists all_contracts c,
       ticker_24hr_all w = Json all_contracts /\ In c all_contracts /\
       t_symbol c = r_symbol r /\ (exists p, r_symbol r = p ++ "USDT") /\
       t_quoteVolume c = r_volume_usdt r /\
       t_lastPrice c = Some (r_price r) /\ t_priceChangePercent c = Some (r_change r)) /\
    fst (fst (Binance.get_coingecko_market_caps w writable bfile 7 (60 * 60 * 168)
                now wtime))
      !! base_ticker (r_symbol r) = Some (JNum (r_market_cap r)) /\
    ~ r_market_cap r == 0 /\
    r_ratio r = r_volume_usdt r / r_market_cap r /\
    threshold <= r_ratio r.
Proof.
  intros Hrun r Hin.
  destruct (Binance_screener_decomposed _ _ _ _ _ _ _ _ Hrun)
    as (contracts & results & Hget & Hscreen & ->).
  apply ranked_slice_In in Hin.
  destruct (Binance_screen_origin _ _ _ _ _ _ Hscreen Hin)
    as [[] | (c & mc & p & ch & Hc & Hend & _ & Hcg & Hcap & Hge & Hp & Hch & ->)].
  cbn. unfold Binance.get_all_usdt_contracts in Hget.
  destruct (ticker_24hr_all w) as [|all_contracts]; [discriminate|].
  injection Hget as <-. apply In_filter_bool in Hc. destruct Hc as [Hc _].
  split.
  - exists all_contracts, c. repeat split; auto. now apply endswith_iff.
  - repeat split; auto. intros H. apply Qeq_bool_iff in H. congruence.
Qed.

Lemma binance_results_are_joined_witness :
  let l := [mkresult "AUSDT" 50 100 (50 / 100) 1 2 "A/USDT:USDT"] in
  fst (Binance.get_high_volume_to_marketcap_contracts scenario true None 0 0 (1 # 2) 200)
    = Return l
  /\ forall r, In r l -> (1 # 2) <= r_ratio r.
Proof.
  intros l. split; [reflexivity|]. intros r Hin.
  destruct (binance_results_are_joined scenario true None 0 0 (1 # 2) 200 l eq_refl r Hin)
    as (_ & _ & _ & _ & Hge).
  exact Hge.
Defined.

(** ** The whole screening: what is sure to be returned *)

Lemma slice_to_all {A : Type} (n : Z) (l : list A) :
  (Z.of_nat (List.length l) <= n)%Z -> slice_to n l = l.
Proof.
  intros H. unfold slice_to. destruct (Z.leb_spec 0 n); [|lia].
  apply firstn_all2. lia.
Qed.

Lemma length_successes fs : (List.length (successes fs) <= List.length fs)%nat.
Proof.
  induction fs as [|f rest IH]; [reflexivity|].
  destruct f as [[r|]|e]; cbn; lia.
Qed.

Lemma SelfTime_length_submit_all w cg symbols date_str days threshold :
  (List.length (SelfTime.submit_all w cg symbols date_str days threshold)
   <= List.length symbols)%nat.
Proof.
  induction symbols as [|symbol rest IH]; cbn [SelfTime.submit_all]; [reflexivity|].
  case_bool_decide; [cbn; lia|].
  destruct (cg !! base_ticker symbol) as [[|market_cap]|]; try (cbn; lia).
  destruct (Qeq_bool market_cap 0); cbn; lia.
Qed.

Lemma SelfTime50_length_submit_all w cg symbols date_str days threshold max_market_cap :
  (List.length (SelfTime50.submit_all w cg symbols date_str days threshold max_market_cap)
   <= List.length symbols)%nat.
Proof.
  induction symbols as [|symbol rest IH]; cbn [SelfTime50.submit_all]; [reflexivity|].
  case_bool_decide; [cbn; lia|].
  destruct (cg !! base_ticker symbol) as [[|market_cap]|]; try (cbn; lia).
  destruct (Qeq_bool market_cap 0); [cbn; lia|].
  destruct (Qgtb market_cap max_market_cap); cbn; lia.
Qed.

Lemma SelfTime50_submit_all_returns w cg symbols date_str days threshold max_market_cap :
  Forall (fun f : future => exists r, f = Return r)
         (SelfTime50.submit_all w cg symbols date_str days threshold max_market_cap).
Proof.
  apply List.Forall_forall. intros f Hf. apply SelfTime50_submit_all_In in Hf.
  destruct Hf as (symbol & mc & _ & _ & _ & _ & _ & ->).
  apply SelfTime50_check_days_returns.
Qed.

(** The scan returns the result of the first qualifying day. *)
Lemma first_qualifying_day_found w symbol base market_cap date_str days threshold i :
  Qeq_bool market_cap 0 = false ->
  (0 <= i < days)%Z ->
  qualifies w symbol market_cap date_str threshold i ->
  (forall j, (0 <= j < i)%Z -> ~ qualifies w symbol market_cap date_str threshold j) ->
  fst (SelfTime._check_symbol_volume_ratio w symbol base market_cap date_str days threshold)
    = Return (Some (hit w symbol base market_cap date_str i))
  /\ fst (SelfTime50._check_symbol_volume_ratio w symbol base market_cap date_str days
            threshold)
     = Return (Some (hit w symbol base market_cap date_str i)).
Proof.
  intros Hcap Hi Hq Hbefore.
  unfold SelfTime50._check_symbol_volume_ratio, SelfTime._check_symbol_volume_ratio.
  rewrite SelfTime50_check_days_same by assumption.
  rewrite (range_split 0 i days) by lia.
  rewrite SelfTime_check_days_first; try assumption; [split; reflexivity|].
  intros j Hj. apply in_range in Hj. now apply Hbefore.
Qed.

(** What the loop over the finished futures, the sort and the slice make
    of a list of futures that all returned. *)
Lemma ranking_of_returned_futures as_completed (fs : list future) limit :
  (forall done, Permutation done (as_completed done)) ->
  Forall (fun f : future => exists r, f = Return r) fs ->
  exists results,
    collect (as_completed fs) [] = Return results /\
    Permutation results (successes fs) /\
    forall r, In (Return (Some r)) fs ->
              (Z.of_nat (List.length fs) <= limit)%Z ->
              In r (slice_to limit (sort_by_ratio_desc results)).
Proof.
  intros Hperm Hret.
  destruct (collect_returns (as_completed fs) []) as [results Hcollect].
  { eapply Permutation_Forall; [apply Hperm | exact Hret]. }
  exists results. split; [exact Hcollect|].
  apply collect_successes in Hcollect. cbn in Hcollect. subst results.
  assert (Hp : Permutation (successes (as_completed fs)) (successes fs)).
  { apply successes_perm. symmetry. apply Hperm. }
  split; [exact Hp|].
  intros r Hr Hlimit. rewrite slice_to_all.
  - eapply Permutation_in; [apply sort_by_ratio_desc_perm|].
    eapply Permutation_in; [symmetry; exact Hp|]. now apply successes_In.
  - rewrite <- (Permutation_length (sort_by_ratio_desc_perm _)).
    rewrite (Permutation_length Hp).
    pose proof (length_successes fs). lia.
Qed.

Lemma not_excluded_inv (base : string) :
  base <> "BTC" -> base <> "ETH" -> base ∉ exclude_symbols.
Proof.
  intros Hbtc Heth H. unfold exclude_symbols in H.
  apply elem_of_union in H. destruct H as [H | H]; apply elem_of_singleton in H;
    congruence.
Qed.

(** A symbol of the catalog whose base ticker is not excluded, whose
    market cap is known and not 0 and which has a qualifying day in the
    window is returned by the screener of [self_time.py], with the result
    of its first qualifying day, as soon as [limit] is not smaller than the
    number of symbols of the catalog; so it is by the screener of
    [self_time_50bilile.py] when its market cap is not above the ceiling. *)
Theorem qualifying_symbol_is_returned (w : world)
    (as_completed : list future -> list future)
    (writable : bool) (file : option SelfTime.cache_json) (now : Q)
    (date_str : option date) (days : Z) (threshold : Q) (limit : Z) (max_market_cap : Q)
    (symbols : list string) (symbol : string) (market_cap : Q) (i : Z) :
  (forall done, Permutation done (as_completed done)) ->
  SelfTime.get_usdt_perpetual_symbols w = Return symbols ->
  In symbol symbols ->
  base_ticker symbol <> "BTC" -> base_ticker symbol <> "ETH" ->
  fst (fst (SelfTime.get_coingecko_market_caps w writable file 7 (60 * 60 * 24 * 7) now))
    !! base_ticker symbol = Some (JNum market_cap) ->
  ~ market_cap == 0 ->
  (0 <= i < days)%Z ->
  qualifies w symbol market_cap (default (utc_today w) date_str) threshold i ->
  (forall j, (0 <= j < i)%Z ->
             ~ qualifies w symbol market_cap (default (utc_today w) date_str) threshold j) ->
  (Z.of_nat (List.length symbols) <= limit)%Z ->
  let expected :=
    hit w symbol (base_ticker symbol) market_cap (default (utc_today w) date_str) i in
  (exists l,
     fst (SelfTime.get_high_volume_to_marketcap_contracts
            w as_completed writable file now date_str days threshold limit) = Return l
     /\ In expected l)
  /\
  (market_cap <= max_market_cap ->
   exists l,
     fst (SelfTime50.get_high_volume_to_marketcap_contracts
            w as_completed writable file now date_str days threshold limit max_market_cap)
       = Return l
     /\ In expected l).
Proof.
  intros Hperm Hsym Hin Hbtc Heth Hcg Hz Hi Hq Hbefore Hlimit expected.
  assert (Hcap : Qeq_bool market_cap 0 = false).
  { apply not_true_iff_false. intros H. apply Hz. now apply Qeq_bool_iff. }
  pose proof (not_excluded_inv _ Hbtc Heth) as Hex.
  destruct (first_qualifying_day_found w symbol (base_ticker symbol) market_cap
              (default (utc_today w) date_str) days threshold i Hcap Hi Hq Hbefore)
    as [Hfound Hfound50].
  split.
  - unfold SelfTime.get_high_volume_to_marketcap_contracts.
    cbv zeta. revert Hcg.
    destruct (SelfTime.get_coingecko_market_caps _ _ _ _ _ _) as [[cg file'] tr].
    cbn [fst]. intros Hcg. rewrite Hsym.
    set (fs := SelfTime.submit_all w cg symbols (default (utc_today w) date_str) days
                 threshold).
    destruct (ranking_of_returned_futures as_completed fs limit Hperm
                (SelfTime_submit_all_returns _ _ _ _ _ _))
      as (results & -> & _ & Hall).
    eexists. split; [reflexivity|]. apply Hall.
    + fold expected in Hfound. rewrite <- Hfound.
      apply SelfTime_submit_all_In. exists symbol, market_cap. auto.
    + pose proof (SelfTime_length_submit_all w cg symbols
                    (default (utc_today w) date_str) days threshold). fold fs in H. lia.
  - intros Hmax.
    assert (Hmaxb : Qgtb market_cap max_market_cap = false).
    { apply Qgtb_false. now apply Qle_not_lt. }
    unfold SelfTime50.get_high_volume_to_marketcap_contracts,
      SelfTime50.get_coingecko_market_caps, SelfTime50.get_usdt_perpetual_symbols.
    cbv zeta. revert Hcg.
    destruct (SelfTime.get_coingecko_market_caps _ _ _ _ _ _) as [[cg file'] tr].
    cbn [fst]. intros Hcg. rewrite Hsym.
    set (fs := SelfTime50.submit_all w cg symbols (default (utc_today w) date_str) days
                 threshold max_market_cap).
    destruct (ranking_of_returned_futures as_completed fs limit Hperm
                (SelfTime50_submit_all_returns _ _ _ _ _ _ _))
      as (results & -> & _ & Hall).
    eexists. split; [reflexivity|]. apply Hall.
    + fold expected in Hfound50. rewrite <- Hfound50.
      apply SelfTime50_submit_all_In. exists symbol, market_cap.
      repeat (split; [assumption|]). reflexivity.
    + pose proof (SelfTime50_length_submit_all w cg symbols
                    (default (utc_today w) date_str) days threshold max_market_cap).
      fold fs in H. lia.
Qed.

Lemma qualifying_symbol_is_returned_witness :
  exists l,
    fst (SelfTime.get_high_volume_to_marketcap_contracts
           scenario (@rev future) true None 1000 None 1 (1 # 2) 200) = Return l
    /\ In (hit scenario "AUSDT" "A" 100 (mkdate 2025 6 3) 0) l.
Proof.
  assert (Hnz : forall q : Q, Qeq_bool q 0 = false -> ~ q == 0).
  { intros q Hq H. apply Qeq_bool_iff in H. congruence. }
  edestruct (qualifying_symbol_is_returned scenario (@rev future) true None 1000 None 1
               (1 # 2) 200 5000000000 ["AUSDT"; "BUSDT"; "CUSDT"; "BTCUSDT"] "AUSDT"
               100 0) as [Hself _]; [..|exact Hself].
  - intros done. apply Permutation_rev.
  - reflexivity.
  - now left.
  - intros H. vm_compute in H. discriminate H.
  - intros H. vm_compute in H. discriminate H.
  - reflexivity.
  - apply Hnz. reflexivity.
  - lia.
  - reflexivity.
  - intros j Hj. lia.
  - cbn. lia.
Defined.

(** ** The whole screening: the order of completion *)

(** Two ranked lists with the same elements are equal when elements of
    equal ratio are identical. *)
Lemma ranked_perm_unique l1 l2 :
  ranked l1 -> ranked l2 -> Permutation l1 l2 ->
  (forall a b, In a l1 -> In b l1 -> r_ratio a == r_ratio b -> a = b) ->
  l1 = l2.
Proof.
  unfold ranked. intros H1. revert l2.
  induction H1 as [|a l1 Hs1 IH Ha]; intros l2 H2 Hperm Hties.
  - apply Permutation_nil in Hperm. now subst.
  - destruct H2 as [|b l2 Hs2 Hb].
    + apply Permutation_sym, Permutation_nil in Hperm. discriminate.
    + assert (Hab : a = b).
      { assert (Hain : In a (b :: l2)) by (eapply Permutation_in; [exact Hperm | now left]).
        assert (Hbin : In b (a :: l1)).
        { eapply Permutation_in; [symmetry; exact Hperm | now left]. }
        destruct Hain as [-> | Hain]; [reflexivity|].
        destruct Hbin as [-> | Hbin]; [reflexivity|].
        rewrite List.Forall_forall in Ha, Hb.
        apply Hties; [now left | now right |].
        apply Qle_antisym; [now apply Hb | now apply Ha]. }
      subst b. f_equal. apply IH.
      * exact Hs2.
      * now apply Permutation_cons_inv in Hperm.
      * intros x y Hx Hy. apply Hties; now right.
Qed.

(** The ranking does not depend on the order in which the futures
    finish, provided two different results never have the same ratio. *)
Lemma ranking_independent_of_order as1 as2 (fs : list future) limit :
  (forall done, Permutation done (as1 done)) ->
  (forall done, Permutation done (as2 done)) ->
  Forall (fun f : future => exists r, f = Return r) fs ->
  ties_identical fs ->
  exists r1 r2,
    collect (as1 fs) [] = Return r1 /\ collect (as2 fs) [] = Return r2 /\
    slice_to limit (sort_by_ratio_desc r1) = slice_to limit (sort_by_ratio_desc r2).
Proof.
  intros Hp1 Hp2 Hret Hties.
  destruct (ranking_of_returned_futures as1 fs limit Hp1 Hret) as (r1 & H1 & Hr1 & _).
  destruct (ranking_of_returned_futures as2 fs limit Hp2 Hret) as (r2 & H2 & Hr2 & _).
  exists r1, r2. split; [exact H1 | split; [exact H2 |]]. f_equal.
  apply ranked_perm_unique; try apply sort_by_ratio_desc_ranked.
  - rewrite <- !sort_by_ratio_desc_perm. now rewrite Hr1, Hr2.
  - intros a b Ha Hb.
    apply Hties; apply successes_In;
      (eapply Permutation_in;
       [exact Hr1
       | eapply Permutation_in; [symmetry; apply sort_by_ratio_desc_perm | eassumption]]).
Qed.

(** When no two different results have the same ratio, the list returned
    by the two historical screeners, and the cache file they leave, do not
    depend on the order in which the worker pool finishes. *)
Theorem completion_order_is_irrelevant (w : world)
    (as1 as2 : list future -> list future)
    (writable : bool) (file : option SelfTime.cache_json) (now : Q)
    (date_str : option date) (days : Z) (threshold : Q) (limit : Z) (max_market_cap : Q) :
  (forall done, Permutation done (as1 done)) ->
  (forall done, Permutation done (as2 done)) ->
  (forall symbols,
     SelfTime.get_usdt_perpetual_symbols w = Return symbols ->
     ties_identical
       (SelfTime.submit_all w
          (fst (fst (SelfTime.get_coingecko_market_caps w writable file 7
                       (60 * 60 * 24 * 7) now)))
          symbols (default (utc_today w) date_str) days threshold)) ->
  SelfTime.get_high_volume_to_marketcap_contracts
    w as1 writable file now date_str days threshold limit
  = SelfTime.get_high_volume_to_marketcap_contracts
      w as2 writable file now date_str days threshold limit
  /\
  SelfTime50.get_high_volume_to_marketcap_contracts
    w as1 writable file now date_str days threshold limit max_market_cap
  = SelfTime50.get_high_volume_to_marketcap_contracts
      w as2 writable file now date_str days threshold limit max_market_cap.
Proof.
  intros Hp1 Hp2 Hties.
  unfold SelfTime.get_high_volume_to_marketcap_contracts,
    SelfTime50.get_high_volume_to_marketcap_contracts,
    SelfTime50.get_coingecko_market_caps, SelfTime50.get_usdt_perpetual_symbols.
  cbv zeta. revert Hties.
  destruct (SelfTime.get_coingecko_market_caps _ _ _ _ _ _) as [[cg file'] tr].
  cbn [fst]. intros Hties.
  destruct (SelfTime.get_usdt_perpetual_symbols w) as [symbols|e]; [|split; reflexivity].
  specialize (Hties symbols eq_refl). split.
  - destruct (ranking_independent_of_order as1 as2 _ limit Hp1 Hp2
                (SelfTime_submit_all_returns w cg symbols (default (utc_today w) date_str)
                   days threshold) Hties) as (r1 & r2 & -> & -> & ->).
    reflexivity.
  - assert (Hties50 : ties_identical
                        (SelfTime50.submit_all w cg symbols
                           (default (utc_today w) date_str) days threshold
                           max_market_cap)).
    { intros a b Ha Hb. apply Hties.
      - apply SelfTime50_submit_all_In in Ha.
        destruct Ha as (s & mc & H1 & H2 & H3 & H4 & _ & H6).
        apply SelfTime_submit_all_In. exists s, mc.
        repeat (split; [assumption|]). rewrite H6.
        unfold SelfTime50._check_symbol_volume_ratio, SelfTime._check_symbol_volume_ratio.
        now rewrite SelfTime50_check_days_same.
      - apply SelfTime50_submit_all_In in Hb.
        destruct Hb as (s & mc & H1 & H2 & H3 & H4 & _ & H6).
        apply SelfTime_submit_all_In. exists s, mc.
        repeat (split; [assumption|]). rewrite H6.
        unfold SelfTime50._check_symbol_volume_ratio, SelfTime._check_symbol_volume_ratio.
        now rewrite SelfTime50_check_days_same. }
    destruct (ranking_independent_of_order as1 as2 _ limit Hp1 Hp2
                (SelfTime50_submit_all_returns w cg symbols
                   (default (utc_today w) date_str) days threshold max_market_cap)
                Hties50) as (r1 & r2 & -> & -> & ->).
    reflexivity.
Qed.

Lemma completion_order_is_irrelevant_witness :
  SelfTime.get_high_volume_to_marketcap_contracts
    scenario (fun done => done) true None 1000 None 1 (4 # 10) 200
  = SelfTime.get_high_volume_to_marketcap_contracts
      scenario (@rev future) true None 1000 None 1 (4 # 10) 200.
Proof.
  apply (completion_order_is_irrelevant scenario (fun done => done) (@rev future)
           true None 1000 None 1 (4 # 10) 200 5000000000).
  - intros done. apply Permutation_refl.
  - intros done. apply Permutation_rev.
  - intros symbols [= <-] a b Ha Hb Heq.
    vm_compute in Ha, Hb.
    destruct Ha as [[= <-] | [[= <-] | []]], Hb as [[= <-] | [[= <-] | []]];
      try reflexivity; vm_compute in Heq; discriminate Heq.
Defined.

(** ** The whole screening: how it can fail *)

(** For a [date_str] that [strptime] accepts and a window that stays in
    the range of [datetime], the two historical screeners raise exactly
    when the symbol request fails, and then the exception of that
    request; when the exchange answers they return a list, whatever the
    other requests answer and in whatever order the pool finishes. *)
Theorem historical_screeners_fail_only_with_the_catalog (w : world)
    (as_completed : list future -> list future)
    (writable : bool) (file : option SelfTime.cache_json) (now : Q)
    (date_str : option date) (days : Z) (threshold : Q) (limit : Z) (max_market_cap : Q) :
  (forall done, Permutation done (as_completed done)) ->
  valid_date (default (utc_today w) date_str) ->
  window_in_range (default (utc_today w) date_str) days ->
  match exchange_info w with
  | HttpError =>
      fst (SelfTime.get_high_volume_to_marketcap_contracts
             w as_completed writable file now date_str days threshold limit)
        = Raise RequestException
      /\ fst (SelfTime50.get_high_volume_to_marketcap_contracts
                w as_completed writable file now date_str days threshold limit
                max_market_cap)
         = Raise RequestException
  | Json _ =>
      (exists l,
         fst (SelfTime.get_high_volume_to_marketcap_contracts
                w as_completed writable file now date_str days threshold limit)
           = Return l)
      /\ (exists l,
            fst (SelfTime50.get_high_volume_to_marketcap_contracts
                   w as_completed writable file now date_str days threshold limit
                   max_market_cap)
              = Return l)
  end.
Proof.
  intros Hperm _ _.
  unfold SelfTime.get_high_volume_to_marketcap_contracts,
    SelfTime50.get_high_volume_to_marketcap_contracts,
    SelfTime50.get_coingecko_market_caps, SelfTime50.get_usdt_perpetual_symbols,
    SelfTime.get_usdt_perpetual_symbols.
  destruct (SelfTime.get_coingecko_market_caps _ _ _ _ _ _) as [[cg file'] tr].
  destruct (exchange_info w) as [|infos]; [split; reflexivity|].
  split.
  - match goal with
    | |- context [collect (as_completed ?fs) []] =>
        destruct (ranking_of_returned_futures as_completed fs limit Hperm
                    (SelfTime_submit_all_returns _ _ _ _ _ _)) as (results & -> & _)
    end.
    now eexists.
  - match goal with
    | |- context [collect (as_completed ?fs) []] =>
        destruct (ranking_of_returned_futures as_completed fs limit Hperm
                    (SelfTime50_submit_all_returns _ _ _ _ _ _ _)) as (results & -> & _)
    end.
    now eexists.
Qed.

Lemma historical_screeners_fail_only_with_the_catalog_witness :
  valid_date (mkdate 2025 6 3) /\ window_in_range (mkdate 2025 6 3) 3 /\
  fst (SelfTime.get_high_volume_to_marketcap_contracts
         offline (@rev future) true None 1000 None 3 (7 # 10) 200)
    = Raise RequestException
  /\ exists l,
       fst (SelfTime50.get_high_volume_to_marketcap_contracts
              scenario (@rev future) true None 1000 None 3 (7 # 10) 200 5000000000)
         = Return l.
Proof.
  assert (Hvalid : valid_date (mkdate 2025 6 3)) by reflexivity.
  assert (Hwindow : window_in_range (mkdate 2025 6 3) 3).
  { unfold window_in_range. vm_compute. discriminate. }
  split; [exact Hvalid|]. split; [exact Hwindow|]. split.
  - apply (historical_screeners_fail_only_with_the_catalog offline (@rev future) true None
             1000 None 3 (7 # 10) 200 5000000000 (fun done => Permutation_rev done)
             Hvalid Hwindow).
  - apply (historical_screeners_fail_only_with_the_catalog scenario (@rev future) true
             None 1000 None 3 (7 # 10) 200 5000000000
             (fun done => Permutation_rev done) Hvalid Hwindow).
Defined.

Lemma Binance_screen_outcome cg threshold contracts acc :
  if existsb lacks_key contracts
  then Binance.screen cg threshold contracts acc = Raise KeyError
  else exists l, Binance.screen cg threshold contracts acc = Return l.
Proof.
  revert acc. induction contracts as [|c rest IH]; intros acc;
    cbn [existsb Binance.screen]; [now eexists|].
  unfold lacks_key at 1.
  destruct (endswith "USDT" (t_symbol c)); cbn [negb andb orb]; [|apply IH].
  case_bool_decide; cbn [negb andb orb]; [apply IH|].
  destruct (t_lastPrice c) as [price|]; [|reflexivity].
  destruct (t_priceChangePercent c) as [change|]; [|reflexivity].
  cbn [orb].
  destruct (cg !! base_ticker (t_symbol c)) as [[|market_cap]|]; try apply IH.
  destruct (Qeq_bool market_cap 0); [apply IH|].
  destruct (Qgeb _ threshold); apply IH.
Qed.

Lemma existsb_lacks_key_filter (all_contracts : list ticker) :
  existsb lacks_key (filter (fun c => endswith "USDT" (t_symbol c)) all_contracts)
    = existsb lacks_key all_contracts.
Proof.
  induction all_contracts as [|c rest IH]; [reflexivity|].
  rewrite filter_cons. destruct (decide _) as [Hend | Hend]; cbn [existsb].
  - now rewrite IH.
  - rewrite IH. unfold lacks_key at 2.
    destruct (endswith "USDT" (t_symbol c)); [|reflexivity].
    exfalso. apply Hend. exact I.
Qed.

(** Two ways the screener of [binance.py] does not return a list.  When
    the ticker request fails it raises the exception of that request
    before any market cap is fetched, and the cache file is left
    untouched.  When a record of the ticker list whose symbol ends with
    "USDT" and whose base ticker is not excluded lacks ["lastPrice"] or
    ["priceChangePercent"], the run raises instead of returning a list,
    even if that contract has no market cap and would have been skipped:
    both keys are read before the market cap is looked up. *)
Theorem binance_screener_outcome (w : world) (writable : bool)
    (bfile : option Binance.cache_file) (now wtime : Q) (threshold : Q) (limit : Z) :
  match ticker_24hr_all w with
  | HttpError =>
      Binance.get_high_volume_to_marketcap_contracts w writable bfile now wtime
        threshold limit = (Raise RequestException, bfile)
  | Json all_contracts =>
      if existsb lacks_key all_contracts
      then forall l,
             fst (Binance.get_high_volume_to_marketcap_contracts w writable bfile now
                    wtime threshold limit) <> Return l
      else True
  end.
Proof.
  unfold Binance.get_high_volume_to_marketcap_contracts, Binance.get_all_usdt_contracts.
  destruct (ticker_24hr_all w) as [|all_contracts]; [reflexivity|].
  destruct (Binance.get_coingecko_market_caps _ _ _ _ _ _ _) as [[cg file'] tr].
  pose proof (Binance_screen_outcome cg threshold
                (filter (fun c => endswith "USDT" (t_symbol c)) all_contracts) [])
    as Hscreen.
  rewrite existsb_lacks_key_filter in Hscreen.
  destruct (existsb lacks_key all_contracts); [|exact I].
  rewrite Hscreen. discriminate.
Qed.

(** ** The market-cap snapshot: requests and merge *)

Lemma SelfTime_fetch_pages_prefix w todo acc :
  exists n, (n <= List.length todo)%nat /\
    snd (SelfTime.fetch_pages w todo acc) = map ReqMarkets (firstn n todo) /\
    (forall p, In p (firstn (pred n) todo) -> page_good w p) /\
    ((n < List.length todo)%nat ->
     (1 <= n)%nat /\ exists p, nth_error todo (pred n) = Some p /\ page_stops w p).
Proof.
  revert acc. induction todo as [|page rest IH]; intros acc.
  - exists 0%nat. cbn. split; [lia|]. split; [reflexivity|]. split; [intros p []|lia].
  - cbn [SelfTime.fetch_pages].
    assert (Hstop : page_stops w page ->
      exists n, (n <= List.length (page :: rest))%nat /\
        [ReqMarkets page] = map ReqMarkets (firstn n (page :: rest)) /\
        (forall p, In p (firstn (pred n) (page :: rest)) -> page_good w p) /\
        ((n < List.length (page :: rest))%nat ->
         (1 <= n)%nat /\
         exists p, nth_error (page :: rest) (pred n) = Some p /\ page_stops w p)).
    { intros Hs. exists 1%nat. cbn. split; [lia|]. split; [reflexivity|].
      split; [intros p []|]. intros _. split; [lia|]. now exists page. }
    destruct (coingecko_markets w page) as [|[|c data]] eqn:Hpage.
    + apply Hstop. left. exact Hpage.
    + apply Hstop. right. exact Hpage.
    + clear Hstop.
      destruct (IH (fold_left SelfTime.add_coin (c :: data) acc))
        as (n & Hn & Htr & Hgood & Hlast).
      destruct (SelfTime.fetch_pages w rest _) as [m tr]. cbn [snd] in Htr. subst tr.
      exists (S n). cbn [List.length firstn map snd pred]. split; [lia|].
      split; [reflexivity|]. split.
      * intros p Hp. destruct n as [|n]; [destruct Hp|].
        cbn [firstn] in Hp. destruct Hp as [<- | Hp]; [now exists c, data|].
        apply Hgood. exact Hp.
      * intros Hlt. split; [lia|].
        destruct Hlast as (Hn1 & p & Hp & Hs); [lia|].
        exists p. split; [|exact Hs].
        destruct n as [|n]; [lia|]. exact Hp.
Qed.

(** Whatever the pages answer, [get_coingecko_market_caps] of
    [self_time.py] and [self_time_50bilile.py] requests pages 1, 2, ..., k
    in that order for some k that does not exceed [pages] (none on a
    cache hit): never a page beyond [pages], never a page twice, never a
    page after one that failed or was empty.  Every page requested before
    the last one answered with entries, and when fewer than [pages] pages
    were requested after a cache miss, the last one failed or was empty. *)
Theorem market_cap_pages_requested_in_order (w : world) (writable : bool)
    (file : option SelfTime.cache_json) (pages : Z) (cache_ttl now : Q) :
  exists k, (0 <= k <= Z.max 0 pages)%Z /\
    snd (SelfTime.get_coingecko_market_caps w writable file pages cache_ttl now)
      = map ReqMarkets (range 1 (k + 1)) /\
    snd (SelfTime50.get_coingecko_market_caps w writable file pages cache_ttl now)
      = map ReqMarkets (range 1 (k + 1)) /\
    (forall p, (1 <= p < k)%Z -> page_good w p) /\
    (cache_fresh file cache_ttl now = false -> (k < pages)%Z ->
     (1 <= k)%Z /\ page_stops w k).
Proof.
  unfold SelfTime50.get_coingecko_market_caps.
  destruct (cache_fresh file cache_ttl now) eqn:Hfresh.
  - exists 0%Z. unfold cache_fresh in Hfresh.
    unfold SelfTime.get_coingecko_market_caps.
    destruct file as [[timestamp data|]|]; try discriminate. rewrite Hfresh.
    split; [lia|]. split; [reflexivity|]. split; [reflexivity|].
    split; [intros p Hp; lia | discriminate].
  - rewrite SelfTime_cache_miss by assumption.
    destruct (SelfTime_fetch_pages_prefix w (range 1 (pages + 1)) ∅)
      as (n & Hn & Htr & Hgood & Hlast).
    destruct (SelfTime.fetch_pages w _ ∅) as [m tr]. cbn [snd] in *. subst tr.
    rewrite length_range in Hn, Hlast.
    exists (Z.of_nat n). split; [lia|].
    assert (Hfirst : firstn n (range 1 (pages + 1)) = range 1 (Z.of_nat n + 1)).
    { destruct n as [|n0]; [now rewrite range_nil by lia|].
      rewrite firstn_range. f_equal. lia. }
    rewrite Hfirst. split; [reflexivity|]. split; [reflexivity|]. split.
    + intros p Hp. apply Hgood. rewrite firstn_range. apply in_range. lia.
    + intros _ Hlt. destruct Hlast as (Hn1 & p & Hp & Hs); [lia|].
      split; [lia|].
      assert (p = Z.of_nat n) as <-; [|exact Hs].
      unfold range in Hp. rewrite nth_error_map in Hp.
      destruct (nth_error (seq 0 _) (pred n)) as [i|] eqn:Hi; [|discriminate].
      apply nth_error_In in Hi as Hin. apply in_seq in Hin.
      assert (i = pred n).
      { pose proof (nth_error_nth _ _ 0%nat Hi) as Hnth.
        rewrite seq_nth in Hnth by lia. lia. }
      cbn in Hp. injection Hp as <-. lia.
Qed.

Lemma add_coin_lookup m c k :
  SelfTime.add_coin m c !! k
    = if stored_under k c then Some (default JNull (coin_market_cap c)) else m !! k.
Proof.
  unfold SelfTime.add_coin, stored_under.
  destruct (truthy_str _ && truthy _)%bool; cbn [andb]; [|reflexivity].
  destruct (String.eqb_spec (upper (default "" (coin_symbol c))) k) as [-> | Hne].
  - apply lookup_insert_eq.
  - now apply lookup_insert_ne.
Qed.

Lemma find_in_app {A : Type} (f : A -> bool) (l1 l2 : list A) :
  find f (l1 ++ l2) = match find f l1 with Some x => Some x | None => find f l2 end.
Proof.
  induction l1 as [|x l1 IH]; [reflexivity|]. cbn. now destruct (f x).
Qed.

Lemma fold_add_coin_lookup data m k :
  fold_left SelfTime.add_coin data m !! k
    = match find (stored_under k) (rev data) with
      | Some c => Some (default JNull (coin_market_cap c))
      | None => m !! k
      end.
Proof.
  revert m. induction data as [|c data IH]; intros m; [reflexivity|].
  cbn [fold_left rev]. rewrite IH, find_in_app.
  destruct (find (stored_under k) (rev data)); [reflexivity|].
  cbn [find]. rewrite add_coin_lookup. now destruct (stored_under k c).
Qed.

Lemma merge_pages_records w pages acc :
  merge_pages w pages acc = fold_left SelfTime.add_coin (records w pages) acc.
Proof.
  unfold merge_pages, records. revert acc.
  induction pages as [|page rest IH]; intros acc; [reflexivity|].
  cbn [fold_left map List.concat]. now rewrite fold_left_app, IH.
Qed.

(** The loop of [self_time.py] up to its first stopping page. *)
Lemma SelfTime_fetch_until_stop w pages k :
  (0 <= k <= Z.max 0 pages)%Z ->
  (forall p, (1 <= p <= k)%Z -> page_good w p) ->
  ((k < pages)%Z -> page_stops w (k + 1)) ->
  fst (SelfTime.fetch_pages w (range 1 (pages + 1)) ∅) = merge_pages w (range 1 (k + 1)) ∅.
Proof.
  intros Hk Hgood Hstop.
  assert (Hpre : Forall (page_good w) (range 1 (k + 1))).
  { apply List.Forall_forall. intros p Hp. apply in_range in Hp. apply Hgood. lia. }
  destruct (Z_lt_le_dec k pages) as [Hlt | Hge].
  - rewrite (range_split 1 (k + 1) (pages + 1)) by lia.
    now rewrite SelfTime_fetch_pages_stop by auto.
  - assert (Hr : range 1 (pages + 1) = range 1 (k + 1)).
    { destruct (Z_le_gt_dec pages 0).
      - rewrite !range_nil by lia. reflexivity.
      - replace k with pages by lia. reflexivity. }
    now rewrite Hr, SelfTime_fetch_pages_all.
Qed.

(** What a newly fetched snapshot of [self_time.py] holds for a key:
    when pages 1..k answered with entries and the loop stopped there, the
    value of the key is the market cap of the last record, in reading
    order over pages 1..k, whose upper-cased symbol is the key and whose
    symbol and market cap pass the filter; a key no such record carries is
    absent.  A later record silently replaces an earlier one. *)
Theorem snapshot_holds_last_record (w : world) (writable : bool)
    (file : option SelfTime.cache_json) (pages k : Z) (cache_ttl now : Q) (key : string) :
  cache_fresh file cache_ttl now = false ->
  (0 <= k <= Z.max 0 pages)%Z ->
  (forall p, (1 <= p <= k)%Z -> page_good w p) ->
  ((k < pages)%Z -> page_stops w (k + 1)) ->
  fst (fst (SelfTime.get_coingecko_market_caps w writable file pages cache_ttl now)) !! key
    = match find (stored_under key) (rev (records w (range 1 (k + 1)))) with
      | Some c => Some (default JNull (coin_market_cap c))
      | None => None
      end.
Proof.
  intros Hmiss Hk Hgood Hstop. rewrite SelfTime_cache_miss by assumption.
  pose proof (SelfTime_fetch_until_stop w pages k Hk Hgood Hstop) as Hfetch.
  destruct (SelfTime.fetch_pages w _ ∅) as [m tr]. cbn [fst] in *. subst m.
  rewrite merge_pages_records, fold_add_coin_lookup.
  destruct (find _ _); [reflexivity | apply lookup_empty].
Qed.

Lemma snapshot_holds_last_record_witness :
  fst (fst (SelfTime.get_coingecko_market_caps duplicated true None 7 604800 1000))
    !! "BTC" = Some (JNum 3).
Proof.
  rewrite (snapshot_holds_last_record duplicated true None 7 2 604800 1000 "BTC").
  - reflexivity.
  - reflexivity.
  - lia.
  - intros p Hp. assert (p = 1 \/ p = 2)%Z as [-> | ->] by lia; eexists _, _; reflexivity.
  - intros _. right. reflexivity.
Defined.

(** ** The cache file *)

Lemma truthy_dict_nonempty (m : mapping) : truthy_dict m = true -> m <> ∅.
Proof.
  unfold truthy_dict. intros H ->. rewrite map_size_empty in H. discriminate.
Qed.

(** [binance.py] never replaces the cache file by an empty snapshot: a
    call either leaves the file as it was or writes the non-empty mapping
    it returns, after having requested every page.  When it leaves a
    readable file in place while returning another mapping, that mapping
    was fetched and could not be written. *)
Theorem binance_cache_never_emptied (w : world) (writable : bool)
    (bfile : option Binance.cache_file) (pages : Z) (cache_ttl now wtime : Q) :
  let '(m, file', tr) :=
    Binance.get_coingecko_market_caps w writable bfile pages cache_ttl now wtime in
  (file' = bfile /\
   (forall mtime cached, bfile = Some (Binance.mkfile mtime (Some cached)) ->
                         m = cached \/ (writable = false /\ m <> ∅)))
  \/
  (writable = true /\ file' = Some (Binance.mkfile wtime (Some m)) /\ m <> ∅ /\
   tr = map ReqMarkets (range 1 (pages + 1))).
Proof.
  destruct (binance_cache_fresh bfile cache_ttl now) eqn:Hfresh.
  - unfold binance_cache_fresh in Hfresh. unfold Binance.get_coingecko_market_caps.
    destruct bfile as [[mtime [cached|]]|]; try discriminate. rewrite Hfresh.
    left. split; [reflexivity|]. intros ? ? [= _ <-]. now left.
  - rewrite Binance_cache_miss, Binance_fetch_pages_all by assumption.
    destruct (truthy_dict _) eqn:Hfull.
    + apply truthy_dict_nonempty in Hfull. destruct writable.
      * right. repeat split; auto.
      * left. split; [reflexivity|]. intros ? ? _. right. now split.
    + left. split; [reflexivity|]. intros ? ? ->. now left.
Qed.

(** A cache file that cannot be written costs nothing but the cache: the
    mapping returned and the requests sent are those of a run that can
    write, and the file is left as it was.  This holds for the three
    variants. *)
Theorem unwritable_cache_is_harmless (w : world) (pages : Z) (cache_ttl now wtime : Q)
    (file : option SelfTime.cache_json) (bfile : option Binance.cache_file) :
  (let '(m, file', tr) :=
     SelfTime.get_coingecko_market_caps w false file pages cache_ttl now in
   let '(m1, _, tr1) :=
     SelfTime.get_coingecko_market_caps w true file pages cache_ttl now in
   m = m1 /\ tr = tr1 /\ file' = file)
  /\
  (let '(m, file', tr) :=
     SelfTime50.get_coingecko_market_caps w false file pages cache_ttl now in
   let '(m1, _, tr1) :=
     SelfTime50.get_coingecko_market_caps w true file pages cache_ttl now in
   m = m1 /\ tr = tr1 /\ file' = file)
  /\
  (let '(m, file', tr) :=
     Binance.get_coingecko_market_caps w false bfile pages cache_ttl now wtime in
   let '(m1, _, tr1) :=
     Binance.get_coingecko_market_caps w true bfile pages cache_ttl now wtime in
   m = m1 /\ tr = tr1 /\ file' = bfile).
Proof.
  assert (Hself :
    let '(m, file', tr) :=
      SelfTime.get_coingecko_market_caps w false file pages cache_ttl now in
    let '(m1, _, tr1) :=
      SelfTime.get_coingecko_market_caps w true file pages cache_ttl now in
    m = m1 /\ tr = tr1 /\ file' = file).
  { unfold SelfTime.get_coingecko_market_caps.
    destruct (SelfTime.fetch_pages w _ ∅) as [market_caps tr].
    destruct file as [[timestamp data|]|]; try (repeat split; reflexivity).
    destruct (Qgtb _ _); repeat split; reflexivity. }
  split; [exact Hself | split; [exact Hself |]].
  unfold Binance.get_coingecko_market_caps.
  destruct (Binance.fetch_pages w _ ∅) as [market_caps tr].
  destruct bfile as [[mtime [cached|]]|];
    try destruct (Qgtb _ _); destruct (truthy_dict market_caps); repeat split; reflexivity.
Qed.

(** ** The days of the window *)

(** In a zone with a fixed offset from UTC, the candle request for the
    day [i] days before [date_str] covers the window of [date_str] moved
    back by [i] times 24 hours: the scan goes back one day at a time
    (dates from 2020 to 2029). *)
Theorem scan_goes_back_one_day_at_a_time (w : world) (symbol : string) (date_str : date)
    (i offset : Z) :
  (forall t, utcoffset w t = offset) ->
  (737425 <= toordinal date_str - i)%Z ->
  (toordinal date_str - i + 1 < 741078)%Z ->
  (737425 <= toordinal date_str < 741078)%Z ->
  snd (SelfTime.get_daily_volume w symbol (minus_days date_str i))
    = [ReqKlines (mkparams symbol "1d"
                    (timestamp w date_str * 1000 - i * 86400000)
                    (timestamp w date_str * 1000 - i * 86400000 + 86400000) 1)].
Proof.
  intros Hfixed Hlo Hhi Hd.
  destruct (get_daily_volume_spec w symbol (minus_days date_str i)) as [_ ->].
  unfold day_request, timestamp, wall_seconds, plus_days, minus_days.
  rewrite !Hfixed. rewrite !ordinal_roundtrip_checked by lia.
  do 3 f_equal; lia.
Qed.

Lemma scan_goes_back_one_day_at_a_time_witness :
  snd (SelfTime.get_daily_volume scenario "AUSDT" (minus_days (mkdate 2025 6 3) 2))
    = [ReqKlines (mkparams "AUSDT" "1d"
                    (timestamp scenario (mkdate 2025 6 3) * 1000 - 2 * 86400000)
                    (timestamp scenario (mkdate 2025 6 3) * 1000 - 2 * 86400000 + 86400000)
                    1)].
Proof.
  apply (scan_goes_back_one_day_at_a_time scenario "AUSDT" (mkdate 2025 6 3) 2 28800).
  - intros t. reflexivity.
  - vm_compute. discriminate.
  - reflexivity.
  - split; [vm_compute; discriminate | reflexivity].
Defined.

(** ** The scripts around the screeners *)

Lemma base_ticker_upper (symbol : string) : upper (base_ticker symbol) = base_ticker symbol.
Proof. unfold base_ticker. apply upper_idem. Qed.

Lemma historical_tags w as_completed writable file now date_str days threshold limit
    max_market_cap l :
  (forall done, Permutation done (as_completed done)) ->
  fst (SelfTime.get_high_volume_to_marketcap_contracts
         w as_completed writable file now date_str days threshold limit) = Return l
  \/ fst (SelfTime50.get_high_volume_to_marketcap_contracts
            w as_completed writable file now date_str days threshold limit max_market_cap)
     = Return l ->
  forall tag, In tag (map r_tag l) ->
    exists base, tag = (base ++ "/USDT:USDT")%string /\ upper base = base /\
                 base <> "BTC" /\ base <> "ETH".
Proof.
  intros Hperm Hrun tag Htag. apply in_map_iff in Htag. destruct Htag as (r & <- & Hin).
  destruct (historical_result_origin _ _ _ _ _ _ _ _ _ _ _ _ Hperm Hrun Hin)
    as (symbols & mc & _ & _ & Hex & _ & _ & Hcheck).
  destruct (check_fields_both_variants _ _ _ _ _ _ _ _ Hcheck) as (_ & _ & Htag & _).
  destruct (not_excluded _ Hex).
  exists (base_ticker (r_symbol r)). repeat split; auto. apply base_ticker_upper.
Qed.

(** What [backtesting_filter] of [self_time_50bilile.py] leaves at
    [output_path].  When it ends normally the file holds a refresh period
    of 3600 and the tags of the screener's results in ranking order: at
    most 200 pairs, each an upper-case base ticker other than BTC and ETH
    followed by [/USDT:USDT].  When the screener raises or the file cannot
    be opened, the file is left as it was.  The date is one [strptime]
    accepts and the window stays in the range of [datetime]. *)
Theorem generated_pairs_file (w : world) (as_completed : list future -> list future)
    (writable : bool) (file : option SelfTime.cache_json) (now : Q)
    (date_str : date) (days : Z) (threshold : Q)
    (out_writable : bool) (output : option SelfTime50.output_data) :
  (forall done, Permutation done (as_completed done)) ->
  valid_date date_str ->
  window_in_range date_str days ->
  let '(run, _, output') :=
    SelfTime50.backtesting_filter w as_completed writable file now date_str days threshold
      out_writable output in
  match run with
  | SelfTime50.Generated =>
      exists l,
        fst (SelfTime50.get_high_volume_to_marketcap_contracts w as_completed writable
               file now (Some date_str) days threshold 200 5000000000) = Return l /\
        output' = Some (SelfTime50.mkoutput (map r_tag l) 3600) /\
        (List.length (map r_tag l) <= 200)%nat /\
        forall tag, In tag (map r_tag l) ->
          exists base, tag = (base ++ "/USDT:USDT")%string /\ upper base = base /\
                       base <> "BTC" /\ base <> "ETH"
  | SelfTime50.ScreenerRaised e =>
      fst (SelfTime50.get_high_volume_to_marketcap_contracts w as_completed writable
             file now (Some date_str) days threshold 200 5000000000) = Raise e /\
      output' = output
  | SelfTime50.OutputRaised => out_writable = false /\ output' = output
  end.
Proof.
  intros Hperm _ _. unfold SelfTime50.backtesting_filter.
  pose proof (historical_tags w as_completed writable file now (Some date_str) days
                threshold 200 5000000000) as Htags.
  destruct (SelfTime50.get_high_volume_to_marketcap_contracts _ _ _ _ _ _ _ _ _ _)
    as [[l|e] file'] eqn:Hrun.
  - destruct out_writable; [|now split].
    exists l. split; [reflexivity|]. split; [reflexivity|]. split.
    + rewrite length_map.
      assert (Hl : fst (SelfTime50.get_high_volume_to_marketcap_contracts w as_completed
                          writable file now (Some date_str) days threshold 200 5000000000)
                   = Return l) by now rewrite Hrun.
      apply SelfTime50_screener_decomposed in Hl. destruct Hl as (symbols & _ & Hl).
      pose proof (slice_to_length 200 (sort_by_ratio_desc (successes (as_completed
                    (SelfTime50.submit_all w
                       (fst (fst (SelfTime.get_coingecko_market_caps w writable file 7
                                    (60 * 60 * 24 * 7) now)))
                       symbols (default (utc_today w) (Some date_str)) days threshold
                       5000000000)))) ltac:(lia)) as Hlen.
      rewrite <- Hl in Hlen. lia.
    + apply (Htags l Hperm). right. reflexivity.
  - now split.
Qed.

Lemma generated_pairs_file_witness :
  valid_date (mkdate 2025 6 3) /\ window_in_range (mkdate 2025 6 3) 3 /\
  let '(run, _, output') :=
    SelfTime50.backtesting_filter scenario (@rev future) true None 1000 (mkdate 2025 6 3)
      3 (4 # 10) true None in
  match run with
  | SelfTime50.Generated =>
      exists l,
        fst (SelfTime50.get_high_volume_to_marketcap_contracts scenario (@rev future) true
               None 1000 (Some (mkdate 2025 6 3)) 3 (4 # 10) 200 5000000000) = Return l /\
        output' = Some (SelfTime50.mkoutput (map r_tag l) 3600) /\
        (List.length (map r_tag l) <= 200)%nat /\
        forall tag, In tag (map r_tag l) ->
          exists base, tag = (base ++ "/USDT:USDT")%string /\ upper base = base /\
                       base <> "BTC" /\ base <> "ETH"
  | SelfTime50.ScreenerRaised e =>
      fst (SelfTime50.get_high_volume_to_marketcap_contracts scenario (@rev future) true
             None 1000 (Some (mkdate 2025 6 3)) 3 (4 # 10) 200 5000000000) = Raise e /\
      output' = None
  | SelfTime50.OutputRaised => true = false /\ output' = None
  end.
Proof.
  assert (Hvalid : valid_date (mkdate 2025 6 3)) by reflexivity.
  assert (Hwindow : window_in_range (mkdate 2025 6 3) 3).
  { unfold window_in_range. vm_compute. discriminate. }
  split; [exact Hvalid|]. split; [exact Hwindow|].
  apply (generated_pairs_file scenario (@rev future) true None 1000 (mkdate 2025 6 3)
           3 (4 # 10) true None (fun done => Permutation_rev done) Hvalid Hwindow).
Defined.

Lemma Binance_tags w writable bfile now wtime threshold limit l :
  fst (Binance.get_high_volume_to_marketcap_contracts w writable bfile now wtime
         threshold limit) = Return l ->
  (0 <= limit)%Z ->
  (Z.of_nat (List.length (map r_tag l)) <= limit)%Z /\
  forall tag, In tag (map r_tag l) ->
    exists base, tag = (base ++ "/USDT:USDT")%string /\ upper base = base /\
                 base <> "BTC" /\ base <> "ETH".
Proof.
  intros Hrun Hlimit.
  destruct (Binance_screener_decomposed _ _ _ _ _ _ _ _ Hrun)
    as (contracts & results & _ & Hscreen & ->).
  split.
  - rewrite length_map. now apply slice_to_length.
  - intros tag Htag. apply in_map_iff in Htag. destruct Htag as (r & <- & Hin).
    apply ranked_slice_In in Hin.
    destruct (Binance_screen_origin _ _ _ _ _ _ Hscreen Hin)
      as [[] | (c & mc & p & ch & _ & _ & Hex & _ & _ & _ & _ & _ & ->)].
    destruct (not_excluded _ Hex).
    exists (base_ticker (t_symbol c)). repeat split; auto. apply base_ticker_upper.
Qed.


(** The tags printed by [backtesting_filter] of [self_time.py], whether
    or not the lines that follow raise, and the tags printed by [main] of
    [binance.py]: at most 200 of them, each an upper-case base ticker
    other than BTC and ETH followed by [/USDT:USDT].  After its tags the
    first script computes the end of a date range: this raises exactly
    when [date_str] plus [days] days is not a date [datetime] can hold.
    The date is one [strptime] accepts and the window stays in the range
    of [datetime]. *)
Theorem listed_tags (w : world) (as_completed : list future -> list future)
    (writable : bool) (file : option SelfTime.cache_json)
    (bfile : option Binance.cache_file) (now wtime : Q)
    (date_str : date) (days : Z) (threshold : Q) :
  (forall done, Permutation done (as_completed done)) ->
  valid_date date_str ->
  window_in_range date_str days ->
  match fst (SelfTime.backtesting_filter w as_completed writable file now date_str days
               threshold) with
  | SelfTime.Listed tags =>
      ((List.length tags <= 200)%nat /\
       forall tag, In tag tags ->
         exists base, tag = (base ++ "/USDT:USDT")%string /\ upper base = base /\
                      base <> "BTC" /\ base <> "ETH")
      /\ (1 <= toordinal date_str + days <= max_ordinal)%Z
  | SelfTime.ListedThenRaised tags =>
      ((List.length tags <= 200)%nat /\
       forall tag, In tag tags ->
         exists base, tag = (base ++ "/USDT:USDT")%string /\ upper base = base /\
                      base <> "BTC" /\ base <> "ETH")
      /\ ~ (1 <= toordinal date_str + days <= max_ordinal)%Z
  | SelfTime.NotListed e =>
      fst (SelfTime.get_high_volume_to_marketcap_contracts w as_completed writable file
             now (Some date_str) days threshold 200) = Raise e
  end
  /\
  match fst (Binance.main w writable bfile now wtime) with
  | Return tags =>
      (List.length tags <= 200)%nat /\
      forall tag, In tag tags ->
        exists base, tag = (base ++ "/USDT:USDT")%string /\ upper base = base /\
                     base <> "BTC" /\ base <> "ETH"
  | Raise e =>
      fst (Binance.get_high_volume_to_marketcap_contracts w writable bfile now wtime
             (7 # 10) 200) = Raise e
  end.
Proof.
  intros Hperm Hvalid _. split.
  - unfold SelfTime.backtesting_filter.
    pose proof (historical_tags w as_completed writable file now (Some date_str) days
                  threshold 200 0) as Htags.
    destruct (SelfTime.get_high_volume_to_marketcap_contracts _ _ _ _ _ _ _ _ _)
      as [[l|e] file'] eqn:Hrun; cbn [fst]; [|reflexivity].
    assert (Hshape :
      (List.length (map r_tag l) <= 200)%nat /\
      forall tag, In tag (map r_tag l) ->
        exists base, tag = (base ++ "/USDT:USDT")%string /\ upper base = base /\
                     base <> "BTC" /\ base <> "ETH").
    { split; [|apply (Htags l Hperm); left; reflexivity].
      assert (Hl : fst (SelfTime.get_high_volume_to_marketcap_contracts w as_completed
                          writable file now (Some date_str) days threshold 200) = Return l)
        by now rewrite Hrun.
      apply SelfTime_screener_decomposed in Hl. destruct Hl as (symbols & _ & Hl).
      rewrite length_map.
      pose proof (slice_to_length 200 (sort_by_ratio_desc (successes (as_completed
                    (SelfTime.submit_all w
                       (fst (fst (SelfTime.get_coingecko_market_caps w writable file 7
                                    (60 * 60 * 24 * 7) now)))
                       symbols (default (utc_today w) (Some date_str)) days threshold))))
                    ltac:(lia)) as Hlen.
      rewrite <- Hl in Hlen. lia. }
    unfold valid_date in Hvalid. rewrite Hvalid. cbn [andb].
    destruct (Z.leb_spec 1 (toordinal date_str + days)); cbn [andb fst].
    + destruct (Z.leb_spec (toordinal date_str + days) max_ordinal); cbn [fst].
      * split; [exact Hshape | lia].
      * split; [exact Hshape | lia].
    + split; [exact Hshape | lia].
  - unfold Binance.main.
    pose proof (Binance_tags w writable bfile now wtime (7 # 10) 200) as Htags.
    destruct (Binance.get_high_volume_to_marketcap_contracts _ _ _ _ _ _ _)
      as [[l|e] file']; cbn [fst] in *; [|reflexivity].
    destruct (Htags l eq_refl ltac:(lia)) as [Hlen Hall]. split; [lia | exact Hall].
Qed.

Lemma listed_tags_witness :
  valid_date (mkdate 2025 6 3) /\ window_in_range (mkdate 2025 6 3) 14 /\
  fst (SelfTime.backtesting_filter scenario (@rev future) true None 1000
         (mkdate 2025 6 3) 14 (4 # 10))
    = SelfTime.Listed ["A/USDT:USDT"; "B/USDT:USDT"]
  /\ match fst (SelfTime.backtesting_filter scenario (@rev future) true None 1000
                  (mkdate 2025 6 3) 14 (4 # 10)) with
     | SelfTime.Listed tags =>
         ((List.length tags <= 200)%nat /\
          forall tag, In tag tags ->
            exists base, tag = (base ++ "/USDT:USDT")%string /\ upper base = base /\
                         base <> "BTC" /\ base <> "ETH")
         /\ (1 <= toordinal (mkdate 2025 6 3) + 14 <= max_ordinal)%Z
     | SelfTime.ListedThenRaised tags =>
         ((List.length tags <= 200)%nat /\
          forall tag, In tag tags ->
            exists base, tag = (base ++ "/USDT:USDT")%string /\ upper base = base /\
                         base <> "BTC" /\ base <> "ETH")
         /\ ~ (1 <= toordinal (mkdate 2025 6 3) + 14 <= max_ordinal)%Z
     | SelfTime.NotListed e =>
         fst (SelfTime.get_high_volume_to_marketcap_contracts scenario (@rev future) true
                None 1000 (Some (mkdate 2025 6 3)) 14 (4 # 10) 200) = Raise e
     end.
Proof.
  assert (Hvalid : valid_date (mkdate 2025 6 3)) by reflexivity.
  assert (Hwindow : window_in_range (mkdate 2025 6 3) 14).
  { unfold window_in_range. vm_compute. discriminate. }
  split; [exact Hvalid|]. split; [exact Hwindow|]. split; [reflexivity|].
  apply (listed_tags scenario (@rev future) true None None 1000 1001
           (mkdate 2025 6 3) 14 (4 # 10) (fun done => Permutation_rev done)
           Hvalid Hwindow).
Defined.

(** ** tools/cal.py *)

Lemma calculate_return_closed_form (risk_reward_ratio win_rate num_trades : Q) :
  Cal.calculate_return risk_reward_ratio win_rate num_trades
  == num_trades * (win_rate * (risk_reward_ratio + 1) - 1).
Proof. unfold Cal.calculate_return. ring. Qed.

(** With exact arithmetic in place of floats, and for a positive number
    of trades, [calculate_return] is positive exactly when the win rate
    times the risk-reward ratio plus one exceeds 1, and it is 0 exactly at
    that break-even point; it is proportional to the number of trades. *)
Theorem calculate_return_break_even (risk_reward_ratio win_rate num_trades k : Q) :
  0 < num_trades ->
  (0 < Cal.calculate_return risk_reward_ratio win_rate num_trades
   <-> 1 < win_rate * (risk_reward_ratio + 1))
  /\
  (Cal.calculate_return risk_reward_ratio win_rate num_trades == 0
   <-> win_rate * (risk_reward_ratio + 1) == 1)
  /\
  Cal.calculate_return risk_reward_ratio win_rate (k * num_trades)
  == k * Cal.calculate_return risk_reward_ratio win_rate num_trades.
Proof.
  intros Hn.
  pose proof (calculate_return_closed_form risk_reward_ratio win_rate num_trades) as Hform.
  set (x := win_rate * (risk_reward_ratio + 1)) in *.
  split; [|split].
  - rewrite Hform. split; intros H; nra.
  - rewrite Hform. split; intros H; nra.
  - rewrite !calculate_return_closed_form. ring.
Qed.

Lemma calculate_return_break_even_witness :
  0 < Cal.calculate_return (3 # 2) (1 # 2) 100
  /\ Cal.calculate_return (3 # 2) (4 # 10) 100 == 0.
Proof.
  destruct (calculate_return_break_even (3 # 2) (1 # 2) 100 1 eq_refl) as (Hpos & _ & _).
  destruct (calculate_return_break_even (3 # 2) (4 # 10) 100 1 eq_refl) as (_ & Hzero & _).
  split; [apply Hpos | apply Hzero]; reflexivity.
Defined.

(** ** No division by a zero market cap in a run (C7) *)


